(** * Wingman-Monitor: the error-capture and reporting pipeline

    A shallow embedding of the error filter ([shouldReportError],
    [getEnvironmentConfig]), of class [WingmanMonitor] and of class
    [ConfigManager] ([src/config.ts]), with the properties of the
    specification stated and settled against it.

    Conventions.
    - JavaScript strings are [string]; [number]s that the code uses as
      integers (epoch milliseconds, line numbers, HTTP status) are [Z].
    - Values of type [any] are the inductive [any]; what the JavaScript
      runtime does with them ([JSON.stringify], [String], [toISOString])
      is the interface [JsRuntime].
    - Methods that read or write [this], the globals ([console], [window],
      [process]), the clock, the file system or the network are
      computations in the monad [M] over [World], whose results are a
      normal return, a thrown exception (with the state at the throw, so
      that [try]/[catch] can be modelled) or recursion without end.  A
      recursion of the program that the stack cuts short ends in a
      [RangeError]: the runtime tells how many nested calls fit.
    - The program runs on one thread.  An [async] method is one
      computation up to the [await] of the webhook request; what
      [reportError] does once the request has settled is a computation of
      its own, [reportError_settled].  The file system answers at once.
    - Function objects have identity: a hook the monitor creates carries a
      serial number, and [this.handleX.bind(this)] is not [this.handleX]. *)

From Stdlib Require Import ZArith List String Ascii Bool Lia.
Import ListNotations.
Local Open Scope string_scope.
Local Open Scope Z_scope.
Set Warnings "-register-all".

(* ================================================================= *)
(** ** JavaScript values and strings *)

Module Js.

(** [Error] objects: the two properties the code reads. *)
Record Error := mkError { err_message : string; err_stack : option string }.

Inductive any :=
| Undefined
| Null
| Bool (b : bool)
| Num (z : Z)
| Str (s : string)
| ErrorObj (e : Error)
| Arr (items : list any)
| Obj (fields : list (string * any)).

(** [typeof v === 'object'] *)
Definition typeof_object (v : any) : bool :=
  match v with
  | Null | ErrorObj _ | Arr _ | Obj _ => true
  | _ => false
  end.

(** [v instanceof Error] *)
Definition instanceof_Error (v : any) : bool :=
  match v with
  | ErrorObj _ => true
  | _ => false
  end.

Fixpoint assoc (k : string) (fields : list (string * any)) : any :=
  match fields with
  | [] => Undefined
  | (k', v) :: rest => if String.eqb k k' then v else assoc k rest
  end.

(** [v?.k]: [undefined] on [null], [undefined] and on values without the
    property. *)
Definition get_prop (v : any) (k : string) : any :=
  match v with
  | Obj fields => assoc k fields
  | _ => Undefined
  end.

(** [v === 0] *)
Definition strict_eq_zero (v : any) : bool :=
  match v with
  | Num z => z =? 0
  | _ => false
  end.

(** Truthiness of a string or of an absent one. *)
Definition truthy_str (s : string) : bool :=
  match s with EmptyString => false | _ => true end.

Definition truthy_opt (o : option string) : bool :=
  match o with Some s => truthy_str s | None => false end.

(** [a || b] on strings *)
Definition or_else (o : option string) (d : string) : string :=
  match o with
  | Some s => if truthy_str s then s else d
  | None => d
  end.

Fixpoint starts_with (p s : string) : bool :=
  match p, s with
  | EmptyString, _ => true
  | String a p', String b s' => Ascii.eqb a b && starts_with p' s'
  | String _ _, EmptyString => false
  end.

(** [s.includes(sub)] *)
Fixpoint includes (s sub : string) : bool :=
  starts_with sub s ||
  match s with
  | EmptyString => false
  | String _ s' => includes s' sub
  end.

Definition upper_ascii (c : ascii) : ascii :=
  let n := nat_of_ascii c in
  if (andb (Nat.leb 97 n) (Nat.leb n 122)) then ascii_of_nat (n - 32) else c.

Definition lower_ascii (c : ascii) : ascii :=
  let n := nat_of_ascii c in
  if (andb (Nat.leb 65 n) (Nat.leb n 90)) then ascii_of_nat (n + 32) else c.

Fixpoint map_string (f : ascii -> ascii) (s : string) : string :=
  match s with
  | EmptyString => EmptyString
  | String c s' => String (f c) (map_string f s')
  end.

(** [s.toUpperCase()] and [s.toLowerCase()], on ASCII text. *)
Definition toUpperCase := map_string upper_ascii.
Definition toLowerCase := map_string lower_ascii.

(** [parts.join(sep)] *)
Fixpoint join (sep : string) (parts : list string) : string :=
  match parts with
  | [] => ""
  | [p] => p
  | p :: rest => p ++ sep ++ join sep rest
  end.

Definition nl : string := String (ascii_of_nat 10) EmptyString.
Definition dquote : string := String (ascii_of_nat 34) EmptyString.

(** Why a webhook POST did not succeed: what [axios.post] rejects with. *)
Inductive DeliveryFailure :=
| Timeout
| NetworkError
| BadStatus (code : Z).

Inductive Outcome :=
| Delivered
| Failed (f : DeliveryFailure).

(** What the runtime, Node and axios supply.  For [JSON.stringify],
    [None] is a thrown exception (a circular structure, a throwing
    [toJSON]), [JSON_stringify_thrown] is what is thrown then, and an
    [undefined] result is the empty string, which is what [join] makes of
    it.  [Error] objects here carry a message and a stack and nothing that
    could make serialising them throw.  [stack_frames] is the number of
    further calls of itself that a handler can nest before the stack
    overflows. *)
Class JsRuntime := {
  JSON_stringify : any -> option string;         (* JSON.stringify(v) *)
  JSON_stringify_pretty : any -> option string;  (* JSON.stringify(v, null, 2) *)
  JSON_stringify_thrown : any -> any;            (* what JSON.stringify(v) throws *)
  String_of : any -> string;                     (* String(v) *)
  toISOString : Z -> string;                     (* new Date(ms).toISOString() *)
  path_join : string -> string -> string;        (* path.join(dir, name) *)
  axios_error : DeliveryFailure -> Error;        (* the rejection of axios.post *)
  stack_frames : nat;
  JSON_stringify_Error : forall e, JSON_stringify (ErrorObj e) <> None
}.

End Js.
Import Js.

(* ================================================================= *)
(** ** src/utils/errorFiltering.ts *)

Module ErrorFiltering.

(** The part of [process.env] the filter reads. *)
Record ProcessEnv := mkEnv {
  NODE_ENV : option string;
  VERCEL : option string;
  WINGMAN_WEBHOOK_URL : option string
}.

Definition env_is (v : option string) (lit : string) : bool :=
  match v with Some s => String.eqb s lit | None => false end.

Definition shouldReportError (env : ProcessEnv) (error : Error) (context : any) : bool :=
  if env_is (NODE_ENV env) "development" then false
  else if includes (err_message error) "chrome-extension://" then false
  else if includes (err_message error) "Failed to fetch"
          && strict_eq_zero (get_prop context "status") then false
  else if includes (err_message error) "Script error" then false
  else true.

Record EnvironmentConfig := mkEnvConfig {
  enableErrorReporting : bool;
  enablePerformanceMonitoring : bool;
  enableDebugLogs : bool;
  apiEndpoint : string
}.

Definition getEnvironmentConfig (env : ProcessEnv) : EnvironmentConfig :=
  let isProduction := env_is (NODE_ENV env) "production" in
  let isDevelopment := env_is (NODE_ENV env) "development" in
  {| enableErrorReporting := isProduction;
     enablePerformanceMonitoring := isProduction;
     enableDebugLogs := isDevelopment;
     apiEndpoint := if isProduction then "https://api.wingman.dev"
                    else "http://localhost:3001" |}.

(** The policy as the specification words it: rule 4 compares the message
    with the marker for equality. *)
Definition shouldReport_spec (env : ProcessEnv) (error : Error) (context : any) : bool :=
  if env_is (NODE_ENV env) "development" then false
  else if includes (err_message error) "chrome-extension://" then false
  else if includes (err_message error) "Failed to fetch"
          && strict_eq_zero (get_prop context "status") then false
  else if String.eqb (err_message error) "Script error" then false
  else true.

End ErrorFiltering.

(* ================================================================= *)
(** ** Data model: config, log entries, reports, the host environment *)

Module Config.

(** [interface WingmanConfig] *)
Record WingmanConfig := mkConfig {
  accessToken : string;
  projectId : option string;
  environment : string;
  projectPath : string;
  enabled : option bool;
  createdAt : option string
}.

(** [class ConfigManager]: its two private fields. *)
Record ConfigManager := mkConfigManager {
  configPath : string;
  config : option WingmanConfig
}.

(** A JSON file as [fs] sees it: missing, present but failing to read or
    parse (with the error thrown), or holding a document. *)
Inductive FileState (A : Type) :=
| Absent
| Unreadable (e : Error)
| Holds (doc : A).
Arguments Absent {A}.
Arguments Unreadable {A} e.
Arguments Holds {A} doc.

End Config.
Import Config.

Module Model.

Inductive Severity := low | medium | high | critical.

Record ProjectInfo := mkProjectInfo {
  pi_name : option string;
  pi_version : option string;
  pi_url : option string
}.

(** [interface ErrorReport] *)
Record ErrorReport := mkReport {
  message : string;
  errorType : string;
  severity : Severity;
  rep_environment : string;
  rep_accessToken : string;
  timestamp : Z;
  stack : option string;
  projectInfo : option ProjectInfo;
  metadata : any
}.

(** An element of [recentLogs]. *)
Record LogEntry := mkLog {
  log_type : string;
  log_message : string;
  log_timestamp : Z;
  log_args : list any
}.

(** The fields of [package.json] that [getProjectInfo] reads. *)
Record PackageJson := mkPackage {
  pkg_name : option string;
  pkg_version : option string;
  pkg_homepage : option string;
  pkg_repository_url : option string
}.

(** A function held in a global slot ([console.error], [window.onerror],
    ...): a function of the host, or the hook this monitor created for
    that slot; [serial] tells two such hooks apart. *)
Inductive HookFn :=
| HostFn (id : nat)
| OwnHook (serial : nat).

(** A [process] listener: a function of the host, the result of
    [this.handleX.bind(this)] (a new function object at every call of
    [bind]), or the method [this.handleX] itself. *)
Inductive Listener :=
| HostListener (id : nat)
| BoundMethod (serial : nat)
| UnboundMethod.

Definition Listener_eqb (a b : Listener) : bool :=
  match a, b with
  | HostListener i, HostListener j => Nat.eqb i j
  | BoundMethod i, BoundMethod j => Nat.eqb i j
  | UnboundMethod, UnboundMethod => true
  | _, _ => false
  end.

(** [class WingmanMonitor]: its private fields ([maxLogs] is below). *)
Record WingmanMonitor := mkMonitor {
  config : option WingmanConfig;
  configManager : ConfigManager;
  isStarted : bool;
  originalErrorHandler : option HookFn;
  originalUnhandledRejectionHandler : option HookFn;
  originalConsoleError : HookFn;
  originalConsoleWarn : HookFn;
  originalConsoleLog : HookFn;
  recentLogs : list LogEntry
}.

(** [private maxLogs = 50], never assigned again. *)
Definition maxLogs : nat := 50.

Record Console := mkConsole {
  console_error : HookFn;
  console_warn : HookFn;
  console_log : HookFn
}.

Record Window := mkWindow {
  onerror : option HookFn;
  onunhandledrejection : option HookFn;
  location_href : option string;
  navigator_userAgent : option string
}.

(** The listeners of the two [process] events, in registration order. *)
Record Process := mkProcess {
  uncaughtException : list Listener;
  unhandledRejection : list Listener
}.

(** The body of [axios.post(url, payload, options)]. *)
Record Payload := mkPayload {
  event : string;
  data : ErrorReport;
  payload_timestamp : Z;
  source : string
}.

Record PostRequest := mkPost {
  post_url : string;
  post_payload : Payload;
  post_headers : list (string * string);
  post_timeout : Z
}.

(** A call received by a function of the host. *)
Inductive HostCall :=
| Called (id : nat) (args : list any).

Record World := mkWorld {
  monitor : WingmanMonitor;
  console : Console;
  process : option Process;       (* [None]: no [process.on] *)
  window : option Window;         (* [None]: [typeof window === 'undefined'] *)
  env : ErrorFiltering.ProcessEnv;
  cwd : string;
  config_file : string -> FileState WingmanConfig;
  package_json : string -> FileState PackageJson;
  clock : nat -> Z;               (* the successive readings of [Date.now()] *)
  clock_reads : nat;
  next_serial : nat;
  posts : list PostRequest;       (* every POST issued, oldest first *)
  host_calls : list HostCall;     (* every call into the host, oldest first *)
  host_returns : nat -> bool      (* what a handler of the host returns *)
}.

End Model.

(* ================================================================= *)
(** ** The monad of methods *)

Module Effects.
Import Model.

Inductive Result (A : Type) :=
| Ok (a : A) (w : World)          (* normal return *)
| Throw (e : any) (w : World)     (* exception [e], thrown in state [w] *)
| Diverge.                        (* recursion without end *)
Arguments Ok {A} a w.
Arguments Throw {A} e w.
Arguments Diverge {A}.

Definition M (A : Type) : Type := World -> Result A.

Definition ret {A} (a : A) : M A := fun w => Ok a w.

Definition bind {A B} (m : M A) (k : A -> M B) : M B :=
  fun w =>
    match m w with
    | Ok a w' => k a w'
    | Throw e w' => Throw e w'
    | Diverge => Diverge
    end.

Definition throw {A} (e : any) : M A := fun w => Throw e w.
Definition diverge {A} : M A := fun _ => Diverge.

(** [try { body } catch (error) { handler(error) }] *)
Definition try_catch {A} (body : M A) (handler : any -> M A) : M A :=
  fun w =>
    match body w with
    | Throw e w' => handler e w'
    | r => r
    end.

Definition gets {A} (f : World -> A) : M A := fun w => Ok (f w) w.
Definition modify (f : World -> World) : M unit := fun w => Ok tt (f w).

(** *** Field updates *)

Definition with_monitor (f : WingmanMonitor -> WingmanMonitor) (w : World) : World :=
  mkWorld (f (monitor w)) (console w) (process w) (window w) (env w) (cwd w)
          (config_file w) (package_json w) (clock w) (clock_reads w)
          (next_serial w) (posts w) (host_calls w) (host_returns w).

Definition with_console (f : Console -> Console) (w : World) : World :=
  mkWorld (monitor w) (f (console w)) (process w) (window w) (env w) (cwd w)
          (config_file w) (package_json w) (clock w) (clock_reads w)
          (next_serial w) (posts w) (host_calls w) (host_returns w).

Definition with_process (f : option Process -> option Process) (w : World) : World :=
  mkWorld (monitor w) (console w) (f (process w)) (window w) (env w) (cwd w)
          (config_file w) (package_json w) (clock w) (clock_reads w)
          (next_serial w) (posts w) (host_calls w) (host_returns w).

Definition with_window (f : option Window -> option Window) (w : World) : World :=
  mkWorld (monitor w) (console w) (process w) (f (window w)) (env w) (cwd w)
          (config_file w) (package_json w) (clock w) (clock_reads w)
          (next_serial w) (posts w) (host_calls w) (host_returns w).

Definition with_clock_reads (f : nat -> nat) (w : World) : World :=
  mkWorld (monitor w) (console w) (process w) (window w) (env w) (cwd w)
          (config_file w) (package_json w) (clock w) (f (clock_reads w))
          (next_serial w) (posts w) (host_calls w) (host_returns w).

Definition with_next_serial (f : nat -> nat) (w : World) : World :=
  mkWorld (monitor w) (console w) (process w) (window w) (env w) (cwd w)
          (config_file w) (package_json w) (clock w) (clock_reads w)
          (f (next_serial w)) (posts w) (host_calls w) (host_returns w).

Definition with_posts (f : list PostRequest -> list PostRequest) (w : World) : World :=
  mkWorld (monitor w) (console w) (process w) (window w) (env w) (cwd w)
          (config_file w) (package_json w) (clock w) (clock_reads w)
          (next_serial w) (f (posts w)) (host_calls w) (host_returns w).

Definition with_host_calls (f : list HostCall -> list HostCall) (w : World) : World :=
  mkWorld (monitor w) (console w) (process w) (window w) (env w) (cwd w)
          (config_file w) (package_json w) (clock w) (clock_reads w)
          (next_serial w) (posts w) (f (host_calls w)) (host_returns w).

Definition set_config (c : option WingmanConfig) (m : WingmanMonitor) : WingmanMonitor :=
  mkMonitor c (configManager m) (isStarted m) (originalErrorHandler m)
            (originalUnhandledRejectionHandler m) (originalConsoleError m)
            (originalConsoleWarn m) (originalConsoleLog m) (recentLogs m).

Definition set_configManager (cm : ConfigManager) (m : WingmanMonitor) : WingmanMonitor :=
  mkMonitor (config m) cm (isStarted m) (originalErrorHandler m)
            (originalUnhandledRejectionHandler m) (originalConsoleError m)
            (originalConsoleWarn m) (originalConsoleLog m) (recentLogs m).

Definition set_isStarted (b : bool) (m : WingmanMonitor) : WingmanMonitor :=
  mkMonitor (config m) (configManager m) b (originalErrorHandler m)
            (originalUnhandledRejectionHandler m) (originalConsoleError m)
            (originalConsoleWarn m) (originalConsoleLog m) (recentLogs m).

Definition set_originalHandlers (e r : option HookFn) (m : WingmanMonitor) : WingmanMonitor :=
  mkMonitor (config m) (configManager m) (isStarted m) e r (originalConsoleError m)
            (originalConsoleWarn m) (originalConsoleLog m) (recentLogs m).

Definition set_originalConsole (c : Console) (m : WingmanMonitor) : WingmanMonitor :=
  mkMonitor (config m) (configManager m) (isStarted m) (originalErrorHandler m)
            (originalUnhandledRejectionHandler m) (console_error c)
            (console_warn c) (console_log c) (recentLogs m).

Definition set_recentLogs (l : list LogEntry) (m : WingmanMonitor) : WingmanMonitor :=
  mkMonitor (config m) (configManager m) (isStarted m) (originalErrorHandler m)
            (originalUnhandledRejectionHandler m) (originalConsoleError m)
            (originalConsoleWarn m) (originalConsoleLog m) l.

(** *** Primitive effects *)

(** [Date.now()]: the next reading of the clock. *)
Definition Date_now : M Z :=
  fun w => Ok (clock w (clock_reads w)) (with_clock_reads S w).

(** The identity of a newly created function object. *)
Definition fresh_serial : M nat :=
  fun w => Ok (next_serial w) (with_next_serial S w).

(** A call into a function of the host. *)
Definition call_host (id : nat) (args : list any) : M unit :=
  modify (with_host_calls (fun l => (l ++ [Called id args])%list)).

(** [RangeError: Maximum call stack size exceeded] *)
Definition RangeError : any :=
  ErrorObj (mkError "Maximum call stack size exceeded" None).

End Effects.

Declare Scope monad_scope.
Delimit Scope monad_scope with monad.
Notation "x <- c1 ;; c2" := (Effects.bind c1 (fun x => c2))
  (at level 61, c1 at next level, right associativity) : monad_scope.
Notation "c1 ;; c2" := (Effects.bind c1 (fun _ => c2))
  (at level 61, right associativity) : monad_scope.

(* ================================================================= *)
(** ** class WingmanMonitor and class ConfigManager *)

Module Monitor.
Import Model Effects.
Local Open Scope monad_scope.

Inductive ConsoleKind := KError | KWarn | KLog.

(** The first argument the wrappers pass to [captureConsoleLog]. *)
Definition kind_name (k : ConsoleKind) : string :=
  match k with KError => "error" | KWarn => "warn" | KLog => "log" end.

Definition slot (k : ConsoleKind) (c : Console) : HookFn :=
  match k with
  | KError => console_error c
  | KWarn => console_warn c
  | KLog => console_log c
  end.

Definition original (k : ConsoleKind) (m : WingmanMonitor) : HookFn :=
  match k with
  | KError => originalConsoleError m
  | KWarn => originalConsoleWarn m
  | KLog => originalConsoleLog m
  end.

(** [errorContext] of [buildComprehensiveMessage]: the properties it reads. *)
Record ErrorContext := mkContext {
  ctx_stack : option string;
  ctx_url : option string;
  ctx_userAgent : option string
}.

(** What [JSON.stringify] throws on a circular structure. *)
Definition TypeError : any :=
  ErrorObj (mkError "Converting circular structure to JSON" None).
Definition ReferenceError : any :=
  ErrorObj (mkError "window is not defined" None).

(** [a.push(x)], [a.shift()] *)
Definition push {A} (a : list A) (x : A) : list A := (a ++ [x])%list.
Definition shift {A} (a : list A) : list A := tl a.

Section WithRuntime.
Context {rt : JsRuntime}.

(** The [map] callback of [captureConsoleLog]. *)
Definition render_arg (arg : any) : string :=
  match (if typeof_object arg then JSON_stringify_pretty arg
         else Some (String_of arg)) with
  | Some s => s
  | None => "[Circular Object]"
  end.

Definition captureConsoleLog (type : string) (args : list any) : M unit :=
  let message := join " " (map render_arg args) in
  now <- Date_now ;;
  let logEntry := mkLog type message now args in
  modify (with_monitor (fun m => set_recentLogs (push (recentLogs m) logEntry) m)) ;;
  logs <- gets (fun w => recentLogs (monitor w)) ;;
  if (maxLogs <? List.length logs)%nat
  then modify (with_monitor (fun m => set_recentLogs (shift (recentLogs m)) m))
  else ret tt.

Definition in_window (startTime errorTimestamp : Z) (log : LogEntry) : bool :=
  (startTime <=? log_timestamp log) && (log_timestamp log <=? errorTimestamp).

(** One iteration of the [forEach] of [getRelevantLogs]. *)
Definition append_line (logContext : string) (log : LogEntry) : string :=
  logContext ++ "[" ++ toISOString (log_timestamp log) ++ "] "
             ++ toUpperCase (log_type log) ++ ": " ++ log_message log ++ nl.

Definition logs_header : string :=
  nl ++ nl ++ "--- Recent Console Activity ---" ++ nl.

Definition getRelevantLogs (errorTimestamp : Z) (windowMs : Z) : M string :=
  let startTime := errorTimestamp - windowMs in
  logs <- gets (fun w => recentLogs (monitor w)) ;;
  let relevantLogs := filter (in_window startTime errorTimestamp) logs in
  if (List.length relevantLogs =? 0)%nat then ret ""
  else ret (fold_left append_line relevantLogs logs_header).

(** The default of the parameter [windowMs]. *)
Definition default_windowMs : Z := 5000.

Definition buildComprehensiveMessage (primaryMessage : string)
           (errorContext : ErrorContext) : M string :=
  now <- Date_now ;;
  relevantLogs <- getRelevantLogs now default_windowMs ;;
  let message := primaryMessage in
  let message := if truthy_str relevantLogs then message ++ relevantLogs
                 else message in
  let message := match ctx_url errorContext with
                 | Some url => if truthy_str url
                               then message ++ nl ++ nl ++ "--- Context ---" ++ nl
                                            ++ "URL: " ++ url
                               else message
                 | None => message
                 end in
  let message := match ctx_userAgent errorContext with
                 | Some ua => if truthy_str ua
                              then message ++ nl ++ "User Agent: " ++ ua
                              else message
                 | None => message
                 end in
  let message := match ctx_stack errorContext with
                 | Some st => if truthy_str st
                              then message ++ nl ++ nl ++ "--- Stack Trace ---" ++ nl ++ st
                              else message
                 | None => message
                 end in
  ret message.

Definition default_webhook : string :=
  "https://patchworks-sigma.vercel.app/webhook".

Definition mk_request (webhookUrl : string) (errorReport : ErrorReport) : PostRequest :=
  {| post_url := webhookUrl;
     post_payload := {| event := "error.runtime";
                        data := errorReport;
                        payload_timestamp := timestamp errorReport;
                        source := "wingman-monitor" |};
     post_headers := [("Content-Type", "application/json");
                      ("Authorization", "Bearer " ++ rep_accessToken errorReport);
                      ("User-Agent", "Wingman-Monitor/1.0.0")];
     post_timeout := 5000 |}.

(** [reportError], up to and including the call of [axios.post]: the
    method is suspended at the [await] until the request settles. *)
Definition reportError (errorReport : ErrorReport) : M unit :=
  cfg <- gets (fun w => config (monitor w)) ;;
  match cfg with
  | None => ret tt
  | Some _ =>
      e <- gets env ;;
      let webhookUrl :=
        or_else (ErrorFiltering.WINGMAN_WEBHOOK_URL e) default_webhook in
      modify (with_posts (fun l => push l (mk_request webhookUrl errorReport)))
  end.

Definition getProjectInfo : M (option ProjectInfo) :=
  cfg <- gets (fun w => config (monitor w)) ;;
  dir <- gets (fun w => or_else (option_map projectPath cfg) (cwd w)) ;;
  file <- gets (fun w => package_json w (path_join dir "package.json")) ;;
  match file with
  | Holds packageJson =>
      ret (Some {| pi_name := pkg_name packageJson;
                   pi_version := pkg_version packageJson;
                   pi_url := if truthy_opt (pkg_homepage packageJson)
                             then pkg_homepage packageJson
                             else pkg_repository_url packageJson |})
  | _ => ret (Some (mkProjectInfo None None None))
  end.

(** [this.config?.environment || d] and [this.config?.accessToken || ''] *)
Definition config_environment (d : string) : M string :=
  gets (fun w => or_else (option_map environment (config (monitor w))) d).
Definition config_accessToken : M string :=
  gets (fun w => or_else (option_map accessToken (config (monitor w))) "").

(** [typeof window !== 'undefined' ? window.location?.href : undefined]
    and the same for [navigator?.userAgent]. *)
Definition window_url : M (option string) :=
  gets (fun w => match window w with Some win => location_href win | None => None end).
Definition window_userAgent : M (option string) :=
  gets (fun w => match window w with Some win => navigator_userAgent win | None => None end).

(** [arg => typeof arg === 'string' ? arg : JSON.stringify(arg)], which
    throws where [JSON.stringify] does. *)
Definition console_part (arg : any) : option string :=
  match arg with
  | Str s => Some s
  | _ => JSON_stringify arg
  end.

Fixpoint console_parts (args : list any) : option (list string) :=
  match args with
  | [] => Some []
  | a :: rest =>
      match console_part a with
      | None => None
      | Some s => option_map (cons s) (console_parts rest)
      end
  end.

(** What [args.map(...)] throws when it throws: the exception of the
    first argument that does not serialise. *)
Fixpoint console_thrown (args : list any) : any :=
  match args with
  | [] => Undefined
  | a :: rest =>
      match console_part a with
      | None => JSON_stringify_thrown a
      | Some _ => console_thrown rest
      end
  end.

(** The [map] callback of the metadata of [handleConsoleError]. *)
Definition metadata_arg (arg : any) : any :=
  match (if typeof_object arg then JSON_stringify arg
         else Some (String_of arg)) with
  | Some s => Str s
  | None => Str "[Circular Object]"
  end.

Definition handleConsoleError (args : list any) : M unit :=
  timestamp <- Date_now ;;
  match console_parts args with
  | None => throw (console_thrown args)
  | Some parts =>
      let message := join " " parts in
      if includes (toLowerCase message) "error" || existsb instanceof_Error args
      then
        url <- window_url ;;
        userAgent <- window_userAgent ;;
        comprehensiveMessage <-
          buildComprehensiveMessage message (mkContext None url userAgent) ;;
        environment <- config_environment "unknown" ;;
        projectInfo <- getProjectInfo ;;
        accessToken <- config_accessToken ;;
        reportError {| message := comprehensiveMessage;
                       timestamp := timestamp;
                       rep_environment := environment;
                       projectInfo := projectInfo;
                       errorType := "consoleError";
                       severity := low;
                       rep_accessToken := accessToken;
                       stack := None;
                       metadata := Obj [("args", Arr (map metadata_arg args))] |}
      else ret tt
  end.

(** A call of the arrow function that [setupErrorHandlers] stored in
    [console.error], [console.warn] or [console.log].  It first calls
    [this.originalConsoleX]; when that field holds such an arrow
    function itself, the call never reaches the host and the stack
    overflows before anything else happens. *)
Definition console_wrapper (k : ConsoleKind) (args : list any) : M unit :=
  orig <- gets (fun w => original k (monitor w)) ;;
  match orig with
  | HostFn id =>
      call_host id args ;;
      captureConsoleLog (kind_name k) args ;;
      match k with
      | KError => handleConsoleError args
      | _ => ret tt
      end
  | OwnHook _ => throw RangeError
  end.

(** [console.error(...args)], [console.warn(...args)], [console.log(...args)] *)
Definition console_call (k : ConsoleKind) (args : list any) : M unit :=
  f <- gets (fun w => slot k (console w)) ;;
  match f with
  | HostFn id => call_host id args
  | OwnHook _ => console_wrapper k args
  end.

(** [reportError], from the moment the request settles: the rest of the
    [try] block after a delivery, the [catch] block after a failure. *)
Definition reportError_settled (o : Outcome) : M unit :=
  match o with
  | Delivered =>
      try_catch (console_call KLog [Str "Wingman: Error reported successfully"])
                (fun error => console_call KError
                                [Str "Wingman: Failed to report error:"; error])
  | Failed f =>
      console_call KError [Str "Wingman: Failed to report error:";
                           ErrorObj (axios_error f)]
  end.

(** *** The handlers installed by [setupErrorHandlers] *)

Definition handleUncaughtException (error : Error) : M unit :=
  timestamp <- Date_now ;;
  url <- window_url ;;
  userAgent <- window_userAgent ;;
  comprehensiveMessage <-
    buildComprehensiveMessage (err_message error)
                              (mkContext (err_stack error) url userAgent) ;;
  environment <- config_environment "unknown" ;;
  projectInfo <- getProjectInfo ;;
  accessToken <- config_accessToken ;;
  reportError {| message := comprehensiveMessage;
                 stack := err_stack error;
                 timestamp := timestamp;
                 rep_environment := environment;
                 projectInfo := projectInfo;
                 errorType := "uncaughtException";
                 severity := critical;
                 rep_accessToken := accessToken;
                 metadata := Undefined |}.

(** [reason instanceof Error ? reason.message : String(reason)] and
    [reason instanceof Error ? reason.stack : undefined] *)
Definition reason_message (reason : any) : string :=
  match reason with
  | ErrorObj e => err_message e
  | _ => String_of reason
  end.
Definition reason_stack (reason : any) : option string :=
  match reason with
  | ErrorObj e => err_stack e
  | _ => None
  end.

Definition handleUnhandledRejection (reason : any) : M unit :=
  timestamp <- Date_now ;;
  let message := reason_message reason in
  let stack := reason_stack reason in
  url <- window_url ;;
  userAgent <- window_userAgent ;;
  comprehensiveMessage <-
    buildComprehensiveMessage message (mkContext stack url userAgent) ;;
  environment <- config_environment "unknown" ;;
  projectInfo <- getProjectInfo ;;
  accessToken <- config_accessToken ;;
  reportError {| message := comprehensiveMessage;
                 stack := stack;
                 timestamp := timestamp;
                 rep_environment := environment;
                 projectInfo := projectInfo;
                 errorType := "unhandledRejection";
                 severity := high;
                 rep_accessToken := accessToken;
                 metadata := Undefined |}.

(** [window.location?.href] and [navigator?.userAgent] where the code
    reads them without testing [typeof window]. *)
Definition the_window : M Window :=
  win <- gets window ;;
  match win with
  | Some x => ret x
  | None => throw ReferenceError
  end.

(** [handleWindowError], with room for [frames] further calls of itself.
    When the saved handler is a hook of this monitor, calling it runs this
    method again, which reports and calls the saved handler again: every
    level reports, until the stack overflows.  The overflow is placed at
    the call of the saved handler. *)
Fixpoint handleWindowError_within (frames : nat) (message source lineno colno : any)
         (error : option Error) : M bool :=
  timestamp <- Date_now ;;
  let errorMessage := match message with Str s => s | _ => "Unknown error" end in
  let stack := match error with Some e => err_stack e | None => None end in
  win <- the_window ;;
  comprehensiveMessage <-
    buildComprehensiveMessage errorMessage
      (mkContext stack (location_href win) (navigator_userAgent win)) ;;
  environment <- config_environment "unknown" ;;
  projectInfo <- getProjectInfo ;;
  accessToken <- config_accessToken ;;
  reportError {| message := comprehensiveMessage;
                 stack := stack;
                 timestamp := timestamp;
                 rep_environment := environment;
                 projectInfo := projectInfo;
                 errorType := "windowError";
                 severity := medium;
                 rep_accessToken := accessToken;
                 metadata := Obj [("source", source); ("lineno", lineno);
                                  ("colno", colno)] |} ;;
  orig <- gets (fun w => originalErrorHandler (monitor w)) ;;
  match orig with
  | None => ret true
  | Some (HostFn id) =>
      call_host id [message; source; lineno; colno;
                    match error with Some e => ErrorObj e | None => Undefined end] ;;
      gets (fun w => host_returns w id)
  | Some (OwnHook _) =>
      match frames with
      | O => throw RangeError
      | S frames' => handleWindowError_within frames' message source lineno colno error
      end
  end.

Definition handleWindowError (message source lineno colno : any)
           (error : option Error) : M bool :=
  handleWindowError_within stack_frames message source lineno colno error.

(** [handleWindowUnhandledRejection], with room for [frames] further
    calls of itself; the value a nested call returns is dropped. *)
Fixpoint handleWindowUnhandledRejection_within (frames : nat) (reason : any) : M bool :=
  timestamp <- Date_now ;;
  let message := reason_message reason in
  let stack := reason_stack reason in
  win <- the_window ;;
  comprehensiveMessage <-
    buildComprehensiveMessage message
      (mkContext stack (location_href win) (navigator_userAgent win)) ;;
  environment <- config_environment "unknown" ;;
  projectInfo <- getProjectInfo ;;
  accessToken <- config_accessToken ;;
  reportError {| message := comprehensiveMessage;
                 stack := stack;
                 timestamp := timestamp;
                 rep_environment := environment;
                 projectInfo := projectInfo;
                 errorType := "windowUnhandledRejection";
                 severity := high;
                 rep_accessToken := accessToken;
                 metadata := Undefined |} ;;
  orig <- gets (fun w => originalUnhandledRejectionHandler (monitor w)) ;;
  match orig with
  | None => ret true
  | Some (HostFn id) => call_host id [Obj [("reason", reason)]] ;; ret true
  | Some (OwnHook _) =>
      match frames with
      | O => throw RangeError
      | S frames' => handleWindowUnhandledRejection_within frames' reason ;; ret true
      end
  end.

Definition handleWindowUnhandledRejection (reason : any) : M bool :=
  handleWindowUnhandledRejection_within stack_frames reason.

(** *** Manual reports *)

(** The report [reportCustomError] passes to [reportError]. *)
Definition customErrorReport (error : Error) (metadata : any) : M ErrorReport :=
  timestamp <- Date_now ;;
  url <- window_url ;;
  userAgent <- window_userAgent ;;
  comprehensiveMessage <-
    buildComprehensiveMessage (err_message error)
                              (mkContext (err_stack error) url userAgent) ;;
  environment <- config_environment "unknown" ;;
  projectInfo <- getProjectInfo ;;
  accessToken <- config_accessToken ;;
  ret {| message := comprehensiveMessage;
         stack := err_stack error;
         timestamp := timestamp;
         rep_environment := environment;
         projectInfo := projectInfo;
         errorType := "customError";
         severity := medium;
         rep_accessToken := accessToken;
         metadata := metadata |}.

Definition reportCustomError (error : Error) (metadata : any) : M unit :=
  errorReport <- customErrorReport error metadata ;;
  reportError errorReport.

(** [testWebhook], up to the [await]. *)
Definition testWebhook (stack_of_new_Error : option string) : M unit :=
  let testError := mkError "Temporary test error" stack_of_new_Error in
  timestamp <- Date_now ;;
  url <- window_url ;;
  userAgent <- window_userAgent ;;
  comprehensiveMessage <-
    buildComprehensiveMessage (err_message testError)
                              (mkContext (err_stack testError) url userAgent) ;;
  environment <- config_environment "test" ;;
  projectInfo <- getProjectInfo ;;
  accessToken <- config_accessToken ;;
  reportError {| message := comprehensiveMessage;
                 stack := err_stack testError;
                 timestamp := timestamp;
                 rep_environment := environment;
                 projectInfo := projectInfo;
                 errorType := "testError";
                 severity := low;
                 rep_accessToken := accessToken;
                 metadata := Obj [("test", Bool true)] |}.

(** *** class ConfigManager, on [this.configManager] *)

Definition with_manager (f : ConfigManager -> ConfigManager) : World -> World :=
  with_monitor (fun m => set_configManager (f (configManager m)) m).

Definition ConfigManager_initialize (cfg : WingmanConfig) : M unit :=
  now <- Date_now ;;
  modify (with_manager (fun cm =>
    mkConfigManager (configPath cm)
      (Some (mkConfig (accessToken cfg) (projectId cfg) (environment cfg)
                      (projectPath cfg) (Some true) (Some (toISOString now)))))).

Definition ConfigManager_load : M (option WingmanConfig) :=
  path <- gets (fun w => configPath (configManager (monitor w))) ;;
  file <- gets (fun w => config_file w path) ;;
  match file with
  | Holds doc =>
      modify (with_manager (fun cm => mkConfigManager (configPath cm) (Some doc))) ;;
      gets (fun w => Config.config (configManager (monitor w)))
  | Unreadable error =>
      console_call KError [Str "Failed to load Wingman config:"; ErrorObj error] ;;
      ret None
  | Absent => ret None
  end.

Definition ConfigManager_getConfig : M (option WingmanConfig) :=
  gets (fun w => Config.config (configManager (monitor w))).

(** [this.config?.enabled === true] *)
Definition enabled_is_true (c : option WingmanConfig) : bool :=
  match c with
  | Some cfg => match enabled cfg with Some true => true | _ => false end
  | None => false
  end.

Definition ConfigManager_isEnabled : M bool :=
  gets (fun w => enabled_is_true (Config.config (configManager (monitor w)))).

(** *** Lifecycle *)

Definition add_listeners (s1 s2 : nat) (p : option Process) : option Process :=
  match p with
  | Some pr => Some (mkProcess (push (uncaughtException pr) (BoundMethod s1))
                               (push (unhandledRejection pr) (BoundMethod s2)))
  | None => None
  end.

Definition setupErrorHandlers : M unit :=
  (* process.on(..., this.handleX.bind(this)) *)
  proc <- gets process ;;
  match proc with
  | Some _ =>
      s1 <- fresh_serial ;;
      s2 <- fresh_serial ;;
      modify (with_process (add_listeners s1 s2))
  | None => ret tt
  end ;;
  (* window.onerror, window.onunhandledrejection *)
  win <- gets window ;;
  match win with
  | Some x =>
      modify (with_monitor
                (set_originalHandlers (onerror x) (onunhandledrejection x))) ;;
      s3 <- fresh_serial ;;
      s4 <- fresh_serial ;;
      modify (with_window (fun _ =>
        Some (mkWindow (Some (OwnHook s3)) (Some (OwnHook s4))
                       (location_href x) (navigator_userAgent x))))
  | None => ret tt
  end ;;
  (* the console methods *)
  c <- gets console ;;
  modify (with_monitor (set_originalConsole c)) ;;
  s5 <- fresh_serial ;;
  s6 <- fresh_serial ;;
  s7 <- fresh_serial ;;
  modify (with_console (fun _ => mkConsole (OwnHook s5) (OwnHook s6) (OwnHook s7))).

(** [emitter.removeListener(name, f)]: removes the most recently added
    listener identical to [f], if there is one. *)
Fixpoint remove_first (f : Listener) (l : list Listener) : list Listener :=
  match l with
  | [] => []
  | x :: rest => if Listener_eqb x f then rest else x :: remove_first f rest
  end.
Definition removeListener (f : Listener) (l : list Listener) : list Listener :=
  rev (remove_first f (rev l)).

Definition remove_listeners (p : option Process) : option Process :=
  match p with
  | Some pr => Some (mkProcess (removeListener UnboundMethod (uncaughtException pr))
                               (removeListener UnboundMethod (unhandledRejection pr)))
  | None => None
  end.

Definition restore_window (m : WingmanMonitor) (win : option Window) : option Window :=
  match win with
  | Some x =>
      Some (mkWindow
              (match originalErrorHandler m with
               | Some h => Some h
               | None => onerror x
               end)
              (match originalUnhandledRejectionHandler m with
               | Some h => Some h
               | None => onunhandledrejection x
               end)
              (location_href x) (navigator_userAgent x))
  | None => None
  end.

Definition removeErrorHandlers : M unit :=
  (* process.removeListener(..., this.handleX) *)
  modify (with_process remove_listeners) ;;
  m <- gets monitor ;;
  modify (with_window (restore_window m)).

(** [!this.config.enabled] *)
Definition enabled_falsy (cfg : WingmanConfig) : bool :=
  match enabled cfg with Some true => false | _ => true end.

Definition start : M unit :=
  try_catch
    (loaded <- ConfigManager_load ;;
     modify (with_monitor (set_config loaded)) ;;
     match loaded with
     | None =>
         console_call KWarn
           [Str ("Wingman: No configuration found. Run " ++ dquote
                 ++ "wingman init <accessToken>" ++ dquote ++ " first.")]
     | Some cfg =>
         if enabled_falsy cfg
         then console_call KLog [Str "Wingman: Monitoring is disabled."]
         else
           started <- gets (fun w => isStarted (monitor w)) ;;
           if started
           then console_call KWarn [Str "Wingman: Already started."]
           else
             setupErrorHandlers ;;
             modify (with_monitor (set_isStarted true)) ;;
             console_call KLog
               [Str ("Wingman: Monitoring started for " ++ environment cfg
                     ++ " environment")]
     end)
    (fun error =>
       console_call KError [Str "Wingman: Failed to start monitoring:"; error]).

Definition stop : M unit :=
  started <- gets (fun w => isStarted (monitor w)) ;;
  if negb started then ret tt
  else
    removeErrorHandlers ;;
    modify (with_monitor (set_isStarted false)) ;;
    console_call KLog [Str "Wingman: Monitoring stopped"].

Definition isActive : M bool :=
  gets (fun w => isStarted (monitor w) && enabled_is_true (config (monitor w))).

(** [new WingmanMonitor(projectPath)], which takes the place of the
    monitor of the state.  The state holds one monitor, whose hooks are
    the [OwnHook]s: this is the constructor in a host in which no monitor
    has hooks installed ([untouched], below).  Where hooks of an earlier
    monitor are installed the program has two monitors, which this state
    does not hold. *)
Definition new_WingmanMonitor (projectPath : option string) (w : World) : World :=
  with_monitor (fun _ =>
    {| config := None;
       configManager :=
         mkConfigManager (path_join (or_else projectPath (cwd w)) ".wingman.json") None;
       isStarted := false;
       originalErrorHandler := None;
       originalUnhandledRejectionHandler := None;
       originalConsoleError := console_error (console w);
       originalConsoleWarn := console_warn (console w);
       originalConsoleLog := console_log (console w);
       recentLogs := [] |}) w.

End WithRuntime.

End Monitor.

(* ================================================================= *)
(** ** Executions: what the host and the runtime do with the monitor *)

Module Execution.
Import Model Effects Monitor.
Local Open Scope monad_scope.

(** The state in which a method is left, by a return or by an exception. *)
Definition end_state {A} (r : Result A) : option World :=
  match r with
  | Ok _ w | Throw _ w => Some w
  | Diverge => None
  end.

Definition with_config_file
           (f : (string -> FileState WingmanConfig) -> string -> FileState WingmanConfig)
           (w : World) : World :=
  mkWorld (monitor w) (console w) (process w) (window w) (env w) (cwd w)
          (f (config_file w)) (package_json w) (clock w) (clock_reads w)
          (next_serial w) (posts w) (host_calls w) (host_returns w).

Definition with_env (f : ErrorFiltering.ProcessEnv -> ErrorFiltering.ProcessEnv)
           (w : World) : World :=
  mkWorld (monitor w) (console w) (process w) (window w) (f (env w)) (cwd w)
          (config_file w) (package_json w) (clock w) (clock_reads w)
          (next_serial w) (posts w) (host_calls w) (host_returns w).

(** [process.env.NODE_ENV = v] *)
Definition set_NODE_ENV (v : option string) : World -> World :=
  with_env (fun e => ErrorFiltering.mkEnv v (ErrorFiltering.VERCEL e)
                                          (ErrorFiltering.WINGMAN_WEBHOOK_URL e)).

(** The config file of the monitor's project is written, damaged or deleted. *)
Definition write_config_file (st : FileState WingmanConfig) (w : World) : World :=
  with_config_file
    (fun files p => if String.eqb p (configPath (configManager (monitor w)))
                    then st else files p) w.

Section WithRuntime.
Context {rt : JsRuntime}.

(** A listener called by the [process] emitter.  The unbound method would
    run with [this] being [process]. *)
Definition call_listener (own : M unit) (arg : any) (l : Listener) : M unit :=
  match l with
  | HostListener id => call_host id [arg]
  | BoundMethod _ => own
  | UnboundMethod =>
      throw (ErrorObj (mkError "this.buildComprehensiveMessage is not a function" None))
  end.

Fixpoint call_listeners (own : M unit) (arg : any) (ls : list Listener) : M unit :=
  match ls with
  | [] => ret tt
  | l :: rest => call_listener own arg l ;; call_listeners own arg rest
  end.

Definition emit_uncaughtException (error : Error) : M unit :=
  proc <- gets process ;;
  match proc with
  | Some pr => call_listeners (handleUncaughtException error) (ErrorObj error)
                              (uncaughtException pr)
  | None => ret tt
  end.

Definition emit_unhandledRejection (reason : any) : M unit :=
  proc <- gets process ;;
  match proc with
  | Some pr => call_listeners (handleUnhandledRejection reason) reason
                              (unhandledRejection pr)
  | None => ret tt
  end.

(** The browser calls [window.onerror]. *)
Definition window_error (message source lineno colno : any) (error : option Error) : M unit :=
  win <- gets window ;;
  match win with
  | Some x =>
      match onerror x with
      | Some (HostFn id) =>
          call_host id [message; source; lineno; colno;
                        match error with Some e => ErrorObj e | None => Undefined end]
      | Some (OwnHook _) =>
          handleWindowError message source lineno colno error ;; ret tt
      | None => ret tt
      end
  | None => ret tt
  end.

(** The browser calls [window.onunhandledrejection]. *)
Definition window_unhandledrejection (reason : any) : M unit :=
  win <- gets window ;;
  match win with
  | Some x =>
      match onunhandledrejection x with
      | Some (HostFn id) => call_host id [Obj [("reason", reason)]]
      | Some (OwnHook _) => handleWindowUnhandledRejection reason ;; ret tt
      | None => ret tt
      end
  | None => ret tt
  end.

(** What can happen to a monitor.  [Settled] resumes a suspended
    [reportError]; which request it belongs to plays no role in what the
    continuation does. *)
Inductive Event :=
| Start
| Stop
| ConsoleCall (k : ConsoleKind) (args : list any)
| UncaughtException (error : Error)
| UnhandledRejection (reason : any)
| WindowError (message source lineno colno : any) (error : option Error)
| WindowUnhandledRejection (reason : any)
| ReportCustomError (error : Error) (metadata : any)
| TestWebhook (stack_of_new_Error : option string)
| Settled (o : Outcome)
| ConfigFileBecomes (st : FileState WingmanConfig).

Definition step (ev : Event) : M unit :=
  match ev with
  | Start => start
  | Stop => stop
  | ConsoleCall k args => console_call k args
  | UncaughtException error => emit_uncaughtException error
  | UnhandledRejection reason => emit_unhandledRejection reason
  | WindowError message source lineno colno error =>
      window_error message source lineno colno error
  | WindowUnhandledRejection reason => window_unhandledrejection reason
  | ReportCustomError error metadata => reportCustomError error metadata
  | TestWebhook st => testWebhook st
  | Settled o => reportError_settled o
  | ConfigFileBecomes st => modify (write_config_file st)
  end.

(** An execution: the events one after the other.  An exception that
    leaves an event goes to the host; the next event finds the state the
    exception left. *)
Fixpoint run (evs : list Event) (w : World) : option World :=
  match evs with
  | [] => Some w
  | ev :: rest =>
      match end_state (step ev w) with
      | Some w' => run rest w'
      | None => None
      end
  end.

(** A sequence of calls of [captureConsoleLog]. *)
Fixpoint capture_all (calls : list (string * list any)) : M unit :=
  match calls with
  | [] => ret tt
  | (type, args) :: rest => captureConsoleLog type args ;; capture_all rest
  end.

(** The entry [captureConsoleLog] builds at the clock reading [now]. *)
Definition entry_of (now : Z) (call : string * list any) : LogEntry :=
  mkLog (fst call) (join " " (map render_arg (snd call))) now (snd call).

(** The entries a sequence of calls builds, the first at reading [n]. *)
Fixpoint entries_from (clk : nat -> Z) (n : nat) (calls : list (string * list any))
  : list LogEntry :=
  match calls with
  | [] => []
  | c :: rest => entry_of (clk n) c :: entries_from clk (S n) rest
  end.

(** One line of the text of [getRelevantLogs]. *)
Definition log_line (log : LogEntry) : string :=
  "[" ++ toISOString (log_timestamp log) ++ "] "
      ++ toUpperCase (log_type log) ++ ": " ++ log_message log ++ nl.

End WithRuntime.

(** Everything the hooks and the lifecycle are made of: the state without
    the log buffer, the clock position and the two traces. *)
Definition skeleton (w : World) : World :=
  mkWorld (set_recentLogs [] (monitor w)) (console w) (process w) (window w)
          (env w) (cwd w) (config_file w) (package_json w) (clock w) O
          (next_serial w) [] [] (host_returns w).

(** A console function that ends in a function of the host: one of the
    host's own, or a wrapper of this monitor whose saved original is. *)
Definition reaches_host (k : ConsoleKind) (w : World) : bool :=
  match slot k (console w) with
  | HostFn _ => true
  | OwnHook _ => match original k (monitor w) with
                 | HostFn _ => true
                 | OwnHook _ => false
                 end
  end.

End Execution.

(* ================================================================= *)
(** ** Vocabulary of the properties *)

Module Vocabulary.
Import Model Effects Monitor Execution.

(** [sub] occurs in [s]. *)
Definition contains (s sub : string) : Prop :=
  exists pre post, s = pre ++ sub ++ post.

Definition production : ErrorFiltering.ProcessEnv :=
  ErrorFiltering.mkEnv (Some "production") None None.

Definition development : ErrorFiltering.ProcessEnv :=
  ErrorFiltering.mkEnv (Some "development") None None.

(** The newest [n] elements of [l], oldest first. *)
Definition newest {A} (n : nat) (l : list A) : list A :=
  skipn (List.length l - n) l.

(** What one call of [captureConsoleLog] makes of the buffer. *)
Definition record_entry (e : LogEntry) (l : list LogEntry) : list LogEntry :=
  if (maxLogs <? List.length (push l e))%nat then shift (push l e) else push l e.

(** A computation that, however it is left, keeps the skeleton of the
    state (config, started flag, saved originals, hooks, files), sends
    nothing when no config is loaded, and keeps the buffer within its
    capacity. *)
Definition keeps {A} (m : M A) : Prop :=
  forall w,
    match m w with
    | Ok _ w' | Throw _ w' =>
        skeleton w' = skeleton w /\
        (config (monitor w) = None -> posts w' = posts w) /\
        ((List.length (recentLogs (monitor w)) <= maxLogs)%nat ->
         (List.length (recentLogs (monitor w')) <= maxLogs)%nat)
    | Diverge => True
    end.

(** A computation that returns or throws. *)
Definition total {A} (m : M A) : Prop := forall w, m w <> Diverge.

(** A computation that returns: it neither throws nor diverges. *)
Definition returning {A} (m : M A) : Prop := forall w, exists a w', m w = Ok a w'.

(** How the state in which a computation that [keeps] is left relates to
    the state in which it began. *)
Definition rel (w w' : World) : Prop :=
  skeleton w' = skeleton w /\
  (config (monitor w) = None -> posts w' = posts w) /\
  ((List.length (recentLogs (monitor w)) <= maxLogs)%nat ->
   (List.length (recentLogs (monitor w')) <= maxLogs)%nat).

(** The three console functions are functions of the host: the state of
    a process in which no monitor has patched the console. *)
Definition host_console (w : World) : Prop :=
  forall k, exists id, slot k (console w) = HostFn id.

(** No monitor has hooks installed: the console functions, the window
    handlers and the [process] listeners are the host's. *)
Definition untouched (w : World) : Prop :=
  host_console w /\
  match window w with
  | Some x => (forall s, onerror x <> Some (OwnHook s)) /\
              (forall s, onunhandledrejection x <> Some (OwnHook s))
  | None => True
  end /\
  match process w with
  | Some pr => forall l, In l (uncaughtException pr ++ unhandledRejection pr)%list ->
                         exists id, l = HostListener id
  | None => True
  end.

(** The function of the host in which a call of a console function ends,
    if it ends in one. *)
Definition host_behind (k : ConsoleKind) (w : World) : option nat :=
  match slot k (console w) with
  | HostFn id => Some id
  | OwnHook _ => match original k (monitor w) with
                 | HostFn id => Some id
                 | OwnHook _ => None
                 end
  end.

(** [k] is [console.error]. *)
Definition k_is_error (k : ConsoleKind) : bool :=
  match k with KError => true | _ => false end.

(** The state [setupErrorHandlers] produces. *)
Definition installed (w : World) : World :=
  match setupErrorHandlers w with
  | Ok _ w' => w'
  | _ => w
  end.

(** The state [removeErrorHandlers] produces. *)
Definition uninstalled (w : World) : World :=
  with_window (restore_window (monitor w)) (with_process remove_listeners w).

(** A change of the state that is decided by the skeleton and leaves the
    traces and the buffer alone. *)
Definition structural (f : World -> World) : Prop :=
  forall w,
    skeleton (f w) = skeleton (f (skeleton w)) /\
    posts (f w) = posts w /\
    recentLogs (monitor (f w)) = recentLogs (monitor w).

(** The config file of the monitor's project. *)
Definition config_file_of (w : World) : FileState WingmanConfig :=
  config_file w (configPath (configManager (monitor w))).

(** [this.configManager.config] and [this.config] both become [c]. *)
Definition remember (c : WingmanConfig) (w : World) : World :=
  with_monitor (set_config (Some c))
    (with_manager (fun cm => mkConfigManager (configPath cm) (Some c)) w).

(** The skeleton [start] leads to. *)
Definition start_target (w : World) : World :=
  match config_file_of w with
  | Holds c =>
      if enabled_falsy c || isStarted (monitor w) then remember c w
      else with_monitor (set_isStarted true) (installed (remember c w))
  | Absent => with_monitor (set_config None) w
  | Unreadable _ =>
      if reaches_host KError w then with_monitor (set_config None) w else w
  end.

(** The log buffer holds at most [maxLogs] entries. *)
Definition within_capacity (w : World) : Prop :=
  (List.length (recentLogs (monitor w)) <= maxLogs)%nat.

(** The webhook a report goes to. *)
Definition webhook_of (w : World) : string :=
  or_else (ErrorFiltering.WINGMAN_WEBHOOK_URL (env w)) default_webhook.

(** The state after one POST of [report]. *)
Definition send (report : ErrorReport) (w : World) : World :=
  with_posts (fun l => push l (mk_request (webhook_of w) report)) w.

(** The global hooks are what they were. *)
Definition same_hooks (w w' : World) : Prop :=
  console w' = console w /\ process w' = process w /\ window w' = window w.

(** The originals the monitor has saved are what they were. *)
Definition same_originals (w w' : World) : Prop :=
  originalErrorHandler (monitor w') = originalErrorHandler (monitor w) /\
  originalUnhandledRejectionHandler (monitor w')
    = originalUnhandledRejectionHandler (monitor w) /\
  originalConsoleError (monitor w') = originalConsoleError (monitor w) /\
  originalConsoleWarn (monitor w') = originalConsoleWarn (monitor w) /\
  originalConsoleLog (monitor w') = originalConsoleLog (monitor w).


(** The unbound methods are not among the listeners: the monitor
    registers only results of [bind]. *)
Definition no_unbound (w : World) : Prop :=
  match process w with
  | Some pr => ~ In UnboundMethod (uncaughtException pr) /\
               ~ In UnboundMethod (unhandledRejection pr)
  | None => True
  end.

(** The result of a computation, with its final state changed by [f]. *)
Definition map_result {A} (f : World -> World) (r : Result A) : Result A :=
  match r with
  | Ok a w => Ok a (f w)
  | Throw e w => Throw e (f w)
  | Diverge => Diverge
  end.

(** A computation that does not look at [NODE_ENV]: run with another
    value of it, it does the same and leaves that value in place. *)
Definition env_blind {A} (m : M A) : Prop :=
  forall v w, m (set_NODE_ENV v w) = map_result (set_NODE_ENV v) (m w).

Section WithRuntime.
Context {rt : JsRuntime}.

(** The text and the error with which [reportError] logs a failure. *)
Definition failure_log (f : DeliveryFailure) : list any :=
  [Str "Wingman: Failed to report error:"; ErrorObj (axios_error f)].

End WithRuntime.

End Vocabulary.

(* ================================================================= *)
(** ** A concrete runtime and concrete hosts *)

Module Demo.
Import Model Effects Monitor Execution Vocabulary.

(** A runtime that serialises every value to a fixed text.  The
    directories of the hosts below are written without a trailing slash,
    so that joining a file name to them is concatenation; three further
    calls of a handler fit on the stack. *)
#[refine] Instance demo_runtime : JsRuntime :=
  {| JSON_stringify := fun _ => Some "{}";
     JSON_stringify_pretty := fun _ => Some "{}";
     JSON_stringify_thrown := fun _ => TypeError;
     String_of := fun v => match v with Str s => s | _ => "value" end;
     toISOString := fun _ => "1970-01-01T00:00:00.000Z";
     path_join := fun dir name => dir ++ "/" ++ name;
     axios_error := fun _ => mkError "Request failed" None;
     stack_frames := 3 |}.
Proof. intros e; discriminate. Defined.

Definition enabled_config : WingmanConfig :=
  mkConfig "token" None "production" "/app" (Some true) None.

Definition disabled_config : WingmanConfig :=
  mkConfig "token" None "production" "/app" (Some false) None.

(** A Node process: [process] without listeners, no [window], the console
    of the host, and the given config file in [/app]. *)
Definition node_host (file : FileState WingmanConfig) (node_env : option string) : World :=
  new_WingmanMonitor None
    {| monitor := mkMonitor None (mkConfigManager "" None) false None None
                            (HostFn 0) (HostFn 0) (HostFn 0) [];
       console := mkConsole (HostFn 1) (HostFn 2) (HostFn 3);
       process := Some (mkProcess [] []);
       window := None;
       env := ErrorFiltering.mkEnv node_env None None;
       cwd := "/app";
       config_file := fun p => if String.eqb p "/app/.wingman.json" then file else Absent;
       package_json := fun _ => Absent;
       clock := fun n => 1000 * Z.of_nat n;
       clock_reads := O;
       next_serial := O;
       posts := [];
       host_calls := [];
       host_returns := fun _ => true |}.

(** A browser page: a [window] without handlers, no [process]. *)
Definition browser_host (file : FileState WingmanConfig) : World :=
  with_window (fun _ => Some (mkWindow None None (Some "https://example.test/") (Some "UA")))
    (with_process (fun _ => None) (node_host file (Some "production"))).

(** The state an execution leads to. *)
Definition after (evs : list Event) (w : World) : World :=
  match run evs w with
  | Some w' => w'
  | None => w
  end.

(** A Node process in production whose monitor has been started. *)
Definition started_node : World :=
  after [Start] (node_host (Holds enabled_config) (Some "production")).

(** A Node process in development whose monitor found [enabled: false]. *)
Definition disabled_node : World :=
  after [Start] (node_host (Holds disabled_config) (Some "development")).


Definition boom : Error := mkError "boom" (Some "at main (app.js:1:1)").

(** Fifty-one calls of [console.log]. *)
Definition calls51 : list (string * list any) := repeat ("log", [Str "tick"]) 51.

(** A started monitor whose config file has then been deleted. *)
Definition orphaned_node : World := after [ConfigFileBecomes Absent] started_node.

(** A Node process whose monitor has been started, stopped and started
    again: every console function is a wrapper around a wrapper. *)
Definition restarted_node : World :=
  after [Start; Stop; Start] (node_host (Holds enabled_config) (Some "production")).

(** The same, after the config file has been damaged. *)
Definition restarted_damaged_node : World :=
  after [ConfigFileBecomes (Unreadable boom)] restarted_node.

End Demo.

(* ================================================================= *)
(** ** Around the monitor: saving the config, the token resolver, the
       command line and the React provider *)

Module Integration.
Import Model Effects Monitor Execution Vocabulary.
Local Open Scope monad_scope.

(** [Partial<WingmanConfig>]: the keys that are present, with their
    values. *)
Record PartialConfig := mkPartial {
  p_accessToken : option string;
  p_projectId : option (option string);
  p_environment : option string;
  p_projectPath : option string;
  p_enabled : option (option bool);
  p_createdAt : option (option string)
}.

Definition override {A} (old : A) (new : option A) : A :=
  match new with Some v => v | None => old end.

(** [{ ...config, ...partial }] *)
Definition merge (c : WingmanConfig) (p : PartialConfig) : WingmanConfig :=
  {| accessToken := override (accessToken c) (p_accessToken p);
     projectId := override (projectId c) (p_projectId p);
     environment := override (environment c) (p_environment p);
     projectPath := override (projectPath c) (p_projectPath p);
     enabled := override (enabled c) (p_enabled p);
     createdAt := override (createdAt c) (p_createdAt p) |}.

(** What [fs.writeJson] does: it writes the file or throws. *)
Inductive WriteOutcome :=
| Written
| WriteFails (e : Error).

(** The file at [path] becomes [st]. *)
Definition write_file (path : string) (st : FileState WingmanConfig) (w : World) : World :=
  with_config_file (fun files p => if String.eqb p path then st else files p) w.

(** The state of a [WingmanProvider]: its fields and the part of its
    React state the lifecycle methods write. *)
Record Provider := mkProvider {
  prov_isActive : bool;           (* this.isActive *)
  prov_handlers : bool;           (* this.handleError and this.handleRejection are set *)
  prov_listening : bool;          (* the two listeners are registered with window *)
  prov_isInitialized : bool;      (* state.isInitialized *)
  prov_initError : option string  (* state.initError *)
}.

(** How a method of the provider ends: it returns, or it throws (for an
    [async] method: its promise is rejected).  The methods below return
    the provider as the method leaves it together with this. *)
Inductive Ending :=
| Returned
| Threw (e : any).

(** The props of the provider that the lifecycle methods read. *)
Record ProviderProps := mkProps {
  autoStart : option bool;
  prop_projectPath : option string;
  enableErrorReporting : option bool
}.

(** What the webhook answers to the request of [wingman init]. *)
Inductive WebhookReply :=
| Replied (status : Z) (projectId : option string)
| AxiosFailure (code : option string) (response_status : option Z) (message : string)
| OtherFailure (e : any).

Record TestResult := mkTestResult {
  success : bool;
  test_message : string;
  test_projectId : option string
}.

(** What a command of the CLI leaves behind: the config file, the lines
    it printed and, when it called [process.exit], the code. *)
Record CliRun := mkCliRun {
  cli_file : FileState WingmanConfig;
  cli_output : list (ConsoleKind * list any);
  cli_exit : option Z
}.

Section WithRuntime.
Context {rt : JsRuntime}.

(** [new ConfigManager(projectPath)] *)
Definition new_ConfigManager (projectPath : option string) (w : World) : ConfigManager :=
  mkConfigManager (path_join (or_else projectPath (cwd w)) ".wingman.json") None.

(** [m], with an exception that leaves it turned into a value. *)
Definition attempt {A} (m : M A) : M (A + any) :=
  try_catch (a <- m ;; ret (inl a)) (fun e => ret (inr e)).

(** *** ConfigManager.save, on [this.configManager] *)


(** *** ConfigManager.load, on any manager *)

Definition ConfigManager_load_on (cm : ConfigManager)
  : M (option WingmanConfig * ConfigManager) :=
  file <- gets (fun w => config_file w (configPath cm)) ;;
  match file with
  | Holds doc => ret (Some doc, mkConfigManager (configPath cm) (Some doc))
  | Unreadable error =>
      console_call KError [Str "Failed to load Wingman config:"; ErrorObj error] ;;
      ret (None, cm)
  | Absent => ret (None, cm)
  end.

(** *** src/utils/tokenResolver.ts *)

Definition getStoredAccessToken : M (option string) :=
  try_catch
    (configManager <- gets (new_ConfigManager None) ;;
     loaded <- ConfigManager_load_on configManager ;;
     ret (match fst loaded with
          | Some c => if truthy_str (accessToken c) then Some (accessToken c) else None
          | None => None
          end))
    (fun error =>
       console_call KWarn [Str "Failed to load Wingman configuration:"; error] ;;
       ret None).

Definition token_not_found : string :=
  "Wingman access token not found. Please run: npx wingman init <your-access-token>".

Definition requireAccessToken (stack_of_new_Error : option string) : M string :=
  accessToken <- getStoredAccessToken ;;
  match accessToken with
  | Some t => ret t
  | None => throw (ErrorObj (mkError token_not_found stack_of_new_Error))
  end.

(** *** The provider *)


(** [typeof error === 'string' ? new Error(error) : error] *)
Definition as_Error (error : Error + string) (stack_of_new_Error : option string)
  : Error :=
  match error with
  | inl e => e
  | inr text => mkError text stack_of_new_Error
  end.

(** The [reportError] of [useWingmanReporting]; [monitor] tells whether
    the context holds a monitor. *)
Definition hook_reportError (isActive monitor : bool) (error : Error + string)
           (stack_of_new_Error : option string) (metadata : any) : M unit :=
  if negb isActive || negb monitor
  then console_call KWarn [Str "Wingman: Cannot report error - monitor not active"]
  else
    let errorObj := as_Error error stack_of_new_Error in
    e <- gets env ;;
    if ErrorFiltering.shouldReportError e errorObj metadata
    then reportCustomError errorObj metadata
    else ret tt.

(** [{ ...metadata, severity: 'low', type: 'Info' }] *)
Fixpoint remove_key (k : string) (fields : list (string * any)) : list (string * any) :=
  match fields with
  | [] => []
  | (k', v) :: rest =>
      if String.eqb k' k then remove_key k rest else (k', v) :: remove_key k rest
  end.

Fixpoint set_key (k : string) (v : any) (fields : list (string * any))
  : list (string * any) :=
  match fields with
  | [] => [(k, v)]
  | (k', v') :: rest =>
      if String.eqb k' k then (k, v) :: remove_key k rest
      else (k', v') :: set_key k v rest
  end.

Definition info_metadata (metadata : any) : any :=
  let fields := match metadata with Obj fs => fs | _ => [] end in
  Obj (set_key "type" (Str "Info") (set_key "severity" (Str "low") fields)).

(** The [reportInfo] of [useWingmanReporting]. *)
Definition hook_reportInfo (isActive monitor : bool) (message : string)
           (stack_of_new_Error : option string) (metadata : any) : M unit :=
  if negb isActive || negb monitor
  then console_call KWarn [Str "Wingman: Cannot report info - monitor not active"]
  else
    let infoError := mkError message stack_of_new_Error in
    let infoMetadata := info_metadata metadata in
    e <- gets env ;;
    if ErrorFiltering.shouldReportError e infoError infoMetadata
    then reportCustomError infoError infoMetadata
    else ret tt.



(** The [catch] of [componentDidMount]; [p] is the provider at the time
    of the exception.  [console.error] comes first: when it throws, the
    state is not set. *)
Definition mount_catch (p : Provider) (error : any) : M (Provider * Ending) :=
  logged <- attempt (console_call KError
                       [Str "Wingman: Failed to start monitoring in provider:"; error]) ;;
  ret (match logged with
       | inl _ =>
           ({| prov_isActive := prov_isActive p;
               prov_handlers := prov_handlers p;
               prov_listening := prov_listening p;
               prov_isInitialized := false;
               prov_initError :=
                 Some (match error with
                       | ErrorObj err => err_message err
                       | _ => "Failed to initialize Wingman"
                       end) |}, Returned)
       | inr thrown => (p, Threw thrown)
       end).

(** [componentDidMount()].  The [try] block is followed in two steps: up
    to [this.isActive = this.monitor.isActive()], and from there on, where
    [setupGlobalErrorHandlers] sets the two handler fields and then calls
    [window.addEventListener], which throws where there is no [window]. *)
Definition componentDidMount (props : ProviderProps) (p : Provider)
           (stack_of_new_Error : option string) : M (Provider * Ending) :=
  e <- gets env ;;
  let envConfig := ErrorFiltering.getEnvironmentConfig e in
  if match autoStart props with Some b => b | None => true end
  then
    started <-
      attempt (requireAccessToken stack_of_new_Error ;;
               modify (fun w => new_WingmanMonitor (prop_projectPath props) w) ;;
               start ;;
               isActive) ;;
    match started with
    | inr error => mount_catch p error
    | inl active =>
        let shouldEnableErrorReporting :=
          match enableErrorReporting props with
          | Some b => b
          | None => ErrorFiltering.enableErrorReporting envConfig
          end in
        let initialized handlers listening :=
          {| prov_isActive := active;
             prov_handlers := handlers;
             prov_listening := listening;
             prov_isInitialized := true;
             prov_initError := prov_initError p |} in
        if shouldEnableErrorReporting && active
        then
          win <- gets window ;;
          match win with
          | Some _ => ret (initialized true true, Returned)
          | None => mount_catch (initialized true (prov_listening p)) ReferenceError
          end
        else ret (initialized (prov_handlers p) (prov_listening p), Returned)
    end
  else ret (p, Returned).

(** [componentWillUnmount()]: [removeGlobalErrorHandlers()], which
    touches [window] only if the handler fields are set, then
    [monitor.stop()] if the provider is active. *)
Definition componentWillUnmount (p : Provider) : M (Provider * Ending) :=
  removed <- attempt (if prov_handlers p then the_window ;; ret tt else ret tt) ;;
  match removed with
  | inr thrown => ret (p, Threw thrown)
  | inl _ =>
      let detached active :=
        {| prov_isActive := active;
           prov_handlers := prov_handlers p;
           prov_listening := false;
           prov_isInitialized := prov_isInitialized p;
           prov_initError := prov_initError p |} in
      if prov_isActive p
      then
        stopped <- attempt stop ;;
        ret (match stopped with
             | inl _ => (detached false, Returned)
             | inr thrown => (detached true, Threw thrown)
             end)
      else ret (detached false, Returned)
  end.

(** *** testWebhook, after the [await] *)

(** What [testWebhook] does once its [reportError] has returned: [sent]
    is the outcome of the request, or [None] when [reportError] made no
    request. *)
Definition testWebhook_settled (sent : option Outcome) : M unit :=
  match sent with
  | Some o => reportError_settled o
  | None => ret tt
  end ;;
  console_call KLog [Str "Test webhook call sent successfully."].

(** *** src/cli.ts *)

Definition number_text (z : Z) : string := String_of (Num z).

(** [testWebhookConnection], from the answer of the webhook on. *)
Definition testWebhookConnection (reply : WebhookReply) : TestResult :=
  match reply with
  | Replied status projectId =>
      if (200 <=? status) && (status <? 300)
      then mkTestResult true "Webhook connection successful" projectId
      else mkTestResult false ("Webhook returned status " ++ number_text status) None
  | AxiosFailure code response_status message =>
      if match code with Some c => String.eqb c "ECONNREFUSED" | None => false end
      then mkTestResult false
             "Unable to connect to webhook URL. Please check the URL and ensure the server is running."
             None
      else if match response_status with Some s => s =? 401 | None => false end
      then mkTestResult false "Access token is invalid or unauthorized." None
      else if match response_status with Some s => s =? 404 | None => false end
      then mkTestResult false "Webhook endpoint not found. Please check the URL." None
      else if match response_status with Some s => 500 <=? s | None => false end
      then mkTestResult false "Webhook server error. Please try again later." None
      else mkTestResult false
             ("Webhook error: " ++
              match response_status with
              | Some s => if s =? 0 then message else number_text s
              | None => message
              end) None
  | OtherFailure e =>
      mkTestResult false
        ("Connection failed: " ++
         match e with ErrorObj err => err_message err | _ => "Unknown error" end) None
  end.

Section Cli.
(** [chalk.<colour>(text)] *)
Variable chalk : string -> string -> string.

(** [wingman enable] ([b] true) and [wingman disable] ([b] false), on
    the config file of the working directory. *)
Definition cli_set_enabled (b : bool) (disk : WriteOutcome)
           (file : FileState WingmanConfig) : CliRun :=
  let failed error :=
    (KError, [Str (chalk "red" (if b then "❌ Failed to enable Wingman:"
                                 else "❌ Failed to disable Wingman:")); error]) in
  match file with
  | Absent =>
      mkCliRun file [(KLog, [Str (chalk "yellow" "⚠️  Wingman not initialized.")])] None
  | Unreadable e => mkCliRun file [failed (ErrorObj e)] None
  | Holds config =>
      let config' := mkConfig (accessToken config) (projectId config) (environment config)
                              (projectPath config) (Some b) (createdAt config) in
      match disk with
      | Written =>
          mkCliRun (Holds config')
            [(KLog, [Str (if b then chalk "green" "▶️  Wingman monitoring enabled"
                          else chalk "yellow" "⏸️  Wingman monitoring disabled")])]
            None
      | WriteFails e => mkCliRun file [failed (ErrorObj e)] None
      end
  end.

(** The document [wingman init] writes.  It has no [projectPath]; the
    absent path is the empty one here, which [||] treats alike. *)
Definition init_document (accessToken env : string) (projectId : option string)
           (now : Z) : WingmanConfig :=
  {| accessToken := accessToken;
     projectId := if truthy_opt projectId then projectId else None;
     environment := env;
     projectPath := "";
     enabled := Some true;
     createdAt := Some (toISOString now) |}.

(** [wingman init <accessToken>], from the answer of the webhook on. *)
Definition cli_init (accessToken env : string) (reply : WebhookReply)
           (disk : WriteOutcome) (now : Z) (file : FileState WingmanConfig) : CliRun :=
  let greeting :=
    [(KLog, [Str (chalk "blue" "🛡️  Initializing Wingman monitoring...")]);
     (KLog, [Str (chalk "blue" "🔗 Testing webhook connection...")])] in
  let testResult := testWebhookConnection reply in
  if negb (success testResult)
  then mkCliRun file
         (greeting ++
          [(KError, [Str (chalk "red" "❌ Webhook test failed:");
                     Str (test_message testResult)]);
           (KLog, [Str (chalk "yellow" "💡 Please check:")]);
           (KLog, [Str (chalk "gray" "   - Your webhook URL is correct")]);
           (KLog, [Str (chalk "gray" "   - Your access token is valid")]);
           (KLog, [Str (chalk "gray"
                          "   - Your webhook server is running and accessible")])])%list
         (Some 1)
  else
    let verified :=
      (greeting ++ [(KLog, [Str (chalk "green" "✅ Webhook connection verified")])])%list in
    match disk with
    | WriteFails e =>
        mkCliRun file
          (verified ++
           [(KError, [Str (chalk "red" "❌ Failed to initialize Wingman:");
                      ErrorObj e])])%list
          (Some 1)
    | Written =>
        mkCliRun
          (Holds (init_document accessToken env (test_projectId testResult) now))
          (verified ++
           [(KLog, [Str (chalk "green" "✅ Wingman monitoring initialized successfully!")])] ++
           (if truthy_opt (test_projectId testResult)
            then [(KLog, [Str (chalk "blue"
                                 ("🆔 Project ID: " ++
                                  or_else (test_projectId testResult) ""))])]
            else []) ++
           [(KLog, [Str (chalk "yellow" "📝 Configuration saved to .wingman.json")]);
            (KLog, [Str (chalk "gray"
                           "💡 Add the following to your main application file:")]);
            (KLog, [Str (chalk "cyan"
                           ("   import { WingmanMonitor } from " ++ dquote
                            ++ "wingman-monitor" ++ dquote ++ ";"))]);
            (KLog, [Str (chalk "cyan" "   const monitor = new WingmanMonitor();")]);
            (KLog, [Str (chalk "cyan" "   monitor.start();")])])%list
          None
    end.

End Cli.

(** The command writes to the working directory of the host. *)
Definition cli_path (w : World) : string := path_join (cwd w) ".wingman.json".

(** The world after a command of the CLI has run in its working
    directory. *)
Definition after_cli (command : FileState WingmanConfig -> CliRun) (w : World) : World :=
  write_file (cli_path w) (cli_file (command (config_file w (cli_path w)))) w.

End WithRuntime.

End Integration.


(* ================================================================= *)
(** ** Vocabulary of the properties of handlers, provider and CLI *)

Module Terms.
Import Model Effects Monitor Execution Vocabulary Integration.

Section WithRuntime.
Context {rt : JsRuntime}.

(** The state after a handler has read the clock for the timestamp and
    for the log window. *)
Definition two_reads (w : World) : World := with_clock_reads S (with_clock_reads S w).

(** What a handler makes of the state, given the report it built. *)
Definition reported (report : ErrorReport) (w : World) : World :=
  match config (monitor w) with
  | None => two_reads w
  | Some _ => send report (two_reads w)
  end.

(** [this.config?.environment || 'unknown'] *)
Definition environment_of (w : World) : string :=
  or_else (option_map environment (config (monitor w))) "unknown".

(** [this.config?.accessToken || ''] *)
Definition accessToken_of (w : World) : string :=
  or_else (option_map accessToken (config (monitor w))) "".

(** The call a window handler of the host receives from [handleWindowError]. *)
Definition onerror_call (id : nat) (message source lineno colno : any)
           (error : option Error) : HostCall :=
  Called id [message; source; lineno; colno;
             match error with Some e => ErrorObj e | None => Undefined end].

(** [this.config] is null or is the config of the manager. *)
Definition synced (w : World) : Prop :=
  config (monitor w) = None \/
  config (monitor w) = Config.config (configManager (monitor w)).

(** The calls the listeners of the host receive for one event. *)
Definition listener_calls (ids : list nat) (arg : any) : list HostCall :=
  map (fun id => Called id [arg]) ids.

(** The config [initialize(cfg)] stores when the clock reads [now]. *)
Definition initialized (iso : string) (cfg : WingmanConfig) : WingmanConfig :=
  mkConfig (accessToken cfg) (projectId cfg) (environment cfg) (projectPath cfg)
           (Some true) (Some iso).


(** The file [getStoredAccessToken] reads. *)
Definition token_file (w : World) : FileState WingmanConfig :=
  config_file w (path_join (cwd w) ".wingman.json").


(** The error [requireAccessToken] throws. *)
Definition no_token (stack_of_new_Error : option string) : any :=
  ErrorObj (mkError token_not_found stack_of_new_Error).

(** [config.enabled = b] *)
Definition with_enabled (b : bool) (c : WingmanConfig) : WingmanConfig :=
  mkConfig (accessToken c) (projectId c) (environment c) (projectPath c)
           (Some b) (createdAt c).

(** The webhook answered with a status from 200 to 299. *)
Definition accepted (reply : WebhookReply) : Prop :=
  exists status projectId, reply = Replied status projectId /\ 200 <= status < 300.

(** The monitor was created for the working directory. *)
Definition in_working_directory (w : World) : Prop :=
  configPath (configManager (monitor w)) = cli_path w.

(** The provider after a mount that failed with [message]. *)
Definition mount_failed (p : Provider) (message : string) : Provider :=
  {| prov_isActive := prov_isActive p;
     prov_handlers := prov_handlers p;
     prov_listening := prov_listening p;
     prov_isInitialized := false;
     prov_initError := Some message |}.

(** The provider after an unmount that went through. *)
Definition unmounted (p : Provider) : Provider :=
  {| prov_isActive := false;
     prov_handlers := prov_handlers p;
     prov_listening := false;
     prov_isInitialized := prov_isInitialized p;
     prov_initError := prov_initError p |}.

(** The provider after an unmount whose [monitor.stop()] threw. *)
Definition unmount_interrupted (p : Provider) : Provider :=
  {| prov_isActive := prov_isActive p;
     prov_handlers := prov_handlers p;
     prov_listening := false;
     prov_isInitialized := prov_isInitialized p;
     prov_initError := prov_initError p |}.

(** The token [getStoredAccessToken] finds in the config file of the
    working directory when it can read it. *)
Definition stored_token (w : World) : option string :=
  match config_file w (cli_path w) with
  | Holds c => if truthy_str (accessToken c) then Some (accessToken c) else None
  | _ => None
  end.

(** [removeGlobalErrorHandlers()] reaches for a [window] that is not
    there. *)
Definition unmount_blocked (p : Provider) (w : World) : bool :=
  prov_handlers p && match window w with Some _ => false | None => true end.

(** A report of [handleWindowError] for the given position. *)
Definition window_report (source lineno colno : any) (report : ErrorReport) : Prop :=
  errorType report = "windowError" /\ severity report = medium /\
  Model.metadata report = Obj [("source", source); ("lineno", lineno); ("colno", colno)].


(** The state after the POSTs of [reports], oldest first. *)
Definition sent_all (reports : list ErrorReport) (w : World) : list PostRequest :=
  (posts w ++ map (mk_request (webhook_of w)) reports)%list.

(** [props.autoStart] is not [false]. *)
Definition auto_starts (props : ProviderProps) : bool :=
  match autoStart props with Some b => b | None => true end.

(** [props.enableErrorReporting ?? envConfig.enableErrorReporting] *)
Definition wants_listeners (props : ProviderProps) (w : World) : bool :=
  match enableErrorReporting props with
  | Some b => b
  | None => ErrorFiltering.enableErrorReporting (ErrorFiltering.getEnvironmentConfig (env w))
  end.

(** A report of [reportCustomError] with the given metadata. *)
Definition custom_report (metadata : any) (report : ErrorReport) : Prop :=
  Model.metadata report = metadata /\ severity report = medium /\
  errorType report = "customError".

(** The section a context field adds to the message, if the field is
    not empty. *)
Definition part (field : option string) (section : string -> string) : string :=
  match field with
  | Some s => if truthy_str s then section s else ""
  | None => ""
  end.

(** The entries of the buffer that [buildComprehensiveMessage] quotes
    when the clock reads [now]. *)
Definition quoted (now : Z) (w : World) : list LogEntry :=
  filter (in_window (now - default_windowMs) now) (recentLogs (monitor w)).

(** The report of [handleWindowError]. *)
Definition windowErrorReport (text : string) (info : option ProjectInfo)
           (source lineno colno : any) (error : option Error) (w : World) : ErrorReport :=
  {| message := text;
     errorType := "windowError";
     severity := medium;
     rep_environment := environment_of w;
     rep_accessToken := accessToken_of w;
     timestamp := clock w (clock_reads w);
     stack := match error with Some e => err_stack e | None => None end;
     projectInfo := info;
     metadata := Obj [("source", source); ("lineno", lineno); ("colno", colno)] |}.


(** Some argument that is not a string does not serialise. *)
Definition unserialisable (args : list any) : Prop :=
  exists arg, In arg args /\ console_part arg = None.

(** The report of [handleConsoleError]. *)
Definition consoleErrorReport (text : string) (info : option ProjectInfo)
           (args : list any) (w : World) : ErrorReport :=
  {| message := text;
     errorType := "consoleError";
     severity := low;
     rep_environment := environment_of w;
     rep_accessToken := accessToken_of w;
     timestamp := clock w (clock_reads w);
     stack := None;
     projectInfo := info;
     metadata := Obj [("args", Arr (map metadata_arg args))] |}.

(** The test "it looks like an actual error". *)
Definition looks_like_error (parts : list string) (args : list any) : bool :=
  includes (toLowerCase (join " " parts)) "error" || existsb instanceof_Error args.

(** The state after a wrapper has called the function of the host and
    recorded the call. *)
Definition forwarded (k : ConsoleKind) (id : nat) (args : list any) (w : World) : World :=
  with_monitor
    (set_recentLogs
       (record_entry (entry_of (clock w (clock_reads w)) (kind_name k, args))
                     (recentLogs (monitor w))))
    (with_clock_reads S (with_host_calls (fun l => (l ++ [Called id args])%list) w)).

End WithRuntime.

End Terms.

(* ================================================================= *)
(** ** More concrete hosts *)

Module Hosts.
Import Model Effects Monitor Execution Vocabulary Demo Integration Terms.

(** An object whose [toJSON] throws. *)
Definition stubborn : any := Obj [("toJSON", Str "throws")].

(** What the [toJSON] of [stubborn] throws. *)
Definition refusal : any := ErrorObj (mkError "toJSON refused" None).

(** A runtime in which an object whose first member is [toJSON] does not
    serialise, with or without indentation: [JSON.stringify] throws what
    [toJSON] threw. *)
Definition strict_runtime : JsRuntime.
Proof.
  refine {| JSON_stringify := fun v => match v with
                                       | Obj (("toJSON", _) :: _) => None
                                       | _ => Some "{}"
                                       end;
            JSON_stringify_pretty := fun v => match v with
                                              | Obj (("toJSON", _) :: _) => None
                                              | _ => Some "{}"
                                              end;
            JSON_stringify_thrown := fun _ => refusal;
            String_of := fun v => match v with Str s => s | _ => "value" end;
            toISOString := fun _ => "1970-01-01T00:00:00.000Z";
            path_join := fun dir name => dir ++ "/" ++ name;
            axios_error := fun _ => mkError "Request failed" None;
            stack_frames := 3 |}.
  intros e; discriminate.
Defined.

(** A Node process in production with an enabled config, not started. *)
Definition fresh_node : World := node_host (Holds enabled_config) (Some "production").

(** The same with monitoring disabled in the file. *)
Definition dormant_node : World := node_host (Holds disabled_config) (Some "production").

(** A Node process without a config file. *)
Definition bare_node : World := node_host Absent None.

(** A Node process whose config file cannot be parsed. *)
Definition damaged_node : World := node_host (Unreadable boom) None.

(** A Node process on which the host listens for uncaught exceptions. *)
Definition listening_node : World :=
  with_process (fun _ => Some (mkProcess [HostListener 7] [])) fresh_node.

(** [fresh_node] after [start()], under the strict runtime. *)
Definition strict_started : World :=
  match @start strict_runtime fresh_node with
  | Ok _ w => w
  | _ => fresh_node
  end.

(** A browser page whose monitor has been started. *)
Definition browser_started : World := after [Start] (browser_host (Holds enabled_config)).

(** A browser page in production with an enabled config, not started. *)
Definition fresh_page : World := browser_host (Holds enabled_config).

(** [chalk] without colours. *)
Definition plain (colour text : string) : string := text.

(** Production on Vercel. *)
Definition vercel_production : ErrorFiltering.ProcessEnv :=
  ErrorFiltering.mkEnv (Some "production") (Some "1") None.

(** A provider as its constructor leaves it. *)
Definition new_provider : Provider := mkProvider false false false false None.

(** A browser page whose monitor has been started, stopped and started
    again: the saved window handlers are the monitor's own. *)
Definition browser_restarted : World :=
  after [Start; Stop; Start] (browser_host (Holds enabled_config)).

(** Fifty-five calls of [console.log] after a start. *)
Definition busy : list Event := Start :: repeat (ConsoleCall KLog [Str "tick"]) 55.

(** A Node process whose monitor has been started, stopped and started
    again, and whose config file has then been deleted. *)
Definition restarted_bare : World := after [ConfigFileBecomes Absent] restarted_node.

(** A provider after a mount outside a browser that wanted listeners. *)
Definition mounted_outside : Provider :=
  mkProvider true true false false (Some "window is not defined").

(** An active provider without listeners. *)
Definition active_provider : Provider := mkProvider true false false true None.

Definition default_props : ProviderProps := mkProps None None None.

Definition manual_props : ProviderProps := mkProps (Some false) None None.


End Hosts.
(* ================================================================= *)
(** ** Strings *)

Module StringFacts.

Lemma starts_with_spec (p s : string) :
  starts_with p s = true <-> exists post, s = p ++ post.
Proof.
  revert s; induction p as [|a p IH]; intros s; simpl.
  - split; [intros _; exists s; reflexivity | reflexivity].
  - destruct s as [|b s]; simpl.
    + split; [discriminate | intros [post H]; discriminate].
    + rewrite andb_true_iff, IH. split.
      * intros [Hab [post ->]]. apply Ascii.eqb_eq in Hab. subst b.
        exists post; reflexivity.
      * intros [post H]. injection H as -> ->. split.
        -- apply Ascii.eqb_refl.
        -- exists post; reflexivity.
Qed.

(** [includes] is the substring test. *)
Lemma includes_spec (s sub : string) :
  includes s sub = true <-> exists pre post, s = pre ++ sub ++ post.
Proof.
  induction s as [|c s IH]; simpl.
  - rewrite orb_false_r, starts_with_spec. split.
    + intros [post H]. exists "", post. exact H.
    + intros [pre [post H]]. destruct pre; simpl in H.
      * exists post; exact H.
      * discriminate.
  - rewrite orb_true_iff, starts_with_spec, IH. split.
    + intros [[post H] | [pre [post H]]].
      * exists "", post. exact H.
      * exists (String c pre), post. simpl. now rewrite H.
    + intros [pre [post H]]. destruct pre as [|d pre]; simpl in H.
      * left. exists post; exact H.
      * right. injection H as _ H. exists pre, post; exact H.
Qed.

Lemma includes_self (s : string) : includes s s = true.
Proof.
  apply includes_spec. exists "", "". simpl.
  induction s as [|c s IH]; simpl; [reflexivity | now rewrite <- IH].
Qed.

Lemma String_eqb_includes (s sub : string) :
  String.eqb s sub = true -> includes s sub = true.
Proof. intros H. apply String.eqb_eq in H. subst. apply includes_self. Qed.

End StringFacts.

(* ================================================================= *)
(** ** The error filter *)

Module FilterFacts.
Import ErrorFiltering StringFacts Vocabulary.

Lemma env_is_spec v lit : env_is v lit = true <-> v = Some lit.
Proof.
  destruct v as [s|]; simpl.
  - rewrite String.eqb_eq. split; [now intros -> | now intros [= ->]].
  - split; discriminate.
Qed.

Lemma strict_eq_zero_spec v : strict_eq_zero v = true <-> v = Num 0.
Proof.
  destruct v; simpl; try (split; discriminate).
  rewrite Z.eqb_eq. split; [now intros -> | now intros [= ->]].
Qed.

(** The code rejects at least what the policy of the specification
    rejects. *)
Lemma spec_reject_code_reject env error context :
  shouldReport_spec env error context = false ->
  shouldReportError env error context = false.
Proof.
  unfold shouldReport_spec, shouldReportError.
  destruct (env_is _ _); [reflexivity|].
  destruct (includes _ "chrome-extension://"); [reflexivity|].
  destruct (_ && _); [reflexivity|].
  destruct (String.eqb _ _) eqn:E; [|discriminate].
  now rewrite (String_eqb_includes _ _ E).
Qed.

(** C2, as stated, fails: in production the browser's "Script error."
    differs from the marker, so rule 4 of the stated policy does not match
    and the policy accepts; the code tests containment and rejects. *)
Lemma C2_counterexample :
  shouldReport_spec production (mkError "Script error." None) Undefined = true /\
  shouldReportError production (mkError "Script error." None) Undefined = false.
Proof. split; reflexivity. Qed.

(** C2 (amended): [shouldReportError] accepts an error exactly when the
    environment is not "development", the message does not contain the
    browser-extension marker, it is not a failed fetch with a context
    status of 0, and the message does not CONTAIN the script-loading
    marker "Script error"; so the rules apply in order with the first
    match deciding, and in development the result is false whatever the
    error. *)
Theorem C2_shouldReportError_policy (env : ProcessEnv) (error : Error) (context : any) :
  (shouldReportError env error context = true <->
     NODE_ENV env <> Some "development" /\
     ~ contains (err_message error) "chrome-extension://" /\
     ~ (contains (err_message error) "Failed to fetch" /\
        get_prop context "status" = Num 0) /\
     ~ contains (err_message error) "Script error") /\
  shouldReportError (mkEnv (Some "development") (VERCEL env) (WINGMAN_WEBHOOK_URL env))
                    error context = false.
Proof.
  split; [|reflexivity].
  unfold shouldReportError, contains.
  destruct (env_is (NODE_ENV env) "development") eqn:Edev.
  { apply env_is_spec in Edev. split; [discriminate | intros [H _]; contradiction]. }
  assert (Hdev : NODE_ENV env <> Some "development").
  { intros H. apply env_is_spec in H. congruence. }
  destruct (includes (err_message error) "chrome-extension://") eqn:Eext.
  { apply includes_spec in Eext. split; [discriminate | intros (_ & H & _); contradiction]. }
  assert (Hext : ~ (exists pre post, err_message error = pre ++ "chrome-extension://" ++ post)).
  { intros H. apply includes_spec in H. congruence. }
  destruct (includes (err_message error) "Failed to fetch"
            && strict_eq_zero (get_prop context "status")) eqn:Efetch.
  { apply andb_true_iff in Efetch. destruct Efetch as [E1 E2].
    apply includes_spec in E1. apply strict_eq_zero_spec in E2.
    split; [discriminate | intros (_ & _ & H & _); exfalso; apply H; now split]. }
  assert (Hfetch : ~ ((exists pre post, err_message error = pre ++ "Failed to fetch" ++ post)
                      /\ get_prop context "status" = Num 0)).
  { intros [H1 H2]. apply includes_spec in H1. apply strict_eq_zero_spec in H2.
    rewrite H1, H2 in Efetch. discriminate. }
  destruct (includes (err_message error) "Script error") eqn:Escr.
  { apply includes_spec in Escr. split; [discriminate | intros (_ & _ & _ & H); contradiction]. }
  split; [|reflexivity]. intros _.
  repeat split; try assumption.
  intros H. apply includes_spec in H. congruence.
Qed.

End FilterFacts.

(* ================================================================= *)
(** ** The log ring buffer *)

Module BufferFacts.
Import Vocabulary Model Effects Monitor Execution.

Lemma append_assoc (a b c : string) : (a ++ b) ++ c = a ++ b ++ c.
Proof. induction a as [|x a IH]; simpl; [reflexivity | now rewrite IH]. Qed.

Lemma append_nil_r (a : string) : a ++ "" = a.
Proof. induction a as [|x a IH]; simpl; [reflexivity | now rewrite IH]. Qed.

Lemma newest_length {A} (n : nat) (l : list A) :
  (List.length (newest n l) <= n)%nat.
Proof. unfold newest. rewrite length_skipn. lia. Qed.

Lemma newest_all {A} (n : nat) (l : list A) :
  (List.length l <= n)%nat -> newest n l = l.
Proof.
  intros H. unfold newest.
  replace (List.length l - n)%nat with O by lia. reflexivity.
Qed.

Lemma newest_app {A} (n : nat) (l r : list A) :
  newest n (newest n l ++ r)%list = newest n (l ++ r)%list.
Proof.
  destruct (Nat.le_gt_cases (List.length l) n) as [Hle | Hgt].
  - now rewrite (newest_all n l Hle).
  - unfold newest.
    rewrite !length_app, length_skipn.
    rewrite !skipn_app, skipn_skipn, length_skipn.
    f_equal.
    + f_equal. lia.
    + f_equal. lia.
Qed.

Lemma record_entry_newest (e : LogEntry) (l : list LogEntry) :
  (List.length l <= maxLogs)%nat ->
  record_entry e l = newest maxLogs (l ++ [e])%list.
Proof.
  intros H. unfold record_entry, push, shift, newest.
  rewrite length_app. simpl List.length.
  destruct (Nat.ltb_spec maxLogs (List.length l + 1)) as [Hlt | Hge].
  - replace (List.length l + 1 - maxLogs)%nat with 1%nat by lia.
    destruct (l ++ [e])%list; reflexivity.
  - replace (List.length l + 1 - maxLogs)%nat with 0%nat by lia. reflexivity.
Qed.

Section WithRuntime.
Context {rt : JsRuntime}.

(** [captureConsoleLog] always returns; it reads the clock once and
    touches nothing but the buffer. *)
Lemma captureConsoleLog_run (type : string) (args : list any) (w : World) :
  captureConsoleLog type args w =
  Ok tt (with_monitor
           (set_recentLogs
              (record_entry (entry_of (clock w (clock_reads w)) (type, args))
                            (recentLogs (monitor w))))
           (with_clock_reads S w)).
Proof.
  unfold captureConsoleLog, record_entry, bind, Date_now, modify, gets, ret, entry_of.
  cbn [monitor with_monitor with_clock_reads recentLogs set_recentLogs fst snd].
  destruct (maxLogs <? _)%nat; reflexivity.
Qed.

Lemma capture_all_run (calls : list (string * list any)) :
  forall w, (List.length (recentLogs (monitor w)) <= maxLogs)%nat ->
  exists w',
    capture_all calls w = Ok tt w' /\
    recentLogs (monitor w') =
      newest maxLogs (recentLogs (monitor w)
                      ++ entries_from (clock w) (clock_reads w) calls)%list.
Proof.
  induction calls as [|[type args] rest IH]; intros w Hlen.
  - exists w. split; [reflexivity|]. simpl.
    rewrite app_nil_r. symmetry. now apply newest_all.
  - simpl capture_all. unfold bind at 1. rewrite captureConsoleLog_run.
    set (w1 := with_monitor _ _).
    assert (Hrec : recentLogs (monitor w1) =
                   newest maxLogs (recentLogs (monitor w)
                                   ++ [entry_of (clock w (clock_reads w)) (type, args)])%list).
    { subst w1. cbn [monitor with_monitor recentLogs set_recentLogs].
      now apply record_entry_newest. }
    destruct (IH w1) as [w' [Hrun Hlogs]].
    { rewrite Hrec. apply newest_length. }
    exists w'. split; [exact Hrun|].
    rewrite Hlogs, Hrec. subst w1.
    cbn [clock clock_reads with_monitor with_clock_reads].
    rewrite newest_app. simpl entries_from.
    now rewrite <- app_assoc.
Qed.

(** C3: from a buffer of at most 50 entries (the empty buffer of a new
    monitor in particular), every sequence of record operations returns and
    leaves the newest 50 of all entries, in insertion order: never more
    than 50, and after 51 insertions into the empty buffer exactly the
    first one is gone (it occurs no more, unless a later entry equals it). *)
Theorem C3_ring_buffer (w : World) (calls : list (string * list any)) :
  (List.length (recentLogs (monitor w)) <= maxLogs)%nat ->
  exists w',
    capture_all calls w = Ok tt w' /\
    recentLogs (monitor w') =
      newest maxLogs (recentLogs (monitor w)
                      ++ entries_from (clock w) (clock_reads w) calls)%list /\
    (List.length (recentLogs (monitor w')) <= 50)%nat /\
    (recentLogs (monitor w) = [] -> List.length calls = 51%nat ->
     exists first rest,
       entries_from (clock w) (clock_reads w) calls = first :: rest /\
       recentLogs (monitor w') = rest /\
       List.length rest = 50%nat /\
       (NoDup (first :: rest) -> ~ In first (recentLogs (monitor w')))).
Proof.
  intros Hlen.
  destruct (capture_all_run calls w Hlen) as [w' [Hrun Hlogs]].
  exists w'. split; [exact Hrun|]. split; [exact Hlogs|]. split.
  - rewrite Hlogs. apply (newest_length maxLogs).
  - intros Hempty H51. rewrite Hempty in Hlogs. simpl in Hlogs.
    assert (Hn : List.length (entries_from (clock w) (clock_reads w) calls) = 51%nat).
    { rewrite <- H51. clear. generalize (clock_reads w).
      induction calls as [|c r IH]; intros n; simpl; [reflexivity | now rewrite IH]. }
    destruct (entries_from (clock w) (clock_reads w) calls) as [|first rest] eqn:E;
      [discriminate|].
    exists first, rest. split; [reflexivity|].
    assert (Hrest : recentLogs (monitor w') = rest).
    { rewrite Hlogs. unfold newest. rewrite Hn. reflexivity. }
    split; [exact Hrest|]. split.
    + simpl in Hn. lia.
    + intros Hnd. rewrite Hrest. now inversion Hnd.
Qed.

Lemma fold_append_line (logs : list LogEntry) (acc : string) :
  fold_left append_line logs acc = acc ++ String.concat "" (map log_line logs).
Proof.
  revert acc. induction logs as [|l logs IH]; intros acc.
  - simpl. now rewrite append_nil_r.
  - cbn [fold_left map]. rewrite IH. unfold append_line.
    assert (Hc : String.concat "" (log_line l :: map log_line logs)
                 = log_line l ++ String.concat "" (map log_line logs)).
    { simpl. destruct (map log_line logs); [now rewrite append_nil_r | reflexivity]. }
    rewrite Hc. unfold log_line.
    now rewrite !append_assoc.
Qed.

(** C4: for every state and every timestamp [t], the query with a window
    of 5000 ms returns, and leaves the state as it found it; its text is
    empty when no entry has its timestamp in [t-5000, t], and otherwise is
    the heading followed by one line [[ISO-time] KIND: message] for each
    entry with its timestamp in that closed interval, in buffer order: an
    entry at [t-5000] is among them, one at [t-5001] is not. *)
Theorem C4_window_query (w : World) (t : Z) :
  let selected :=
    filter (fun log => (t - 5000 <=? log_timestamp log) && (log_timestamp log <=? t))
           (recentLogs (monitor w)) in
  getRelevantLogs t 5000 w =
    Ok (match selected with
        | [] => ""
        | _ => logs_header ++ String.concat "" (map log_line selected)
        end) w /\
  (forall log, In log selected <->
               In log (recentLogs (monitor w)) /\
               t - 5000 <= log_timestamp log <= t) /\
  (forall log, In log (recentLogs (monitor w)) ->
               (log_timestamp log = t - 5000 -> In log selected) /\
               (log_timestamp log = t - 5001 -> ~ In log selected)) /\
  (forall log, log_line log =
               "[" ++ toISOString (log_timestamp log) ++ "] "
                   ++ toUpperCase (log_type log) ++ ": " ++ log_message log ++ nl) /\
  (forall k, toUpperCase (kind_name k) =
             match k with KError => "ERROR" | KWarn => "WARN" | KLog => "LOG" end).
Proof.
  intros selected.
  assert (Hsel : forall log, In log selected <->
                             In log (recentLogs (monitor w)) /\
                             t - 5000 <= log_timestamp log <= t).
  { intros log. subst selected. rewrite filter_In, andb_true_iff, !Z.leb_le. tauto. }
  split; [|split; [|split; [|split]]].
  - unfold getRelevantLogs, bind, gets, ret, in_window. fold selected.
    destruct selected as [|l r] eqn:E; [reflexivity|].
    cbn [List.length Nat.eqb]. now rewrite fold_append_line.
  - exact Hsel.
  - intros log Hin. split; intros Hts.
    + apply Hsel. split; [exact Hin | lia].
    + intros H. apply Hsel in H. lia.
  - reflexivity.
  - intros []; reflexivity.
Qed.

(** The two boundary cases of the window. *)
Lemma window_boundaries (t : Z) (log : LogEntry) :
  (log_timestamp log = t - 5000 -> in_window (t - 5000) t log = true) /\
  (log_timestamp log = t - 5001 -> in_window (t - 5000) t log = false).
Proof.
  unfold in_window. split; intros ->.
  - apply andb_true_iff. split; apply Z.leb_le; lia.
  - apply andb_false_iff. left. apply Z.leb_gt. lia.
Qed.

End WithRuntime.
End BufferFacts.

(* ================================================================= *)
(** ** What the reporting methods leave alone *)

Module Frames.
Import Vocabulary Model Effects Monitor Execution BufferFacts.

Lemma skeleton_monitor w w' :
  skeleton w' = skeleton w ->
  config (monitor w') = config (monitor w) /\
  configManager (monitor w') = configManager (monitor w) /\
  isStarted (monitor w') = isStarted (monitor w) /\
  originalErrorHandler (monitor w') = originalErrorHandler (monitor w) /\
  originalUnhandledRejectionHandler (monitor w')
    = originalUnhandledRejectionHandler (monitor w) /\
  originalConsoleError (monitor w') = originalConsoleError (monitor w) /\
  originalConsoleWarn (monitor w') = originalConsoleWarn (monitor w) /\
  originalConsoleLog (monitor w') = originalConsoleLog (monitor w).
Proof.
  intros H.
  assert (Hm : set_recentLogs [] (monitor w') = set_recentLogs [] (monitor w))
    by exact (f_equal monitor H).
  repeat split.
  - exact (f_equal config Hm).
  - exact (f_equal configManager Hm).
  - exact (f_equal isStarted Hm).
  - exact (f_equal originalErrorHandler Hm).
  - exact (f_equal originalUnhandledRejectionHandler Hm).
  - exact (f_equal originalConsoleError Hm).
  - exact (f_equal originalConsoleWarn Hm).
  - exact (f_equal originalConsoleLog Hm).
Qed.

Lemma skeleton_host w w' :
  skeleton w' = skeleton w ->
  console w' = console w /\ process w' = process w /\ window w' = window w /\
  env w' = env w /\ config_file w' = config_file w /\ next_serial w' = next_serial w.
Proof.
  intros H. repeat split.
  - exact (f_equal console H).
  - exact (f_equal process H).
  - exact (f_equal window H).
  - exact (f_equal env H).
  - exact (f_equal config_file H).
  - exact (f_equal next_serial H).
Qed.

Lemma keeps_ret {A} (a : A) : keeps (ret a).
Proof. intros w; simpl; auto. Qed.

Lemma keeps_gets {A} (f : World -> A) : keeps (gets f).
Proof. intros w; simpl; auto. Qed.

Lemma keeps_throw {A} (e : any) : keeps (@throw A e).
Proof. intros w; simpl; auto. Qed.

Lemma keeps_diverge {A} : keeps (@diverge A).
Proof. intros w; exact I. Qed.

Lemma keeps_bind {A B} (m : M A) (k : A -> M B) :
  keeps m -> (forall a, keeps (k a)) -> keeps (bind m k).
Proof.
  intros Hm Hk w. unfold bind. specialize (Hm w).
  destruct (m w) as [a w1 | e w1 |]; [|exact Hm|exact I].
  destruct Hm as (Hs & Hp & Hl).
  specialize (Hk a w1). destruct (k a w1) as [b w2 | e w2 |]; [| |exact I].
  all: destruct Hk as (Hs' & Hp' & Hl'); split; [congruence|]; split.
  all: try (intros Hc; rewrite Hp', Hp; auto;
            destruct (skeleton_monitor _ _ Hs) as [Hcfg _]; congruence).
  all: auto.
Qed.

Lemma keeps_try_catch {A} (body : M A) (handler : any -> M A) :
  keeps body -> (forall e, keeps (handler e)) -> keeps (try_catch body handler).
Proof.
  intros Hm Hk w. unfold try_catch. specialize (Hm w).
  destruct (body w) as [a w1 | e w1 |]; [exact Hm| |exact I].
  destruct Hm as (Hs & Hp & Hl).
  specialize (Hk e w1). destruct (handler e w1) as [b w2 | e2 w2 |]; [| |exact I].
  all: destruct Hk as (Hs' & Hp' & Hl'); split; [congruence|]; split.
  all: try (intros Hc; rewrite Hp', Hp; auto;
            destruct (skeleton_monitor _ _ Hs) as [Hcfg _]; congruence).
  all: auto.
Qed.

Lemma keeps_Date_now : keeps Date_now.
Proof. intros w; simpl; auto. Qed.

Lemma keeps_call_host id args : keeps (call_host id args).
Proof. intros w; simpl; auto. Qed.

Lemma total_ret {A} (a : A) : total (ret a).
Proof. intros w; discriminate. Qed.

Lemma total_gets {A} (f : World -> A) : total (gets f).
Proof. intros w; discriminate. Qed.

Lemma total_throw {A} (e : any) : total (@throw A e).
Proof. intros w; discriminate. Qed.

Lemma total_modify f : total (modify f).
Proof. intros w; discriminate. Qed.

Lemma total_bind {A B} (m : M A) (k : A -> M B) :
  total m -> (forall a, total (k a)) -> total (bind m k).
Proof.
  intros Hm Hk w. unfold bind. specialize (Hm w).
  destruct (m w) as [a w1 | e w1 |]; [apply Hk | discriminate | congruence].
Qed.

Lemma total_try_catch {A} (body : M A) (handler : any -> M A) :
  total body -> (forall e, total (handler e)) -> total (try_catch body handler).
Proof.
  intros Hm Hk w. unfold try_catch. specialize (Hm w).
  destruct (body w) as [a w1 | e w1 |]; [discriminate | apply Hk | congruence].
Qed.

Lemma total_Date_now : total Date_now.
Proof. intros w; discriminate. Qed.

Lemma total_fresh_serial : total fresh_serial.
Proof. intros w; discriminate. Qed.

Lemma total_call_host id args : total (call_host id args).
Proof. intros w; discriminate. Qed.

Lemma returning_ret {A} (a : A) : returning (ret a).
Proof. intros w; eexists _, _; reflexivity. Qed.

Lemma returning_gets {A} (f : World -> A) : returning (gets f).
Proof. intros w; eexists _, _; reflexivity. Qed.

Lemma returning_modify f : returning (modify f).
Proof. intros w; eexists _, _; reflexivity. Qed.

Lemma returning_bind {A B} (m : M A) (k : A -> M B) :
  returning m -> (forall a, returning (k a)) -> returning (bind m k).
Proof.
  intros Hm Hk w. unfold bind. destruct (Hm w) as (a & w1 & ->). apply Hk.
Qed.

Lemma returning_Date_now : returning Date_now.
Proof. intros w; eexists _, _; reflexivity. Qed.

Lemma returning_fresh_serial : returning fresh_serial.
Proof. intros w; eexists _, _; reflexivity. Qed.

Lemma returning_call_host id args : returning (call_host id args).
Proof. intros w; eexists _, _; reflexivity. Qed.

Lemma returning_total {A} (m : M A) : returning m -> total m.
Proof. intros H w. destruct (H w) as (a & w' & ->). discriminate. Qed.

Lemma rel_refl w : rel w w.
Proof. unfold rel; auto. Qed.

Lemma rel_trans w1 w2 w3 : rel w1 w2 -> rel w2 w3 -> rel w1 w3.
Proof.
  intros (Hs & Hp & Hl) (Hs' & Hp' & Hl'). split; [congruence|]. split; [|auto].
  intros Hc. rewrite Hp', Hp; auto.
  destruct (skeleton_monitor _ _ Hs) as [Hcfg _]. congruence.
Qed.

Lemma ends {A} (m : M A) :
  keeps m -> total m ->
  forall w, exists w',
    ((exists a, m w = Ok a w') \/ (exists e, m w = Throw e w')) /\ rel w w'.
Proof.
  intros Hk Ht w. specialize (Hk w). specialize (Ht w).
  destruct (m w) as [a w' | e w' |]; [| |congruence].
  - exists w'. split; [left; now exists a | exact Hk].
  - exists w'. split; [right; now exists e | exact Hk].
Qed.

Lemma returns {A} (m : M A) :
  keeps m -> returning m -> forall w, exists a w', m w = Ok a w' /\ rel w w'.
Proof.
  intros Hk Hr w. specialize (Hk w). destruct (Hr w) as (a & w' & E).
  rewrite E in Hk. now exists a, w'.
Qed.

Create HintDb keeps.
Create HintDb total.
Create HintDb returning.

#[export] Hint Resolve returning_ret returning_gets returning_modify
  returning_Date_now returning_fresh_serial returning_call_host : returning.

#[export] Hint Resolve keeps_ret keeps_gets keeps_throw keeps_diverge
  keeps_Date_now keeps_call_host : keeps.
#[export] Hint Resolve total_ret total_gets total_throw total_modify
  total_Date_now total_fresh_serial total_call_host : total.

(** Goes through the binds and the case distinctions of a method. *)
Tactic Notation "through" ident(db) :=
  repeat first
    [ solve [auto with db]
    | apply keeps_bind; [|intros ?]
    | apply total_bind; [|intros ?]
    | apply returning_bind; [|intros ?]
    | apply keeps_try_catch; [|intros ?]
    | apply total_try_catch; [|intros ?]
    | match goal with
      | |- keeps (match ?x with _ => _ end) => destruct x
      | |- total (match ?x with _ => _ end) => destruct x
      | |- returning (match ?x with _ => _ end) => destruct x
      | |- returning (if ?b then _ else _) => destruct b
      | |- keeps (if ?b then _ else _) => destruct b
      | |- total (if ?b then _ else _) => destruct b
      end ].

Section WithRuntime.
Context {rt : JsRuntime}.

Lemma record_entry_length e l :
  (List.length l <= maxLogs)%nat -> (List.length (record_entry e l) <= maxLogs)%nat.
Proof. intros H. rewrite record_entry_newest by exact H. apply newest_length. Qed.

Lemma keeps_captureConsoleLog type args : keeps (captureConsoleLog type args).
Proof.
  intros w. rewrite captureConsoleLog_run. split; [reflexivity|]. split.
  - reflexivity.
  - cbn [monitor with_monitor recentLogs set_recentLogs with_clock_reads].
    apply record_entry_length.
Qed.

Lemma total_captureConsoleLog type args : total (captureConsoleLog type args).
Proof. intros w. rewrite captureConsoleLog_run. discriminate. Qed.

Lemma returning_captureConsoleLog type args : returning (captureConsoleLog type args).
Proof. intros w. rewrite captureConsoleLog_run. eexists _, _; reflexivity. Qed.

Lemma keeps_reportError r : keeps (reportError r).
Proof.
  intros w. unfold reportError, bind, gets.
  destruct (config (monitor w)) eqn:E; simpl.
  - split; [reflexivity|]. split; [discriminate | auto].
  - auto.
Qed.

Lemma total_reportError r : total (reportError r).
Proof.
  intros w. unfold reportError, bind, gets.
  destruct (config (monitor w)); discriminate.
Qed.

Lemma returning_reportError r : returning (reportError r).
Proof.
  intros w. unfold reportError, bind, gets.
  destruct (config (monitor w)); eexists _, _; reflexivity.
Qed.

#[local] Hint Resolve returning_captureConsoleLog returning_reportError : returning.

#[local] Hint Resolve keeps_captureConsoleLog keeps_reportError : keeps.
#[local] Hint Resolve total_captureConsoleLog total_reportError : total.

Lemma keeps_getRelevantLogs t win : keeps (getRelevantLogs t win).
Proof. unfold getRelevantLogs. through keeps. Qed.

Lemma total_getRelevantLogs t win : total (getRelevantLogs t win).
Proof. unfold getRelevantLogs. through total. Qed.

Lemma returning_getRelevantLogs t win : returning (getRelevantLogs t win).
Proof. unfold getRelevantLogs. through returning. Qed.

#[local] Hint Resolve returning_getRelevantLogs : returning.

#[local] Hint Resolve keeps_getRelevantLogs : keeps.
#[local] Hint Resolve total_getRelevantLogs : total.

Lemma keeps_buildComprehensiveMessage p c : keeps (buildComprehensiveMessage p c).
Proof. unfold buildComprehensiveMessage. through keeps. Qed.

Lemma total_buildComprehensiveMessage p c : total (buildComprehensiveMessage p c).
Proof. unfold buildComprehensiveMessage. through total. Qed.

Lemma returning_buildComprehensiveMessage p c :
  returning (buildComprehensiveMessage p c).
Proof. unfold buildComprehensiveMessage. through returning. Qed.

Lemma keeps_getProjectInfo : keeps getProjectInfo.
Proof. unfold getProjectInfo. through keeps. Qed.

Lemma total_getProjectInfo : total getProjectInfo.
Proof. unfold getProjectInfo. through total. Qed.

Lemma returning_getProjectInfo : returning getProjectInfo.
Proof. unfold getProjectInfo. through returning. Qed.

#[local] Hint Resolve returning_buildComprehensiveMessage returning_getProjectInfo
  : returning.

Lemma keeps_the_window : keeps the_window.
Proof. unfold the_window. through keeps. Qed.

Lemma total_the_window : total the_window.
Proof. unfold the_window. through total. Qed.

#[local] Hint Resolve keeps_buildComprehensiveMessage keeps_getProjectInfo
  keeps_the_window : keeps.
#[local] Hint Resolve total_buildComprehensiveMessage total_getProjectInfo
  total_the_window : total.
#[local] Hint Unfold config_environment config_accessToken window_url
  window_userAgent : keeps total.

Lemma keeps_handleConsoleError args : keeps (handleConsoleError args).
Proof.
  unfold handleConsoleError, config_environment, config_accessToken,
    window_url, window_userAgent.
  through keeps.
Qed.

Lemma total_handleConsoleError args : total (handleConsoleError args).
Proof.
  unfold handleConsoleError, config_environment, config_accessToken,
    window_url, window_userAgent.
  through total.
Qed.

#[local] Hint Resolve keeps_handleConsoleError : keeps.
#[local] Hint Resolve total_handleConsoleError : total.

Lemma keeps_console_wrapper k args : keeps (console_wrapper k args).
Proof. unfold console_wrapper. through keeps. Qed.

Lemma total_console_wrapper k args : total (console_wrapper k args).
Proof. unfold console_wrapper. through total. Qed.

#[local] Hint Resolve keeps_console_wrapper : keeps.
#[local] Hint Resolve total_console_wrapper : total.

Lemma keeps_console_call k args : keeps (console_call k args).
Proof. unfold console_call. through keeps. Qed.

Lemma total_console_call k args : total (console_call k args).
Proof. unfold console_call. through total. Qed.

#[local] Hint Resolve keeps_console_call : keeps.
#[local] Hint Resolve total_console_call : total.

Lemma keeps_reportError_settled o : keeps (reportError_settled o).
Proof. unfold reportError_settled. through keeps. Qed.

Lemma total_reportError_settled o : total (reportError_settled o).
Proof. unfold reportError_settled. through total. Qed.

Lemma keeps_handleUncaughtException e : keeps (handleUncaughtException e).
Proof.
  unfold handleUncaughtException, config_environment, config_accessToken,
    window_url, window_userAgent.
  through keeps.
Qed.

Lemma keeps_handleUnhandledRejection r : keeps (handleUnhandledRejection r).
Proof.
  unfold handleUnhandledRejection, config_environment, config_accessToken,
    window_url, window_userAgent.
  through keeps.
Qed.

Lemma keeps_handleWindowError_within frames m s l c e :
  keeps (handleWindowError_within frames m s l c e).
Proof.
  induction frames as [|frames IH]; cbn [handleWindowError_within];
    unfold config_environment, config_accessToken; through keeps.
Qed.

Lemma keeps_handleWindowError m s l c e : keeps (handleWindowError m s l c e).
Proof. apply keeps_handleWindowError_within. Qed.

Lemma keeps_handleWindowUnhandledRejection_within frames r :
  keeps (handleWindowUnhandledRejection_within frames r).
Proof.
  induction frames as [|frames IH]; cbn [handleWindowUnhandledRejection_within];
    unfold config_environment, config_accessToken; through keeps.
Qed.

Lemma keeps_handleWindowUnhandledRejection r :
  keeps (handleWindowUnhandledRejection r).
Proof. apply keeps_handleWindowUnhandledRejection_within. Qed.

Lemma total_handleWindowError_within frames m s l c e :
  total (handleWindowError_within frames m s l c e).
Proof.
  induction frames as [|frames IH]; cbn [handleWindowError_within];
    unfold config_environment, config_accessToken; through total.
Qed.

Lemma total_handleWindowUnhandledRejection_within frames r :
  total (handleWindowUnhandledRejection_within frames r).
Proof.
  induction frames as [|frames IH]; cbn [handleWindowUnhandledRejection_within];
    unfold config_environment, config_accessToken; through total.
Qed.

Lemma keeps_customErrorReport e m : keeps (customErrorReport e m).
Proof.
  unfold customErrorReport, config_environment, config_accessToken,
    window_url, window_userAgent.
  through keeps.
Qed.

Lemma total_customErrorReport e m : total (customErrorReport e m).
Proof.
  unfold customErrorReport, config_environment, config_accessToken,
    window_url, window_userAgent.
  through total.
Qed.

Lemma returning_customErrorReport e m : returning (customErrorReport e m).
Proof.
  unfold customErrorReport, config_environment, config_accessToken,
    window_url, window_userAgent.
  through returning.
Qed.

Lemma returning_reportCustomError e m : returning (reportCustomError e m).
Proof.
  unfold reportCustomError. apply returning_bind; [apply returning_customErrorReport|].
  intros r. auto with returning.
Qed.

(** [handleConsoleError] returns whenever its arguments serialise. *)
Lemma returning_handleConsoleError args :
  console_parts args <> None -> returning (handleConsoleError args).
Proof.
  intros H. unfold handleConsoleError, config_environment, config_accessToken,
    window_url, window_userAgent.
  apply returning_bind; [auto with returning|]. intros ts.
  destruct (console_parts args); [|congruence].
  through returning.
Qed.

#[local] Hint Resolve keeps_handleUncaughtException keeps_handleUnhandledRejection
  keeps_handleWindowError keeps_handleWindowUnhandledRejection
  keeps_customErrorReport keeps_reportError_settled : keeps.

Lemma keeps_reportCustomError e m : keeps (reportCustomError e m).
Proof. unfold reportCustomError. through keeps. Qed.

Lemma keeps_testWebhook st : keeps (testWebhook st).
Proof.
  unfold testWebhook, config_environment, config_accessToken,
    window_url, window_userAgent.
  through keeps.
Qed.

Lemma keeps_call_listeners own arg ls :
  keeps own -> keeps (call_listeners own arg ls).
Proof.
  intros Hown. induction ls as [|l rest IH]; simpl.
  - auto with keeps.
  - apply keeps_bind; [|intros _; exact IH].
    destruct l; simpl; auto with keeps.
Qed.

#[local] Hint Resolve keeps_reportCustomError keeps_testWebhook : keeps.

(** Every event other than the lifecycle and the file system keeps the
    skeleton. *)
Lemma keeps_step (ev : Event) :
  match ev with
  | Start | Stop | ConfigFileBecomes _ => True
  | _ => keeps (step ev)
  end.
Proof.
  destruct ev; simpl; try exact I; auto with keeps.
  - unfold emit_uncaughtException. apply keeps_bind; [auto with keeps|].
    intros [pr|]; [apply keeps_call_listeners|]; auto with keeps.
  - unfold emit_unhandledRejection. apply keeps_bind; [auto with keeps|].
    intros [pr|]; [apply keeps_call_listeners|]; auto with keeps.
  - unfold window_error. through keeps.
  - unfold window_unhandledrejection. through keeps.
Qed.

End WithRuntime.
End Frames.

(* ================================================================= *)
(** ** The lifecycle: start and stop *)

Module Lifecycle.
Import Vocabulary Model Effects Monitor Execution BufferFacts Frames.

Lemma try_bind_ok {A B} (m : M A) (k : A -> M B) (h : any -> M B) w a w1 :
  m w = Ok a w1 -> try_catch (bind m k) h w = try_catch (k a) h w1.
Proof. intros E. unfold try_catch, bind. now rewrite E. Qed.

Lemma try_bind_throw {A B} (m : M A) (k : A -> M B) (h : any -> M B) w e w1 :
  m w = Throw e w1 -> try_catch (bind m k) h w = h e w1.
Proof. intros E. unfold try_catch, bind. now rewrite E. Qed.

Lemma bind_ok {A B} (m : M A) (k : A -> M B) w a w1 :
  m w = Ok a w1 -> bind m k w = k a w1.
Proof. intros E. unfold bind. now rewrite E. Qed.

Lemma reaches_host_skeleton k w w1 :
  skeleton w1 = skeleton w -> reaches_host k w1 = reaches_host k w.
Proof.
  intros H. unfold reaches_host.
  destruct (skeleton_host _ _ H) as (-> & _).
  destruct (skeleton_monitor _ _ H) as (_ & _ & _ & _ & _ & E1 & E2 & E3).
  destruct k; simpl; now rewrite ?E1, ?E2, ?E3.
Qed.

Lemma host_console_reaches w k : host_console w -> reaches_host k w = true.
Proof. intros H. unfold reaches_host. destruct (H k) as [id ->]. reflexivity. Qed.

Section WithRuntime.
Context {rt : JsRuntime}.

(** *** Console calls *)

Lemma console_call_reaches k args w :
  reaches_host k w = true ->
  (k = KError -> console_parts args <> None) ->
  exists w', console_call k args w = Ok tt w' /\ rel w w'.
Proof.
  intros Hr Hargs.
  assert (E : exists w', console_call k args w = Ok tt w').
  { unfold console_call, bind, gets. unfold reaches_host in Hr.
    destruct (slot k (console w)) as [id|s].
    - eexists; reflexivity.
    - unfold console_wrapper, bind, gets.
      destruct (original k (monitor w)) as [id|s']; [|discriminate].
      cbn [call_host modify]. rewrite captureConsoleLog_run.
      destruct k; try (eexists; reflexivity).
      match goal with
      | |- exists w', handleConsoleError args ?w0 = _ =>
          destruct (returning_handleConsoleError args (Hargs eq_refl) w0)
            as ([] & w' & E)
      end.
      exists w'. exact E. }
  destruct E as [w' E]. exists w'. split; [exact E|].
  pose proof (keeps_console_call k args w) as Hk. rewrite E in Hk. exact Hk.
Qed.

Lemma console_call_overflows k args w :
  reaches_host k w = false -> console_call k args w = Throw RangeError w.
Proof.
  unfold reaches_host, console_call, console_wrapper, bind, gets.
  destruct (slot k (console w)); [discriminate|].
  destruct (original k (monitor w)); [discriminate | reflexivity].
Qed.

(** A message of the monitor itself: a text and, possibly, an error. *)
Lemma own_message_parts (s : string) (e : Error) :
  console_parts [Str s; ErrorObj e] <> None /\ console_parts [Str s] <> None.
Proof.
  split; simpl; [|discriminate].
  destruct (JSON_stringify (ErrorObj e)) eqn:E; [discriminate|].
  now apply JSON_stringify_Error in E.
Qed.

(** A console call inside [try], with a console call in [catch]. *)
Lemma logged k args (s : string) w :
  exists w',
    end_state (try_catch (console_call k args)
                 (fun error => console_call KError [Str s; error]) w) = Some w' /\
    rel w w' /\
    (reaches_host k w = true -> k <> KError ->
     try_catch (console_call k args)
       (fun error => console_call KError [Str s; error]) w = Ok tt w').
Proof.
  destruct (reaches_host k w) eqn:Hr; [destruct (k_is_error k) eqn:Hk|].
  - destruct (ends _ (keeps_try_catch _ _ (keeps_console_call k args)
                        (fun e => keeps_console_call KError [Str s; e]))
                     (total_try_catch _ _ (total_console_call k args)
                        (fun e => total_console_call KError [Str s; e])) w)
      as (w' & [[a E] | [e E]] & Hrel); exists w'; rewrite E;
      (split; [reflexivity|]); (split; [exact Hrel|]);
      intros _ Hne; destruct k; try discriminate; congruence.
  - destruct (console_call_reaches k args w Hr) as (w' & E & Hrel).
    { intros ->. discriminate. }
    exists w'. unfold try_catch. rewrite E. auto.
  - unfold try_catch. rewrite console_call_overflows by exact Hr.
    destruct (ends _ (keeps_console_call KError [Str s; RangeError])
                     (total_console_call KError [Str s; RangeError]) w)
      as (w' & [[a E] | [e E]] & Hrel); exists w'; rewrite E;
      (split; [reflexivity|]); (split; [exact Hrel|]); discriminate.
Qed.

(** *** Installing and removing the hooks *)

Lemma returning_setupErrorHandlers : returning setupErrorHandlers.
Proof. unfold setupErrorHandlers. through returning. Qed.

Lemma setupErrorHandlers_run w : setupErrorHandlers w = Ok tt (installed w).
Proof.
  destruct (returning_setupErrorHandlers w) as ([] & w' & E).
  unfold installed. now rewrite E.
Qed.

Lemma removeErrorHandlers_run w : removeErrorHandlers w = Ok tt (uninstalled w).
Proof. reflexivity. Qed.

Lemma structural_skeleton f w w1 :
  structural f -> skeleton w1 = skeleton w -> skeleton (f w1) = skeleton (f w).
Proof.
  intros Hf H. destruct (Hf w1) as [-> _]. destruct (Hf w) as [-> _]. now rewrite H.
Qed.

Lemma structural_installed : structural installed.
Proof.
  intros w. unfold installed, setupErrorHandlers, bind, gets, fresh_serial, modify.
  destruct w as [m c p wi e cw cf pj cl cr ns ps hc hr].
  destruct p; destruct wi; cbn; auto.
Qed.

Lemma structural_uninstalled : structural uninstalled.
Proof.
  intros w. destruct w as [m c p wi e cw cf pj cl cr ns ps hc hr].
  destruct m. cbn. auto.
Qed.

Lemma structural_monitor (f : WingmanMonitor -> WingmanMonitor) :
  (forall m, set_recentLogs [] (f m) = set_recentLogs [] (f (set_recentLogs [] m))) ->
  (forall m, recentLogs (f m) = recentLogs m) ->
  structural (with_monitor f).
Proof.
  intros H1 H2 w. destruct w as [m c p wi e cw cf pj cl cr ns ps hc hr].
  unfold skeleton, with_monitor.
  cbn [monitor console process window env cwd config_file package_json clock
       clock_reads next_serial posts host_calls host_returns].
  repeat split; [|apply H2]. f_equal. apply H1.
Qed.

Lemma structural_set_config c : structural (with_monitor (set_config c)).
Proof. apply structural_monitor; intros []; reflexivity. Qed.

Lemma structural_set_isStarted b : structural (with_monitor (set_isStarted b)).
Proof. apply structural_monitor; intros []; reflexivity. Qed.

Lemma structural_with_manager f : structural (with_manager f).
Proof. apply structural_monitor; intros []; reflexivity. Qed.

Lemma structural_compose f g :
  structural f -> structural g -> structural (fun w => f (g w)).
Proof.
  intros Hf Hg w. destruct (Hf (g w)) as (H1 & H2 & H3).
  destruct (Hg w) as (G1 & G2 & G3). repeat split.
  - apply structural_skeleton; [exact Hf|]. exact G1.
  - congruence.
  - congruence.
Qed.

(** What [setupErrorHandlers] installs and what it saves. *)
Lemma installed_console w :
  exists s,
    console (installed w) = mkConsole (OwnHook s) (OwnHook (S s)) (OwnHook (S (S s))) /\
    (next_serial w <= s)%nat /\
    originalConsoleError (monitor (installed w)) = console_error (console w) /\
    originalConsoleWarn (monitor (installed w)) = console_warn (console w) /\
    originalConsoleLog (monitor (installed w)) = console_log (console w).
Proof.
  destruct w as [m c p wi e cw cf pj cl cr ns ps hc hr].
  unfold installed, setupErrorHandlers, bind, gets, fresh_serial, modify.
  destruct p; destruct wi; cbn;
    eexists; (split; [reflexivity|]); (split; [|auto]); lia.
Qed.

Lemma installed_process w :
  process (installed w) =
  match process w with
  | Some pr => Some (mkProcess (uncaughtException pr ++ [BoundMethod (next_serial w)])
                               (unhandledRejection pr ++ [BoundMethod (S (next_serial w))]))
  | None => None
  end.
Proof.
  destruct w as [m c p wi e cw cf pj cl cr ns ps hc hr].
  unfold installed, setupErrorHandlers, bind, gets, fresh_serial, modify.
  destruct p; destruct wi; cbn; reflexivity.
Qed.

Lemma installed_window w :
  match window w, window (installed w) with
  | Some x, Some y =>
      (exists s, onerror y = Some (OwnHook s) /\
                 onunhandledrejection y = Some (OwnHook (S s))) /\
      originalErrorHandler (monitor (installed w)) = onerror x /\
      originalUnhandledRejectionHandler (monitor (installed w)) = onunhandledrejection x
  | None, None =>
      originalErrorHandler (monitor (installed w)) = originalErrorHandler (monitor w) /\
      originalUnhandledRejectionHandler (monitor (installed w))
        = originalUnhandledRejectionHandler (monitor w)
  | _, _ => False
  end.
Proof.
  destruct w as [m c p wi e cw cf pj cl cr ns ps hc hr].
  unfold installed, setupErrorHandlers, bind, gets, fresh_serial, modify.
  destruct p; destruct wi; cbn; eauto.
Qed.

Lemma installed_monitor w :
  config (monitor (installed w)) = config (monitor w) /\
  configManager (monitor (installed w)) = configManager (monitor w) /\
  isStarted (monitor (installed w)) = isStarted (monitor w).
Proof.
  destruct w as [m c p wi e cw cf pj cl cr ns ps hc hr].
  unfold installed, setupErrorHandlers, bind, gets, fresh_serial, modify.
  destruct p; destruct wi; cbn; auto.
Qed.

(** *** start *)

Lemma load_run w :
  match config_file_of w with
  | Holds c =>
      ConfigManager_load w =
      Ok (Some c) (with_manager (fun cm => mkConfigManager (configPath cm) (Some c)) w)
  | Absent => ConfigManager_load w = Ok None w
  | Unreadable e =>
      if reaches_host KError w
      then exists w1, ConfigManager_load w = Ok None w1 /\ rel w w1
      else ConfigManager_load w = Throw RangeError w
  end.
Proof.
  unfold config_file_of, ConfigManager_load, bind, gets.
  destruct (config_file w (configPath (configManager (monitor w)))) as [|e|c].
  - reflexivity.
  - destruct (reaches_host KError w) eqn:Hr.
    + destruct (console_call_reaches KError
                  [Str "Failed to load Wingman config:"; ErrorObj e] w Hr)
        as (w1 & E & Hrel).
      { intros _. apply own_message_parts. }
      exists w1. rewrite E. auto.
    + now rewrite console_call_overflows.
  - reflexivity.
Qed.

Lemma finish (f : World -> World) (w w1 w' : World) :
  rel w w1 -> structural f -> rel (f w1) w' ->
  skeleton w' = skeleton (f w) /\
  ((List.length (recentLogs (monitor w)) <= maxLogs)%nat ->
   (List.length (recentLogs (monitor w')) <= maxLogs)%nat) /\
  (config (monitor w) = None -> config (monitor w') = None -> posts w' = posts w).
Proof.
  intros (Hs & Hp & Hl) Hf (Hs' & Hp' & Hl').
  destruct (Hf w1) as (_ & Fp & Fl).
  split; [|split].
  - rewrite Hs'. now apply structural_skeleton.
  - intros Hb. apply Hl'. rewrite Fl. auto.
  - intros Hc Hc'. rewrite Hp', Fp; auto.
    destruct (skeleton_monitor _ _ Hs') as [Hcfg _]. congruence.
Qed.

Lemma structural_id : structural (fun w => w).
Proof. intros w. auto. Qed.

Lemma structural_remember c : structural (remember c).
Proof.
  apply (structural_compose (with_monitor (set_config (Some c))) (with_manager _)).
  - apply structural_set_config.
  - apply structural_with_manager.
Qed.

Lemma structural_started c :
  structural (fun w => with_monitor (set_isStarted true) (installed (remember c w))).
Proof.
  apply (structural_compose (with_monitor (set_isStarted true))
                            (fun w => installed (remember c w))).
  - apply structural_set_isStarted.
  - apply (structural_compose installed (remember c)).
    + apply structural_installed.
    + apply structural_remember.
Qed.

(** After a structural change that keeps the console and the saved
    originals, the console functions still end in the host. *)
Lemma reaches_after (f : World -> World) k w w1 :
  structural f -> skeleton w1 = skeleton w ->
  reaches_host k (f w) = true -> reaches_host k (f w1) = true.
Proof.
  intros Hf Hs H. rewrite <- H. apply reaches_host_skeleton.
  now apply structural_skeleton.
Qed.

Lemma reaches_set_config c k w :
  host_console w -> reaches_host k (with_monitor (set_config c) w) = true.
Proof. intros H. unfold reaches_host. cbn. destruct (H k) as [id ->]. reflexivity. Qed.

Lemma reaches_remember c k w :
  host_console w -> reaches_host k (remember c w) = true.
Proof. intros H. unfold reaches_host. cbn. destruct (H k) as [id ->]. reflexivity. Qed.

Lemma reaches_started c k w :
  host_console w ->
  reaches_host k (with_monitor (set_isStarted true) (installed (remember c w))) = true.
Proof.
  intros H. unfold reaches_host.
  set (X := installed (remember c w)).
  assert (Hs : slot k (console (with_monitor (set_isStarted true) X))
               = slot k (console X)) by reflexivity.
  assert (Ho : original k (monitor (with_monitor (set_isStarted true) X))
               = original k (monitor X)) by (destruct k; reflexivity).
  rewrite Hs, Ho.
  destruct (installed_console (remember c w)) as (s & Hc & _ & E1 & E2 & E3).
  fold X in Hc, E1, E2, E3. rewrite Hc.
  assert (Hk : original k (monitor X) = slot k (console w)).
  { destruct k; cbn [original slot]; [exact E1 | exact E2 | exact E3]. }
  rewrite Hk. destruct (H k) as [id ->]. destruct k; reflexivity.
Qed.

Lemma start_end w :
  exists w',
    end_state (start w) = Some w' /\
    skeleton w' = skeleton (start_target w) /\
    (within_capacity w -> within_capacity w') /\
    (config (monitor w) = None -> config (monitor w') = None -> posts w' = posts w) /\
    (host_console w -> start w = Ok tt w').
Proof.
  pose proof (load_run w) as Hload. unfold start, start_target.
  destruct (config_file_of w) as [|e|c] eqn:Hfile.
  - (* no file *)
    rewrite (try_bind_ok _ _ _ _ _ _ Hload).
    erewrite try_bind_ok by reflexivity.
    match goal with
    | |- context [try_catch (console_call ?k ?args) _ ?w2] =>
        destruct (logged k args "Wingman: Failed to start monitoring:" w2)
          as (w' & E & Hrel & Hok)
    end.
    exists w'. split; [exact E|].
    destruct (finish (with_monitor (set_config None)) w w w' (rel_refl w)
                     (structural_set_config None) Hrel) as (F1 & F2 & F3).
    repeat split; auto.
    intros Hh. apply Hok; [|discriminate]. now apply reaches_set_config.
  - (* a file that cannot be read *)
    destruct (reaches_host KError w) eqn:Hr.
    + destruct Hload as (w1 & Hload & Hrel1).
      rewrite (try_bind_ok _ _ _ _ _ _ Hload).
      erewrite try_bind_ok by reflexivity.
      match goal with
      | |- context [try_catch (console_call ?k ?args) _ ?w2] =>
          destruct (logged k args "Wingman: Failed to start monitoring:" w2)
            as (w' & E & Hrel & Hok)
      end.
      exists w'. split; [exact E|].
      destruct (finish (with_monitor (set_config None)) w w1 w' Hrel1
                       (structural_set_config None) Hrel) as (F1 & F2 & F3).
      repeat split; auto.
      intros Hh. apply Hok; [|discriminate].
      apply (reaches_after (with_monitor (set_config None)) KWarn w w1).
      * apply structural_set_config.
      * apply Hrel1.
      * now apply reaches_set_config.
    + rewrite (try_bind_throw _ _ _ _ _ _ Hload).
      rewrite console_call_overflows by exact Hr.
      exists w. simpl. repeat split; auto.
      intros Hh. rewrite (host_console_reaches w KError Hh) in Hr. discriminate.
  - (* a config *)
    rewrite (try_bind_ok _ _ _ _ _ _ Hload).
    erewrite try_bind_ok by reflexivity.
    destruct (enabled_falsy c) eqn:Hen; cbn [orb].
    + match goal with
      | |- context [try_catch (console_call ?k ?args) _ ?w2] =>
          destruct (logged k args "Wingman: Failed to start monitoring:" w2)
            as (w' & E & Hrel & Hok)
      end.
      exists w'. split; [exact E|].
      destruct (finish (remember c) w w w' (rel_refl w) (structural_remember c) Hrel)
        as (F1 & F2 & F3).
      repeat split; auto.
      intros Hh. apply Hok; [|discriminate]. now apply (reaches_remember c).
    + erewrite try_bind_ok by reflexivity.
      cbn [monitor with_monitor with_manager isStarted set_config set_configManager].
      destruct (isStarted (monitor w)) eqn:Hst.
      * match goal with
        | |- context [try_catch (console_call ?k ?args) _ ?w2] =>
            destruct (logged k args "Wingman: Failed to start monitoring:" w2)
              as (w' & E & Hrel & Hok)
        end.
        exists w'. split; [exact E|].
        destruct (finish (remember c) w w w' (rel_refl w) (structural_remember c) Hrel)
          as (F1 & F2 & F3).
        repeat split; auto.
        intros Hh. apply Hok; [|discriminate]. now apply (reaches_remember c).
      * erewrite try_bind_ok by apply setupErrorHandlers_run.
        erewrite try_bind_ok by reflexivity.
        match goal with
        | |- context [try_catch (console_call ?k ?args) _ ?w2] =>
            destruct (logged k args "Wingman: Failed to start monitoring:" w2)
              as (w' & E & Hrel & Hok)
        end.
        exists w'. split; [exact E|].
        destruct (finish (fun w => with_monitor (set_isStarted true)
                                     (installed (remember c w)))
                         w w w' (rel_refl w) (structural_started c) Hrel)
          as (F1 & F2 & F3).
        repeat split; auto.
        intros Hh. apply Hok; [|discriminate]. now apply (reaches_started c).
Qed.

(** *** stop *)

Lemma stop_stopped w : isStarted (monitor w) = false -> stop w = Ok tt w.
Proof. intros H. unfold stop, bind, gets. now rewrite H. Qed.

Lemma structural_stopped :
  structural (fun w => with_monitor (set_isStarted false) (uninstalled w)).
Proof.
  apply (structural_compose (with_monitor (set_isStarted false)) uninstalled).
  - apply structural_set_isStarted.
  - apply structural_uninstalled.
Qed.

Lemma stop_end w :
  isStarted (monitor w) = true ->
  exists w',
    end_state (stop w) = Some w' /\
    skeleton w' = skeleton (with_monitor (set_isStarted false) (uninstalled w)) /\
    (within_capacity w -> within_capacity w') /\
    (config (monitor w) = None -> posts w' = posts w) /\
    (reaches_host KLog w = true -> stop w = Ok tt w').
Proof.
  intros Hst. unfold stop, bind, gets. rewrite Hst. cbn [negb].
  rewrite removeErrorHandlers_run. cbn [modify].
  set (w2 := with_monitor (set_isStarted false) (uninstalled w)).
  destruct (ends _ (keeps_console_call KLog [Str "Wingman: Monitoring stopped"])
                   (total_console_call KLog [Str "Wingman: Monitoring stopped"]) w2)
    as (w' & Hres & Hrel).
  assert (Hend : end_state (console_call KLog [Str "Wingman: Monitoring stopped"] w2)
                 = Some w').
  { destruct Hres as [[a E] | [e E]]; now rewrite E. }
  exists w'. split; [exact Hend|].
  destruct (finish (fun w => with_monitor (set_isStarted false) (uninstalled w))
                   w w w' (rel_refl w) structural_stopped Hrel) as (F1 & F2 & F3).
  split; [exact F1|]. split; [exact F2|]. split.
  - intros Hc. apply F3; [exact Hc|].
    destruct (skeleton_monitor _ _ F1) as [-> _].
    destruct w as [m c p wi e cw cf pj cl cr ns ps hc hr]. destruct m. exact Hc.
  - intros Hr.
    destruct (console_call_reaches KLog [Str "Wingman: Monitoring stopped"] w2)
      as (w3 & E & _).
    + rewrite <- Hr. unfold reaches_host, w2.
      destruct w as [m c p wi e cw cf pj cl cr ns ps hc hr]. destruct m. reflexivity.
    + discriminate.
    + rewrite E in Hend. injection Hend as ->. exact E.
Qed.

End WithRuntime.
End Lifecycle.

(* ================================================================= *)
(** ** Building and sending a report *)

Module Sending.
Import Vocabulary Model Effects Monitor Execution BufferFacts Frames Lifecycle.

Section WithRuntime.
Context {rt : JsRuntime}.

Lemma reportError_run (report : ErrorReport) (w : World) :
  reportError report w =
  Ok tt (match config (monitor w) with
         | None => w
         | Some _ => send report w
         end).
Proof.
  unfold reportError, bind, gets. destruct (config (monitor w)); reflexivity.
Qed.

Lemma getRelevantLogs_run t win w :
  exists text, getRelevantLogs t win w = Ok text w.
Proof.
  unfold getRelevantLogs, bind, gets.
  destruct (_ =? _)%nat; eexists; reflexivity.
Qed.

Lemma buildComprehensiveMessage_run p c w :
  exists text, buildComprehensiveMessage p c w = Ok text (with_clock_reads S w).
Proof.
  unfold buildComprehensiveMessage, bind, Date_now.
  destruct (getRelevantLogs_run (clock w (clock_reads w)) default_windowMs
                                (with_clock_reads S w)) as [text ->].
  eexists; reflexivity.
Qed.

Lemma getProjectInfo_run w : exists info, getProjectInfo w = Ok info w.
Proof.
  unfold getProjectInfo, bind, gets.
  destruct (package_json w _); eexists; reflexivity.
Qed.

(** The report of [reportCustomError]: its type and severity are fixed,
    the rest comes from the error, the config and the clock; building it
    reads the clock twice and changes nothing else. *)
Lemma customErrorReport_run (error : Error) (metadata : any) (w : World) :
  exists text info,
    customErrorReport error metadata w =
    Ok {| message := text;
          errorType := "customError";
          severity := medium;
          rep_environment :=
            or_else (option_map environment (config (monitor w))) "unknown";
          rep_accessToken := or_else (option_map accessToken (config (monitor w))) "";
          timestamp := clock w (clock_reads w);
          stack := err_stack error;
          projectInfo := info;
          metadata := metadata |}
       (with_clock_reads S (with_clock_reads S w)).
Proof.
  unfold customErrorReport, bind, Date_now, window_url, window_userAgent,
    config_environment, config_accessToken, gets.
  match goal with
  | |- context [buildComprehensiveMessage ?p ?c ?w1] =>
      destruct (buildComprehensiveMessage_run p c w1) as [text ->]
  end.
  match goal with
  | |- context [getProjectInfo ?w1] =>
      destruct (getProjectInfo_run w1) as [info ->]
  end.
  exists text, info. reflexivity.
Qed.

(** What [handleConsoleError] does when its arguments serialise: nothing
    to the host's trace, and at most one POST, of a [consoleError] report. *)
Lemma handleConsoleError_run (args : list any) (w : World) :
  console_parts args <> None ->
  exists w',
    handleConsoleError args w = Ok tt w' /\
    host_calls w' = host_calls w /\
    (posts w' = posts w \/
     exists p, posts w' = (posts w ++ [p])%list /\
               errorType (data (post_payload p)) = "consoleError" /\
               severity (data (post_payload p)) = low).
Proof.
  intros Hparts.
  unfold handleConsoleError, bind, Date_now, window_url, window_userAgent,
    config_environment, config_accessToken, gets.
  destruct (console_parts args) as [parts|]; [|congruence].
  destruct (_ || _).
  - match goal with
    | |- context [buildComprehensiveMessage ?p ?c ?w1] =>
        destruct (buildComprehensiveMessage_run p c w1) as [text ->]
    end.
    match goal with
    | |- context [getProjectInfo ?w1] =>
        destruct (getProjectInfo_run w1) as [info ->]
    end.
    rewrite reportError_run. eexists. split; [reflexivity|].
    cbn [monitor with_clock_reads config].
    destruct (config (monitor w)).
    + split; [reflexivity|]. right. eexists. split; [reflexivity|]. split; reflexivity.
    + split; [reflexivity|]. left. reflexivity.
  - eexists. split; [reflexivity|]. split; [reflexivity|]. left. reflexivity.
Qed.

Lemma settled_failure_run (f : DeliveryFailure) (w : World) :
  reaches_host KError w = true ->
  exists w',
    reportError_settled (Failed f) w = Ok tt w' /\
    skeleton w' = skeleton w /\
    (exists id, host_calls w' = (host_calls w ++ [Called id (failure_log f)])%list) /\
    (posts w' = posts w \/
     exists p, posts w' = (posts w ++ [p])%list /\
               errorType (data (post_payload p)) = "consoleError" /\
               severity (data (post_payload p)) = low) /\
    (forall id, console_error (console w) = HostFn id ->
                w' = with_host_calls (fun l => (l ++ [Called id (failure_log f)])%list) w).
Proof.
  intros Hr.
  assert (Hk := keeps_reportError_settled (Failed f) w).
  unfold reportError_settled in *. fold (failure_log f) in *.
  unfold console_call, bind, gets in *. unfold reaches_host in Hr.
  cbn [slot original] in *.
  destruct (console_error (console w)) as [id|s] eqn:Eslot.
  - eexists. split; [reflexivity|]. split; [reflexivity|]. split.
    + exists id. reflexivity.
    + split; [left; reflexivity|]. intros id' [= <-]. reflexivity.
  - unfold console_wrapper, bind, gets in *. cbn [original] in *.
    destruct (originalConsoleError (monitor w)) as [id|s']; [|discriminate].
    cbn [call_host modify] in *. rewrite captureConsoleLog_run in *.
    match goal with
    | |- context [handleConsoleError ?a ?w1] =>
        destruct (handleConsoleError_run a w1) as (w' & E & Hcalls & Hposts)
    end.
    { apply own_message_parts. }
    rewrite E in Hk. exists w'. split; [exact E|]. split; [apply Hk|]. split.
    + exists id. rewrite Hcalls. reflexivity.
    + split; [exact Hposts|]. intros id' H. discriminate.
Qed.

End WithRuntime.
End Sending.

(* ================================================================= *)
(** ** The lifecycle properties *)

Module LifecycleProperties.
Import Vocabulary Model Effects Monitor Execution BufferFacts Frames Lifecycle Sending.

Lemma skeleton_same w w' :
  skeleton w' = skeleton w ->
  same_hooks w w' /\ same_originals w w' /\
  isStarted (monitor w') = isStarted (monitor w) /\
  config (monitor w') = config (monitor w) /\
  configManager (monitor w') = configManager (monitor w).
Proof.
  intros H. destruct (skeleton_monitor _ _ H) as (A1 & A2 & A3 & A4 & A5 & A6 & A7 & A8).
  destruct (skeleton_host _ _ H) as (B1 & B2 & B3 & _).
  unfold same_hooks, same_originals. repeat split; assumption.
Qed.

Lemma enabled_falsy_spec c : enabled_falsy c = false <-> enabled c = Some true.
Proof.
  unfold enabled_falsy. destruct (enabled c) as [[|]|]; split; congruence.
Qed.

Section WithRuntime.
Context {rt : JsRuntime}.

Lemma isActive_run w :
  isActive w = Ok (isStarted (monitor w) && enabled_is_true (config (monitor w))) w.
Proof. reflexivity. Qed.



(** *** start on a started monitor *)




(** *** load after an earlier load *)


(** *** stop *)

Lemma Listener_eqb_eq a b : Listener_eqb a b = true <-> a = b.
Proof.
  destruct a, b; simpl; try (split; [discriminate | congruence]).
  - rewrite Nat.eqb_eq. split; congruence.
  - rewrite Nat.eqb_eq. split; congruence.
  - split; reflexivity.
Qed.

Lemma remove_first_absent f l : ~ In f l -> remove_first f l = l.
Proof.
  induction l as [|x l IH]; intros H; simpl; [reflexivity|].
  destruct (Listener_eqb x f) eqn:E.
  - apply Listener_eqb_eq in E. subst. exfalso. apply H. now left.
  - rewrite IH; [reflexivity|]. intros Hin. apply H. now right.
Qed.

(** Removing a function that was never registered removes nothing. *)
Lemma removeListener_absent f l : ~ In f l -> removeListener f l = l.
Proof.
  intros H. unfold removeListener. rewrite remove_first_absent.
  - apply rev_involutive.
  - intros Hin. apply H. now apply in_rev.
Qed.

(** What [stop()] does to the hooks of a started monitor: the [process]
    listeners and the three console functions stay as they are; a window
    handler is put back only where the saved one is not null. *)
Lemma stop_keeps_hooks (w : World) :
  isStarted (monitor w) = true -> no_unbound w ->
  exists w',
    end_state (stop w) = Some w' /\
    isStarted (monitor w') = false /\
    console w' = console w /\
    process w' = process w /\
    window w' = restore_window (monitor w) (window w).
Proof.
  intros Hst Hno. destruct (stop_end w Hst) as (w' & E & Hs & _).
  exists w'. split; [exact E|].
  destruct (skeleton_same _ _ Hs) as ((H1 & H2 & H3) & _ & Hs' & _).
  split; [exact Hs'|]. split; [exact H1|]. split; [|exact H3].
  rewrite H2. unfold no_unbound in Hno.
  cbn [process with_monitor uninstalled with_window with_process].
  destruct (process w) as [pr|]; [|reflexivity].
  destruct Hno as [N1 N2]. cbn [remove_listeners].
  rewrite !removeListener_absent by assumption. now destruct pr.
Qed.

(** The first part of C5: [stop()] on a monitor that is not started
    returns and changes nothing. *)
Lemma stop_when_stopped (w : World) :
  isStarted (monitor w) = false -> stop w = Ok tt w.
Proof. apply stop_stopped. Qed.

End WithRuntime.
End LifecycleProperties.

(* ================================================================= *)
(** ** The reporting properties *)

Module SendingProperties.
Import Vocabulary Model Effects Monitor Execution BufferFacts Frames Lifecycle Sending
       LifecycleProperties.

Section WithRuntime.
Context {rt : JsRuntime}.

Lemma blind_ret {A} (a : A) : env_blind (ret a).
Proof. intros v w. reflexivity. Qed.

Lemma blind_gets {A} (f : World -> A) :
  (forall v w, f (set_NODE_ENV v w) = f w) -> env_blind (gets f).
Proof. intros H v w. unfold gets. now rewrite H. Qed.

Lemma blind_Date_now : env_blind Date_now.
Proof. intros v w. reflexivity. Qed.

Lemma blind_bind {A B} (m : M A) (k : A -> M B) :
  env_blind m -> (forall a, env_blind (k a)) -> env_blind (bind m k).
Proof.
  intros Hm Hk v w. unfold bind. rewrite Hm.
  destruct (m w) as [a w1 | e w1 |]; simpl; [apply Hk | reflexivity | reflexivity].
Qed.

Ltac blind :=
  repeat first
    [ apply blind_ret
    | apply blind_Date_now
    | apply blind_gets; reflexivity
    | apply blind_bind; [|intros ?]
    | match goal with
      | |- env_blind (match ?x with _ => _ end) => destruct x
      | |- env_blind (if ?b then _ else _) => destruct b
      end ].

Lemma blind_customErrorReport error metadata :
  env_blind (customErrorReport error metadata).
Proof.
  unfold customErrorReport, buildComprehensiveMessage, getRelevantLogs, getProjectInfo,
    window_url, window_userAgent, config_environment, config_accessToken.
  blind.
Qed.

Lemma blind_reportError report : env_blind (reportError report).
Proof.
  intros v w. unfold reportError, bind, gets.
  cbn [monitor set_NODE_ENV with_env config].
  destruct (config (monitor w)); reflexivity.
Qed.

Lemma blind_reportCustomError error metadata :
  env_blind (reportCustomError error metadata).
Proof.
  unfold reportCustomError. apply blind_bind.
  - apply blind_customErrorReport.
  - intros r. apply blind_reportError.
Qed.

(** C6: for every state, error and metadata, [reportCustomError] builds
    its report and returns; the report has severity [medium] and type
    [customError] and carries the metadata; with a config loaded it is
    POSTed, once, whatever [NODE_ENV] is and whatever [shouldReportError]
    says of the error: the filter is not consulted. *)
Theorem C6_reportCustomError (w : World) (error : Error) (metadata : any) :
  exists (report : ErrorReport) (w1 w' : World),
    customErrorReport error metadata w = Ok report w1 /\
    reportCustomError error metadata w = Ok tt w' /\
    severity report = medium /\
    errorType report = "customError" /\
    Model.metadata report = metadata /\
    (config (monitor w) <> None -> posts w' = (posts w ++ [mk_request (webhook_of w) report])%list) /\
    (forall context,
       ErrorFiltering.shouldReportError (env w) error context = false ->
       config (monitor w) <> None ->
       posts w' = (posts w ++ [mk_request (webhook_of w) report])%list) /\
    (forall v,
       reportCustomError error metadata (set_NODE_ENV v w) = Ok tt (set_NODE_ENV v w')).
Proof.
  destruct (customErrorReport_run error metadata w) as (text & info & Hbuild).
  set (report := {| message := text;
                    errorType := "customError";
                    severity := medium;
                    rep_environment :=
                      or_else (option_map environment (config (monitor w))) "unknown";
                    rep_accessToken :=
                      or_else (option_map accessToken (config (monitor w))) "";
                    timestamp := clock w (clock_reads w);
                    stack := err_stack error;
                    projectInfo := info;
                    Model.metadata := metadata |}) in *.
  set (w1 := with_clock_reads S (with_clock_reads S w)) in *.
  assert (Hrun : reportCustomError error metadata w =
                 Ok tt (match config (monitor w1) with
                        | None => w1
                        | Some _ => send report w1
                        end)).
  { unfold reportCustomError. now rewrite (bind_ok _ _ _ _ _ Hbuild), reportError_run. }
  assert (Hsend : config (monitor w) <> None ->
                  posts (match config (monitor w1) with
                         | None => w1
                         | Some _ => send report w1
                         end)
                  = (posts w ++ [mk_request (webhook_of w) report])%list).
  { intros Hc. subst w1. cbn [monitor with_clock_reads config].
    destruct (config (monitor w)); [reflexivity | congruence]. }
  exists report, w1. eexists.
  split; [exact Hbuild|]. split; [exact Hrun|].
  split; [reflexivity|]. split; [reflexivity|]. split; [reflexivity|].
  split; [exact Hsend|]. split; [intros _ _; exact Hsend|].
  intros v. now rewrite (blind_reportCustomError error metadata v w), Hrun.
Qed.


Lemma keeps_end {A} (m : M A) (w w' : World) :
  keeps m -> end_state (m w) = Some w' -> rel w w'.
Proof.
  intros Hk Hend. specialize (Hk w).
  destruct (m w); cbn in Hend; try discriminate; injection Hend as <-; exact Hk.
Qed.

(** C1 (amended): whatever happens to the monitor (a lifecycle call, a
    console call, an uncaught exception or rejection, a window event, a
    manual report, a settled request, a change of the config file), a POST
    is issued only while a config is loaded in the monitor: an event that
    begins and ends with [this.config] null leaves the list of POSTs as it
    was.  And a loaded config is all the send path asks for: with one,
    [reportError] sends, whatever [enabled] and the started flag are. *)
Theorem C1_posts_need_config (ev : Event) (w w' : World) :
  end_state (step ev w) = Some w' ->
  (config (monitor w) = None -> config (monitor w') = None -> posts w' = posts w) /\
  (forall report c,
     config (monitor w) = Some c ->
     reportError report w = Ok tt (send report w)).
Proof.
  intros Hend. split.
  - intros Hc Hc'. pose proof (keeps_step ev) as Hk.
    destruct ev; cbn [step] in Hend;
      try (destruct (keeps_end _ w w' Hk Hend) as (_ & Hp & _); now apply Hp).
    + destruct (start_end w) as (w1 & E & _ & _ & Hp & _).
      rewrite E in Hend. injection Hend as <-. auto.
    + destruct (isStarted (monitor w)) eqn:Hst.
      * destruct (stop_end w Hst) as (w1 & E & _ & _ & Hp & _).
        rewrite E in Hend. injection Hend as <-. auto.
      * rewrite stop_stopped in Hend by exact Hst. injection Hend as <-. reflexivity.
    + cbn in Hend. injection Hend as <-. reflexivity.
  - intros report c Hc. rewrite reportError_run, Hc. reflexivity.
Qed.

(** Along every execution the log buffer stays within its capacity. *)
Lemma buffer_within_capacity (evs : list Event) :
  forall w w', within_capacity w -> run evs w = Some w' -> within_capacity w'.
Proof.
  induction evs as [|ev rest IH]; intros w w' Hcap Hrun; simpl in Hrun.
  - now injection Hrun as <-.
  - destruct (end_state (step ev w)) as [w1|] eqn:Hend; [|discriminate].
    apply (IH w1 w'); [|exact Hrun]. clear IH Hrun.
    pose proof (keeps_step ev) as Hk.
    destruct ev; cbn [step] in Hend;
      try (destruct (keeps_end _ w w1 Hk Hend) as (_ & _ & Hl); now apply Hl).
    + destruct (start_end w) as (w2 & E & _ & Hl & _).
      rewrite E in Hend. injection Hend as <-. auto.
    + destruct (isStarted (monitor w)) eqn:Hst.
      * destruct (stop_end w Hst) as (w2 & E & _ & Hl & _).
        rewrite E in Hend. injection Hend as <-. auto.
      * rewrite stop_stopped in Hend by exact Hst. now injection Hend as <-.
    + cbn in Hend. injection Hend as <-. exact Hcap.
Qed.

End WithRuntime.
End SendingProperties.

(* ================================================================= *)
(** ** Concrete executions *)

Module Examples.
Import Vocabulary Model Effects Monitor Execution BufferFacts Frames Lifecycle Sending
       LifecycleProperties SendingProperties Demo.

(** C1, as stated, fails: [start()] finds a config with [enabled: false],
    so the monitor stays stopped, yet it keeps the config, and a manual
    report is then POSTed. *)
Lemma C1_counterexample :
  let w := after [Start; ReportCustomError boom Undefined]
                 (node_host (Holds disabled_config) (Some "production")) in
  isStarted (monitor w) = false /\
  option_map enabled (config (monitor w)) = Some (Some false) /\
  List.length (posts w) = 1%nat.
Proof. vm_compute. repeat split. Qed.

Lemma C1_witness :
  let w := node_host Absent None in
  let ev := ReportCustomError boom Undefined in
  end_state (step ev w) = Some (after [ev] w) /\
  (config (monitor w) = None -> config (monitor (after [ev] w)) = None ->
   posts (after [ev] w) = posts w).
Proof.
  intros w ev. split; [reflexivity|].
  apply (C1_posts_need_config ev w (after [ev] w)). reflexivity.
Defined.

Lemma C3_witness :
  (List.length (recentLogs (monitor (node_host Absent None))) <= maxLogs)%nat /\
  exists w',
    capture_all calls51 (node_host Absent None) = Ok tt w' /\
    (List.length (recentLogs (monitor w')) <= 50)%nat.
Proof.
  assert (H : (List.length (recentLogs (monitor (node_host Absent None))) <= maxLogs)%nat).
  { unfold maxLogs. simpl. lia. }
  split; [exact H|].
  destruct (C3_ring_buffer (node_host Absent None) calls51 H) as (w' & H1 & _ & H3 & _).
  exists w'. split; [exact H1 | exact H3].
Defined.

(** After 51 records into an empty buffer the entries are those of the
    readings 1 to 50 of the clock: the one of reading 0 is gone. *)
Lemma fifty_one_records :
  match capture_all calls51 (node_host Absent None) with
  | Ok _ w' => map log_timestamp (recentLogs (monitor w'))
               = map (fun n => 1000 * Z.of_nat n) (seq 1 50)
  | _ => False
  end.
Proof. vm_compute. reflexivity. Qed.

(** The failing input of C5: a Node process, a config with [enabled]
    true, [start()] and then [stop()].  The monitor is stopped, but
    [console.error], [console.warn] and [console.log] are still the
    wrappers and not the functions of the host that [start()] saved, both
    bound listeners are still registered with [process], and an uncaught
    exception is still reported. *)
Lemma C5_stop_leaves_hooks_installed :
  let w0 := node_host (Holds enabled_config) (Some "production") in
  let w1 := after [Start] w0 in
  let w2 := after [Stop] w1 in
  console w0 = mkConsole (HostFn 1) (HostFn 2) (HostFn 3) /\
  isStarted (monitor w1) = true /\
  original KError (monitor w1) = HostFn 1 /\
  stop w1 = Ok tt w2 /\
  isStarted (monitor w2) = false /\
  console w2 = mkConsole (OwnHook 2) (OwnHook 3) (OwnHook 4) /\
  process w2 = Some (mkProcess [BoundMethod 0] [BoundMethod 1]) /\
  List.length (posts w2) = 0%nat /\
  List.length (posts (after [UncaughtException boom] w2)) = 1%nat.
Proof. vm_compute. repeat split. Qed.

(** In a browser page without handlers of its own, [stop()] leaves the
    two window handlers of the monitor in place as well. *)
Lemma stop_in_browser :
  let w2 := after [Start; Stop] (browser_host (Holds enabled_config)) in
  isStarted (monitor w2) = false /\
  option_map onerror (window w2) = Some (Some (OwnHook 0)) /\
  option_map onunhandledrejection (window w2) = Some (Some (OwnHook 1)).
Proof. vm_compute. repeat split. Qed.

(** After [start()], [stop()], [start()] every console function is a
    wrapper whose saved original is a wrapper: a console call overflows
    the stack. *)
Lemma restart_breaks_console :
  let w := after [Start; Stop; Start] (node_host (Holds enabled_config) None) in
  isStarted (monitor w) = true /\
  console_call KLog [Str "hello"] w = Throw RangeError w.
Proof. vm_compute. repeat split. Qed.

Lemma C6_witness :
  ErrorFiltering.shouldReportError (env disabled_node) boom Undefined = false /\
  config (monitor disabled_node) <> None /\
  exists w',
    reportCustomError boom Undefined disabled_node = Ok tt w' /\
    List.length (posts w') = S (List.length (posts disabled_node)).
Proof.
  assert (Hf : ErrorFiltering.shouldReportError (env disabled_node) boom Undefined = false)
    by reflexivity.
  assert (Hc : config (monitor disabled_node) <> None) by (vm_compute; discriminate).
  split; [exact Hf|]. split; [exact Hc|].
  destruct (C6_reportCustomError disabled_node boom Undefined)
    as (report & w1 & w' & _ & Hrun & _ & _ & _ & _ & Hsend & _).
  exists w'. split; [exact Hrun|].
  rewrite (Hsend Undefined Hf Hc), length_app. simpl. lia.
Defined.



(** With the monitor started, the failure of one request is itself
    reported: the state after the failure has one more POST, of a
    [consoleError] report about the failed one. *)
Lemma failure_is_reported :
  match reportError_settled (Failed (BadStatus 500)) started_node with
  | Ok _ w' => map (fun p => errorType (data (post_payload p))) (posts w')
               = ["consoleError"]
  | _ => False
  end.
Proof. vm_compute. reflexivity. Qed.






End Examples.

(* ================================================================= *)
(** ** More on the filter *)

Module FilterMore.
Import ErrorFiltering StringFacts Vocabulary FilterFacts.

(** X1: outside development the verdict of [shouldReportError] does not
    depend on the environment, and the context only matters for messages
    that contain "Failed to fetch". *)
Theorem X1_filter_dependencies (env env' : ProcessEnv) (error : Error) (context context' : any) :
  (NODE_ENV env <> Some "development" -> NODE_ENV env' <> Some "development" ->
   shouldReportError env error context = shouldReportError env' error context) /\
  (includes (err_message error) "Failed to fetch" = false ->
   shouldReportError env error context = shouldReportError env error context').
Proof.
  unfold shouldReportError. split.
  - intros H H'.
    destruct (env_is (NODE_ENV env) "development") eqn:E;
      [apply env_is_spec in E; contradiction|].
    destruct (env_is (NODE_ENV env') "development") eqn:E';
      [apply env_is_spec in E'; contradiction|].
    reflexivity.
  - intros ->. reflexivity.
Qed.

Lemma X1_witness :
  NODE_ENV production <> Some "development" /\
  NODE_ENV (mkEnv None None None) <> Some "development" /\
  includes "boom" "Failed to fetch" = false /\
  shouldReportError production (mkError "boom" None) Undefined
  = shouldReportError (mkEnv None None None) (mkError "boom" None) (Obj [("status", Num 0)]).
Proof.
  assert (H1 : NODE_ENV production <> Some "development") by discriminate.
  assert (H2 : NODE_ENV (mkEnv None None None) <> Some "development") by discriminate.
  assert (H3 : includes (err_message (mkError "boom" None)) "Failed to fetch" = false)
    by reflexivity.
  split; [exact H1|]. split; [exact H2|]. split; [exact H3|].
  destruct (X1_filter_dependencies production (mkEnv None None None)
              (mkError "boom" None) Undefined (Obj [("status", Num 0)])) as [A _].
  destruct (X1_filter_dependencies (mkEnv None None None) (mkEnv None None None)
              (mkError "boom" None) Undefined (Obj [("status", Num 0)])) as [_ B].
  rewrite (A H1 H2). exact (B H3).
Defined.

Lemma same_verdict_outside_development (env env' : ProcessEnv) (error : Error) (context : any) :
  NODE_ENV env <> Some "development" -> NODE_ENV env' <> Some "development" ->
  shouldReportError env error context = shouldReportError env' error context.
Proof.
  unfold shouldReportError. intros H H'.
  destruct (env_is (NODE_ENV env) "development") eqn:E;
    [apply env_is_spec in E; contradiction|].
  destruct (env_is (NODE_ENV env') "development") eqn:E';
    [apply env_is_spec in E'; contradiction|].
  reflexivity.
Qed.

(** X2: [getEnvironmentConfig] turns error reporting and performance
    monitoring on together, exactly in production, and debug logs exactly
    in development, so never both; the endpoint is the production one
    exactly when reporting is on; [VERCEL] plays no role; and where it
    turns reporting on, [shouldReportError] decides on the error alone, as
    it does in production. *)
Theorem X2_environment_config (env : ProcessEnv) :
  let cfg := getEnvironmentConfig env in
  enablePerformanceMonitoring cfg = enableErrorReporting cfg /\
  (enableErrorReporting cfg = true <-> NODE_ENV env = Some "production") /\
  (enableDebugLogs cfg = true <-> NODE_ENV env = Some "development") /\
  enableErrorReporting cfg && enableDebugLogs cfg = false /\
  (apiEndpoint cfg = "https://api.wingman.dev" <-> enableErrorReporting cfg = true) /\
  (forall v, getEnvironmentConfig (mkEnv (NODE_ENV env) v (WINGMAN_WEBHOOK_URL env)) = cfg) /\
  (enableErrorReporting cfg = true ->
   forall error context,
     shouldReportError env error context = shouldReportError production error context).
Proof.
  unfold getEnvironmentConfig;
    cbn [enableErrorReporting enablePerformanceMonitoring enableDebugLogs apiEndpoint
         NODE_ENV WINGMAN_WEBHOOK_URL VERCEL].
  split; [reflexivity|]. split; [apply env_is_spec|]. split; [apply env_is_spec|].
  split; [|split; [|split]].
  - destruct (env_is (NODE_ENV env) "production") eqn:E; [|reflexivity].
    apply env_is_spec in E. rewrite E. reflexivity.
  - destruct (env_is (NODE_ENV env) "production"); split; congruence.
  - reflexivity.
  - intros E error context. apply env_is_spec in E.
    apply same_verdict_outside_development; rewrite ?E; discriminate.
Qed.

End FilterMore.

(* ================================================================= *)
(** ** The handlers and the console wrappers *)

Module HandlerProperties.
Import Vocabulary Model Effects Monitor Execution BufferFacts Frames Lifecycle Sending Terms.

Lemma accessToken_of_config w c :
  config (monitor w) = Some c -> accessToken_of w = accessToken c.
Proof.
  intros E. unfold accessToken_of. rewrite E. simpl.
  destruct (accessToken c); reflexivity.
Qed.

Lemma posts_reported report w c :
  config (monitor w) = Some c ->
  posts (reported report w) = (posts w ++ [mk_request (webhook_of w) report])%list.
Proof. intros E. unfold reported. rewrite E. reflexivity. Qed.

Lemma skeleton_reported report w : skeleton (reported report w) = skeleton w.
Proof. unfold reported. destruct (config (monitor w)); reflexivity. Qed.

Section WithRuntime.
Context {rt : JsRuntime}.

Ltac run_report :=
  unfold bind, Date_now, window_url, window_userAgent, config_environment,
    config_accessToken, gets;
  match goal with
  | |- context [buildComprehensiveMessage ?p ?c ?w1] =>
      let text := fresh "text" in
      destruct (buildComprehensiveMessage_run p c w1) as [text ->]
  end;
  match goal with
  | |- context [getProjectInfo ?w1] =>
      let info := fresh "info" in
      destruct (getProjectInfo_run w1) as [info ->]
  end;
  rewrite ?reportError_run.

Lemma handleUncaughtException_run (error : Error) (w : World) :
  exists text info,
    handleUncaughtException error w =
    Ok tt (reported {| message := text;
                       errorType := "uncaughtException";
                       severity := critical;
                       rep_environment := environment_of w;
                       rep_accessToken := accessToken_of w;
                       timestamp := clock w (clock_reads w);
                       stack := err_stack error;
                       projectInfo := info;
                       metadata := Undefined |} w).
Proof.
  unfold handleUncaughtException. run_report.
  exists text, info. unfold reported, environment_of, accessToken_of, two_reads.
  cbn [monitor with_clock_reads config].
  destruct (config (monitor w)); reflexivity.
Qed.



(** Facts about the state a report leaves. *)
Lemma reported_frame report w :
  window (reported report w) = window w /\
  monitor (reported report w) = monitor w /\
  env (reported report w) = env w /\
  host_calls (reported report w) = host_calls w /\
  clock_reads (reported report w) = S (S (clock_reads w)) /\
  posts (reported report w) =
    match config (monitor w) with
    | Some _ => (posts w ++ [mk_request (webhook_of w) report])%list
    | None => posts w
    end.
Proof. unfold reported. destruct (config (monitor w)); repeat split. Qed.

(** One level of [handleWindowError]. *)
Lemma handleWindowError_level (frames : nat) (w : World) (win : Window)
      (message source lineno colno : any) (error : option Error) :
  window w = Some win ->
  exists text info,
    handleWindowError_within frames message source lineno colno error w =
    let w1 := reported (windowErrorReport text info source lineno colno error w) w in
    match originalErrorHandler (monitor w) with
    | None => Ok true w1
    | Some (HostFn id) =>
        Ok (host_returns w id)
           (with_host_calls
              (fun l => (l ++ [onerror_call id message source lineno colno error])%list) w1)
    | Some (OwnHook _) =>
        match frames with
        | O => Throw RangeError w1
        | S frames' =>
            handleWindowError_within frames' message source lineno colno error w1
        end
    end.
Proof.
  intros Hwin.
  destruct frames as [|frames]; cbn [handleWindowError_within];
    unfold the_window, bind, Date_now, gets, ret;
    cbn [window with_clock_reads]; rewrite Hwin; cbv beta iota;
    run_report; exists text, info;
    unfold reported, windowErrorReport, environment_of, accessToken_of, two_reads,
      onerror_call;
    cbn [monitor with_clock_reads config];
    destruct (config (monitor w));
    cbn [monitor send with_posts with_clock_reads originalErrorHandler];
    destruct (originalErrorHandler (monitor w)) as [[id|s]|]; reflexivity.
Qed.

(** The recursion of [handleWindowError] through its own hook. *)
Lemma handleWindowError_overflow (frames : nat)
      (message source lineno colno : any) (error : option Error) :
  forall (w : World) (win : Window) (s : nat),
    window w = Some win -> originalErrorHandler (monitor w) = Some (OwnHook s) ->
    exists w' reports,
      handleWindowError_within frames message source lineno colno error w
      = Throw RangeError w' /\
      skeleton w' = skeleton w /\ host_calls w' = host_calls w /\
      List.length reports = S frames /\
      Forall (window_report source lineno colno) reports /\
      posts w' = match config (monitor w) with
                 | Some _ => sent_all reports w
                 | None => posts w
                 end.
Proof.
  induction frames as [|frames IH]; intros w win s Hwin Horig;
    match goal with
    | |- context [handleWindowError_within ?n _ _ _ _ _ _] =>
        destruct (handleWindowError_level n w win message source lineno colno error Hwin)
          as (text & info & E)
    end;
    cbv zeta in E; rewrite Horig in E;
    set (report := windowErrorReport text info source lineno colno error w) in *;
    destruct (reported_frame report w) as (Fw & Fm & Fe & Fh & _ & Fp).
  - exists (reported report w), [report].
    split; [exact E|]. split; [apply skeleton_reported|]. split; [exact Fh|].
    split; [reflexivity|]. split; [repeat constructor|].
    rewrite Fp. unfold sent_all. destruct (config (monitor w)); reflexivity.
  - destruct (IH (reported report w) win s) as (w' & reports & E' & Hs & Hh & Hl & Hf & Hp).
    { now rewrite Fw. }
    { now rewrite Fm. }
    exists w', (report :: reports).
    split; [now rewrite E|].
    split; [now rewrite Hs, skeleton_reported|]. split; [congruence|].
    split; [cbn; now rewrite Hl|].
    split; [constructor; [repeat constructor | exact Hf]|].
    rewrite Hp, Fm. unfold sent_all, webhook_of. rewrite Fe, Fp.
    destruct (config (monitor w)); [|reflexivity].
    cbn [map]. now rewrite <- app_assoc.
Qed.

(** X4: [handleWindowError].  Where [window] is undefined it throws
    a [ReferenceError] after reading the clock, before anything is
    sent.  In a page it builds a [windowError] report of severity [medium]
    whose metadata are the source, line and column, hands it to
    [reportError] (one POST when a config is loaded), and then chains:
    without a saved handler it returns true; with a saved handler of the
    host it calls it once with the five arguments it was given and returns
    what it returns; with a hook of the monitor saved as the original (the
    state after [start], [stop], [start] in a page without handlers) the
    saved handler is this method again, so every level reports anew (one
    POST a level when a config is loaded, none otherwise) and calls itself
    until the stack overflows: the call throws a [RangeError], having
    run once more than the number of nested calls the stack holds, without
    a call into the host. *)
Theorem X4_window_error_chains (w : World) (message source lineno colno : any)
        (error : option Error) :
  (window w = None ->
   handleWindowError message source lineno colno error w
   = Throw ReferenceError (with_clock_reads S w)) /\
  (forall win,
     window w = Some win ->
     match originalErrorHandler (monitor w) with
     | None =>
         exists report,
           window_report source lineno colno report /\
           rep_accessToken report = accessToken_of w /\
           handleWindowError message source lineno colno error w
           = Ok true (reported report w)
     | Some (HostFn id) =>
         exists report,
           window_report source lineno colno report /\
           rep_accessToken report = accessToken_of w /\
           handleWindowError message source lineno colno error w
           = Ok (host_returns w id)
                (with_host_calls
                   (fun l => (l ++ [onerror_call id message source lineno colno error])%list)
                   (reported report w))
     | Some (OwnHook _) =>
         exists w' reports,
           handleWindowError message source lineno colno error w = Throw RangeError w' /\
           skeleton w' = skeleton w /\ host_calls w' = host_calls w /\
           List.length reports = S stack_frames /\
           Forall (window_report source lineno colno) reports /\
           posts w' = match config (monitor w) with
                      | Some _ => sent_all reports w
                      | None => posts w
                      end
     end) /\
  (forall report,
     skeleton (reported report w) = skeleton w /\
     host_calls (reported report w) = host_calls w /\
     posts (reported report w) =
       match config (monitor w) with
       | Some _ => (posts w ++ [mk_request (webhook_of w) report])%list
       | None => posts w
       end).
Proof.
  split; [|split].
  - intros Hwin. unfold handleWindowError.
    destruct stack_frames; cbn [handleWindowError_within];
      unfold the_window, bind, Date_now, gets;
      cbn [window with_clock_reads]; now rewrite Hwin.
  - intros win Hwin. unfold handleWindowError.
    destruct (originalErrorHandler (monitor w)) as [[id|s]|] eqn:Horig.
    + destruct (handleWindowError_level stack_frames w win message source lineno colno
                  error Hwin) as (text & info & E).
      cbv zeta in E. rewrite Horig in E.
      eexists. split; [|split; [|exact E]]; repeat split.
    + exact (handleWindowError_overflow stack_frames message source lineno colno error
               w win s Hwin Horig).
    + destruct (handleWindowError_level stack_frames w win message source lineno colno
                  error Hwin) as (text & info & E).
      cbv zeta in E. rewrite Horig in E.
      eexists. split; [|split; [|exact E]]; repeat split.
  - intros report. destruct (reported_frame report w) as (_ & _ & _ & Fh & _ & Fp).
    split; [apply skeleton_reported|]. split; [exact Fh | exact Fp].
Qed.

Lemma console_parts_None (args : list any) :
  console_parts args = None <-> unserialisable args.
Proof.
  unfold unserialisable. induction args as [|a rest IH]; simpl.
  - split; [discriminate | intros (x & [] & _)].
  - destruct (console_part a) eqn:E.
    + destruct (console_parts rest) eqn:R; simpl.
      * split; [discriminate|]. intros (x & [<- | Hin] & Hx); [congruence|].
        exfalso. assert (Hn : Some l = None) by (apply IH; now exists x).
        discriminate.
      * split; [|reflexivity]. intros _.
        destruct (proj1 IH eq_refl) as (x & Hin & Hx). exists x. auto.
    + split; [|reflexivity]. intros _. exists a. auto.
Qed.

(** What [handleConsoleError] throws is what [JSON.stringify] threw for
    the first argument that is not a string and does not serialise. *)
Lemma console_thrown_first (args : list any) :
  console_parts args = None ->
  exists before a after,
    args = (before ++ a :: after)%list /\
    console_parts before <> None /\ console_part a = None /\
    console_thrown args = JSON_stringify_thrown a.
Proof.
  induction args as [|a rest IH]; simpl; [discriminate|].
  destruct (console_part a) as [text|] eqn:E.
  - destruct (console_parts rest) eqn:R; [discriminate|]. intros _.
    destruct (IH eq_refl) as (before & b & after & -> & Hb & Hn & Ht).
    exists (a :: before), b, after. split; [reflexivity|].
    split; [|auto]. simpl. rewrite E.
    destruct (console_parts before); [discriminate | congruence].
  - intros _. exists [], a, rest. repeat split; [discriminate | exact E].
Qed.

Lemma handleConsoleError_cases (args : list any) (w : World) :
  match console_parts args with
  | None => handleConsoleError args w
            = Throw (console_thrown args) (with_clock_reads S w)
  | Some parts =>
      if looks_like_error parts args
      then exists text info,
             handleConsoleError args w
             = Ok tt (reported (consoleErrorReport text info args w) w)
      else handleConsoleError args w = Ok tt (with_clock_reads S w)
  end.
Proof.
  unfold handleConsoleError, looks_like_error.
  unfold bind at 1. unfold Date_now at 1.
  destruct (console_parts args) as [parts|]; [|reflexivity].
  destruct (_ || _); [|reflexivity].
  run_report. exists text, info.
  unfold reported, consoleErrorReport, environment_of, accessToken_of, two_reads.
  cbn [monitor with_clock_reads config].
  destruct (config (monitor w)); reflexivity.
Qed.


Lemma console_wrapper_run (k : ConsoleKind) (args : list any) (w : World) (s id : nat) :
  slot k (console w) = OwnHook s -> original k (monitor w) = HostFn id ->
  console_call k args w =
  match k with
  | KError => handleConsoleError args (forwarded k id args w)
  | _ => Ok tt (forwarded k id args w)
  end.
Proof.
  intros Hs Ho. unfold console_call, bind, gets. rewrite Hs.
  unfold console_wrapper, bind, gets. rewrite Ho.
  cbn [call_host modify]. rewrite captureConsoleLog_run.
  destruct k; reflexivity.
Qed.

(** X6: while the monitor's wrappers are installed around functions of
    the host, [console.warn] and [console.log] pass their arguments
    unchanged to the saved function, once, record one entry in the log
    buffer (evicting the oldest when full) and do nothing else: nothing
    is sent, whatever the arguments are. *)
Theorem X6_console_passthrough (k : ConsoleKind) (args : list any) (w : World) (s id : nat) :
  k <> KError ->
  slot k (console w) = OwnHook s -> original k (monitor w) = HostFn id ->
  exists w',
    console_call k args w = Ok tt w' /\
    host_calls w' = (host_calls w ++ [Called id args])%list /\
    recentLogs (monitor w') =
      record_entry (entry_of (clock w (clock_reads w)) (kind_name k, args))
                   (recentLogs (monitor w)) /\
    posts w' = posts w /\ skeleton w' = skeleton w.
Proof.
  intros Hk Hs Ho. rewrite (console_wrapper_run k args w s id Hs Ho).
  destruct k; [congruence| |]; eexists; repeat split.
Qed.

(** X7: while the wrapper of [console.error] is installed around a
    function of the host, a call with an argument that is not a string and
    that [JSON.stringify] cannot serialise throws into the caller what
    [JSON.stringify] threw for the first such argument: the function of
    the host has received the call and the buffer has recorded it, but
    nothing is sent. *)
Theorem X7_console_error_throws (args : list any) (w : World) (s id : nat) :
  console_error (console w) = OwnHook s ->
  originalConsoleError (monitor w) = HostFn id ->
  unserialisable args ->
  console_call KError args w
  = Throw (console_thrown args) (with_clock_reads S (forwarded KError id args w)) /\
  (exists before a after,
     args = (before ++ a :: after)%list /\
     console_parts before <> None /\ console_part a = None /\
     console_thrown args = JSON_stringify_thrown a) /\
  posts (with_clock_reads S (forwarded KError id args w)) = posts w /\
  host_calls (with_clock_reads S (forwarded KError id args w))
  = (host_calls w ++ [Called id args])%list /\
  recentLogs (monitor (with_clock_reads S (forwarded KError id args w)))
  = record_entry (entry_of (clock w (clock_reads w)) ("error", args))
                 (recentLogs (monitor w)).
Proof.
  intros Hs Ho Hu. apply console_parts_None in Hu.
  rewrite (console_wrapper_run KError args w s id Hs Ho).
  pose proof (handleConsoleError_cases args (forwarded KError id args w)) as H.
  rewrite Hu in H. rewrite H.
  split; [reflexivity|]. split; [exact (console_thrown_first args Hu)|]. repeat split.
Qed.

(** X8: with the wrappers installed around the console of the host and a
    config loaded, a failed delivery is logged through [console.error]
    and thereby reported: the continuation returns with exactly one new
    POST, of a [consoleError] report, so failures breed reports for as
    long as the webhook fails; a delivery that succeeds is logged through
    [console.log] and sends nothing. *)
Theorem X8_failure_breeds_report (w : World) (c : WingmanConfig) (f : DeliveryFailure)
        (s s' id id' : nat) :
  config (monitor w) = Some c ->
  console_error (console w) = OwnHook s -> originalConsoleError (monitor w) = HostFn id ->
  console_log (console w) = OwnHook s' -> originalConsoleLog (monitor w) = HostFn id' ->
  (exists report w',
     reportError_settled (Failed f) w = Ok tt w' /\
     posts w' = (posts w ++ [mk_request (webhook_of w) report])%list /\
     errorType report = "consoleError" /\ severity report = low /\
     host_calls w' = (host_calls w ++ [Called id (failure_log f)])%list) /\
  (exists w',
     reportError_settled Delivered w = Ok tt w' /\
     posts w' = posts w /\
     host_calls w' =
       (host_calls w ++ [Called id' [Str "Wingman: Error reported successfully"]])%list).
Proof.
  intros Hc Hs Ho Hs' Ho'. split.
  - unfold reportError_settled. fold (failure_log f).
    rewrite (console_wrapper_run KError _ w s id Hs Ho).
    pose proof (handleConsoleError_cases (failure_log f)
                  (forwarded KError id (failure_log f) w)) as H.
    destruct (console_parts (failure_log f)) as [parts|] eqn:Ep.
    + assert (Hl : looks_like_error parts (failure_log f) = true).
      { unfold looks_like_error. apply orb_true_iff. right. reflexivity. }
      rewrite Hl in H. destruct H as (text & info & ->).
      eexists _, _. split; [reflexivity|].
      unfold reported, forwarded. cbn [monitor with_monitor with_clock_reads
        with_host_calls config set_recentLogs]. rewrite Hc.
      repeat split.
    + exfalso. apply (proj1 (own_message_parts "Wingman: Failed to report error:"
                               (axios_error f))). exact Ep.
  - unfold reportError_settled, try_catch.
    rewrite (console_wrapper_run KLog _ w s' id' Hs' Ho').
    eexists. repeat split.
Qed.

Lemma host_behind_reaches (k : ConsoleKind) (w : World) :
  reaches_host k w = true <-> exists id, host_behind k w = Some id.
Proof.
  unfold reaches_host, host_behind.
  destruct (slot k (console w)); [|destruct (original k (monitor w))];
    split; try discriminate; eauto; intros [id H]; discriminate.
Qed.

Lemma host_behind_skeleton (k : ConsoleKind) (w w1 : World) :
  skeleton w1 = skeleton w -> host_behind k w1 = host_behind k w.
Proof.
  intros H. unfold host_behind.
  destruct (skeleton_host _ _ H) as (-> & _).
  destruct (skeleton_monitor _ _ H) as (_ & _ & _ & _ & _ & E1 & E2 & E3).
  destruct k; simpl; now rewrite ?E1, ?E2, ?E3.
Qed.

(** A console call that ends in the function [id] of the host. *)
Lemma console_call_to_host (k : ConsoleKind) (args : list any) (w : World) (id : nat) :
  host_behind k w = Some id ->
  (k = KError -> console_parts args <> None) ->
  exists w',
    console_call k args w = Ok tt w' /\
    host_calls w' = (host_calls w ++ [Called id args])%list /\
    skeleton w' = skeleton w /\
    (k <> KError -> posts w' = posts w).
Proof.
  intros Hb Hargs. unfold host_behind in Hb.
  destruct (slot k (console w)) as [id0|s] eqn:Hslot.
  - injection Hb as ->. unfold console_call, bind, gets. rewrite Hslot.
    eexists. repeat split.
  - destruct (original k (monitor w)) as [id0|s'] eqn:Horig; [|discriminate].
    injection Hb as ->. rewrite (console_wrapper_run k args w s id Hslot Horig).
    destruct k; try (eexists; repeat split; fail).
    destruct (handleConsoleError_run args (forwarded KError id args w) (Hargs eq_refl))
      as (w' & E & Hcalls & _).
    pose proof (keeps_handleConsoleError args (forwarded KError id args w)) as Hk.
    rewrite E in Hk. destruct Hk as (Hs & _).
    exists w'. split; [exact E|]. split; [now rewrite Hcalls|].
    split; [now rewrite Hs | congruence].
Qed.

(** X23: [testWebhook] builds a [testError] report of severity [low]
    with metadata [{ test: true }], the stack of its new error and the
    environment of the config, or [test] without one, and hands it to
    [reportError], which sends it only if a config is loaded.  Once that
    call has returned, and provided [console.log] ends in a function of
    the host (and, after a failed delivery, [console.error] does), it
    prints the success line whatever happened: after a delivery, after a
    failed delivery (which [reportError] has logged and swallowed, and
    which the wrapper of [console.error], if installed with a config
    loaded, has reported as one [consoleError]) and when no request was
    made at all.  When [console.log] overflows the stack the method
    throws a [RangeError] (after a delivery, from the [catch] of
    [reportError] or from its own [console.log]), and so it does after a
    failed delivery when [console.error] overflows: the success line is
    not printed then. *)
Theorem X23_testWebhook (w : World) (stack_of_new_Error : option string)
        (sent : option Outcome) :
  (exists report,
     testWebhook stack_of_new_Error w = Ok tt (reported report w) /\
     errorType report = "testError" /\ severity report = low /\
     metadata report = Obj [("test", Bool true)] /\
     stack report = stack_of_new_Error /\
     rep_environment report = or_else (option_map environment (config (monitor w))) "test" /\
     (config (monitor w) = None -> posts (reported report w) = posts w)) /\
  (forall id,
     host_behind KLog w = Some id ->
     (forall f, sent = Some (Failed f) -> reaches_host KError w = true) ->
     exists w' before,
       Integration.testWebhook_settled sent w = Ok tt w' /\
       host_calls w' =
         (before ++ [Called id [Str "Test webhook call sent successfully."]])%list /\
       skeleton w' = skeleton w /\
       ((forall f, sent <> Some (Failed f)) -> posts w' = posts w) /\
       (posts w' = posts w \/
        exists q, posts w' = (posts w ++ [q])%list /\
                  errorType (data (post_payload q)) = "consoleError" /\
                  severity (data (post_payload q)) = low)) /\
  (reaches_host KLog w = false ->
   exists w',
     Integration.testWebhook_settled sent w = Throw RangeError w' /\
     skeleton w' = skeleton w) /\
  (forall f,
     sent = Some (Failed f) -> reaches_host KError w = false ->
     Integration.testWebhook_settled sent w = Throw RangeError w).
Proof.
  split; [|split; [|split]].
  - unfold testWebhook. cbv zeta. cbn [err_message err_stack]. run_report.
    exists {| message := text;
              errorType := "testError";
              severity := low;
              rep_environment :=
                or_else (option_map environment (config (monitor w))) "test";
              rep_accessToken := accessToken_of w;
              timestamp := clock w (clock_reads w);
              stack := stack_of_new_Error;
              projectInfo := info;
              metadata := Obj [("test", Bool true)] |}.
    split; [|repeat split].
    + unfold reported, accessToken_of, two_reads. cbn [monitor with_clock_reads config].
      destruct (config (monitor w)); reflexivity.
    + intros Hc. unfold reported. now rewrite Hc.
  - intros id Hb Herr. unfold Integration.testWebhook_settled.
    destruct sent as [[|f]|].
    + destruct (console_call_to_host KLog [Str "Wingman: Error reported successfully"]
                  w id Hb) as (w1 & E1 & C1 & S1 & P1); [discriminate|].
      assert (Hb1 : host_behind KLog w1 = Some id)
        by (now rewrite (host_behind_skeleton KLog w w1 S1)).
      destruct (console_call_to_host KLog [Str "Test webhook call sent successfully."]
                  w1 id Hb1) as (w2 & E2 & C2 & S2 & P2); [discriminate|].
      exists w2. eexists.
      assert (Ed : reportError_settled Delivered w = Ok tt w1)
        by (unfold reportError_settled, try_catch; now rewrite E1).
      rewrite (bind_ok _ _ _ _ _ Ed), E2.
      split; [reflexivity|]. split; [exact C2|]. split; [congruence|].
      assert (Hp : posts w2 = posts w)
        by (rewrite P2, P1; (reflexivity || discriminate)).
      split; [intros _; exact Hp | left; exact Hp].
    + destruct (settled_failure_run f w (Herr f eq_refl)) as (w1 & E1 & S1 & _ & P1 & _).
      assert (Hb1 : host_behind KLog w1 = Some id)
        by (now rewrite (host_behind_skeleton KLog w w1 S1)).
      destruct (console_call_to_host KLog [Str "Test webhook call sent successfully."]
                  w1 id Hb1) as (w2 & E2 & C2 & S2 & P2); [discriminate|].
      exists w2. eexists.
      rewrite (bind_ok _ _ _ _ _ E1), E2.
      split; [reflexivity|]. split; [exact C2|]. split; [congruence|].
      split; [intros Hno; now destruct (Hno f)|].
      rewrite P2 by discriminate. exact P1.
    + destruct (console_call_to_host KLog [Str "Test webhook call sent successfully."]
                  w id Hb) as (w2 & E2 & C2 & S2 & P2); [discriminate|].
      exists w2. eexists. unfold bind, ret. rewrite E2.
      split; [reflexivity|]. split; [exact C2|]. split; [exact S2|].
      assert (Hp : posts w2 = posts w) by (apply P2; discriminate).
      split; [intros _; exact Hp | left; exact Hp].
  - intros Hlog. unfold Integration.testWebhook_settled.
    destruct sent as [[|f]|].
    + assert (Ed : reportError_settled Delivered w
                   = console_call KError [Str "Wingman: Failed to report error:";
                                          RangeError] w)
        by (unfold reportError_settled, try_catch;
            now rewrite (console_call_overflows KLog _ w Hlog)).
      unfold bind. rewrite Ed.
      destruct (reaches_host KError w) eqn:Herr.
      * destruct (console_call_reaches KError
                    [Str "Wingman: Failed to report error:"; RangeError] w Herr)
          as (w1 & E1 & S1 & _).
        { intros _. apply own_message_parts. }
        exists w1. rewrite E1.
        rewrite console_call_overflows
          by (now rewrite (reaches_host_skeleton KLog w w1 S1)).
        auto.
      * exists w. rewrite (console_call_overflows KError _ w Herr). auto.
    + destruct (reaches_host KError w) eqn:Herr.
      * destruct (settled_failure_run f w Herr) as (w1 & E1 & S1 & _).
        exists w1. rewrite (bind_ok _ _ _ _ _ E1).
        rewrite console_call_overflows
          by (now rewrite (reaches_host_skeleton KLog w w1 S1)).
        auto.
      * exists w. unfold reportError_settled, bind.
        rewrite (console_call_overflows KError _ w Herr). auto.
    + exists w. unfold bind, ret.
      rewrite (console_call_overflows KLog _ w Hlog). auto.
  - intros f -> Herr. unfold Integration.testWebhook_settled, reportError_settled, bind.
    now rewrite (console_call_overflows KError _ w Herr).
Qed.




Lemma append_empty (a b : string) : (a ++ b)%string = "" <-> a = "" /\ b = "".
Proof.
  destruct a; simpl; split.
  - auto.
  - intros [_ H]. exact H.
  - discriminate.
  - intros [H _]. discriminate.
Qed.

Lemma append_part (message : string) (field : option string) (section : string -> string) :
  match field with
  | Some s => if truthy_str s then (message ++ section s)%string else message
  | None => message
  end = (message ++ part field section)%string.
Proof.
  unfold part. destruct field as [s|]; [destruct (truthy_str s)|];
    now rewrite ?append_nil_r.
Qed.

Lemma part_empty (field : option string) (section : string -> string) :
  (forall s, section s <> "") -> (part field section = "" <-> truthy_opt field = false).
Proof.
  intros H. unfold part, truthy_opt. destruct field as [s|]; [|tauto].
  destruct (truthy_str s); [|tauto].
  split; [intros E; now apply H in E | discriminate].
Qed.

(** X25: the message [buildComprehensiveMessage] builds begins with
    the primary message, whatever the buffer and the context hold, and is
    the primary message itself exactly when there is nothing to add: no
    buffer entry from the five seconds up to the clock reading, and no
    URL, user agent or stack that is not empty.  Building it reads the
    clock once and changes nothing else. *)
Theorem X25_message_prefix (primaryMessage : string) (errorContext : ErrorContext)
        (w : World) :
  exists suffix,
    buildComprehensiveMessage primaryMessage errorContext w
    = Ok (primaryMessage ++ suffix)%string (with_clock_reads S w) /\
    (suffix = "" <->
     quoted (clock w (clock_reads w)) w = [] /\
     truthy_opt (ctx_url errorContext) = false /\
     truthy_opt (ctx_userAgent errorContext) = false /\
     truthy_opt (ctx_stack errorContext) = false).
Proof.
  unfold buildComprehensiveMessage, getRelevantLogs, Date_now, quoted.
  unfold bind, gets. cbn [with_clock_reads monitor recentLogs]. cbv zeta.
  set (now := clock w (clock_reads w)).
  set (logs := filter (in_window (now - default_windowMs) now) (recentLogs (monitor w))).
  set (U := fun url => (nl ++ nl ++ "--- Context ---" ++ nl ++ "URL: " ++ url)%string).
  set (A := fun ua => (nl ++ "User Agent: " ++ ua)%string).
  set (T := fun st => (nl ++ nl ++ "--- Stack Trace ---" ++ nl ++ st)%string).
  assert (HU : forall s, U s <> "") by (intros s; discriminate).
  assert (HA : forall s, A s <> "") by (intros s; discriminate).
  assert (HT : forall s, T s <> "") by (intros s; discriminate).
  assert (Hlogs : exists L,
             (if (List.length logs =? 0)%nat then ret ""
              else ret (fold_left append_line logs logs_header)) (with_clock_reads S w)
             = Ok L (with_clock_reads S w) /\ (L = "" <-> logs = [])).
  { destruct logs as [|l rest].
    - exists "". split; [reflexivity | tauto].
    - exists (fold_left append_line (l :: rest) logs_header).
      split; [reflexivity|]. rewrite fold_append_line. split; discriminate. }
  destruct Hlogs as (L & -> & HL). cbn [ret].
  exists (L ++ part (ctx_url errorContext) U ++ part (ctx_userAgent errorContext) A
            ++ part (ctx_stack errorContext) T)%string.
  split.
  - apply (f_equal (fun m => Ok m (with_clock_reads S w))).
    assert (E1 : (if truthy_str L then primaryMessage ++ L else primaryMessage)%string
                 = (primaryMessage ++ L)%string).
    { destruct L; [now rewrite append_nil_r | reflexivity]. }
    rewrite E1.
    rewrite (append_part _ (ctx_url errorContext)
               (fun url => (nl ++ nl ++ "--- Context ---" ++ nl ++ "URL: " ++ url)%string)).
    rewrite (append_part _ (ctx_userAgent errorContext)
               (fun ua => (nl ++ "User Agent: " ++ ua)%string)).
    rewrite (append_part _ (ctx_stack errorContext)
               (fun st => (nl ++ nl ++ "--- Stack Trace ---" ++ nl ++ st)%string)).
    fold U A T. now rewrite !append_assoc.
  - rewrite !append_empty, HL, (part_empty _ U HU), (part_empty _ A HA),
      (part_empty _ T HT). tauto.
Qed.

End WithRuntime.
End HandlerProperties.

(* ================================================================= *)
(** ** More on the lifecycle *)

Module LifecycleMore.
Import Vocabulary Model Effects Monitor Execution BufferFacts Frames Lifecycle Sending
       LifecycleProperties SendingProperties HandlerProperties Terms.

Lemma installed_files w :
  config_file (installed w) = config_file w /\
  posts (installed w) = posts w /\
  host_calls (installed w) = host_calls w /\
  env (installed w) = env w.
Proof.
  destruct w as [m c p wi e cw cf pj cl cr ns ps hc hr].
  unfold installed, setupErrorHandlers, bind, gets, fresh_serial, modify.
  destruct p; destruct wi; cbn; auto.
Qed.

Lemma config_file_of_skeleton w w' :
  skeleton w' = skeleton w -> config_file_of w' = config_file_of w.
Proof.
  intros H. unfold config_file_of.
  destruct (skeleton_host _ _ H) as (_ & _ & _ & _ & -> & _).
  destruct (skeleton_monitor _ _ H) as (_ & -> & _). reflexivity.
Qed.

Lemma config_file_of_started c w :
  config_file_of (with_monitor (set_isStarted true) (installed (remember c w)))
  = config_file_of w.
Proof.
  unfold config_file_of. cbn [config_file with_monitor monitor configManager set_isStarted].
  destruct (installed_files (remember c w)) as (-> & _).
  destruct (installed_monitor (remember c w)) as (_ & -> & _). reflexivity.
Qed.

Section WithRuntime.
Context {rt : JsRuntime}.

(** What a first start that finds [enabled: true] leads to. *)
Lemma start_enabled (w : World) (c : WingmanConfig) :
  isStarted (monitor w) = false -> config_file_of w = Holds c -> enabled c = Some true ->
  exists w',
    end_state (start w) = Some w' /\
    (host_console w -> start w = Ok tt w') /\
    skeleton w' = skeleton (with_monitor (set_isStarted true) (installed (remember c w))).
Proof.
  intros Hst Hfile Hen. destruct (start_end w) as (w' & E & Hs & _ & _ & Hok).
  exists w'. split; [exact E|]. split; [exact Hok|].
  unfold start_target in Hs. rewrite Hfile, Hst in Hs.
  apply enabled_falsy_spec in Hen. rewrite Hen in Hs. exact Hs.
Qed.

(** X9: a first [start()] that finds [enabled: true] adds its listeners
    after those the host has registered with [process], which stay in
    place and in order; it replaces the three console functions by new
    hooks and saves the functions it found there as the originals; and in
    a page it saves the window handlers it found and installs its own. *)
Theorem X9_start_installs (w : World) (c : WingmanConfig) :
  isStarted (monitor w) = false -> config_file_of w = Holds c -> enabled c = Some true ->
  exists w' s,
    end_state (start w) = Some w' /\
    (host_console w -> start w = Ok tt w') /\
    isStarted (monitor w') = true /\
    (next_serial w <= s)%nat /\
    console w' = mkConsole (OwnHook s) (OwnHook (S s)) (OwnHook (S (S s))) /\
    originalConsoleError (monitor w') = console_error (console w) /\
    originalConsoleWarn (monitor w') = console_warn (console w) /\
    originalConsoleLog (monitor w') = console_log (console w) /\
    process w' =
      match process w with
      | Some pr =>
          Some (mkProcess (uncaughtException pr ++ [BoundMethod (next_serial w)])
                          (unhandledRejection pr ++ [BoundMethod (S (next_serial w))]))
      | None => None
      end /\
    match window w, window w' with
    | Some x, Some y =>
        (exists s', onerror y = Some (OwnHook s') /\
                    onunhandledrejection y = Some (OwnHook (S s'))) /\
        originalErrorHandler (monitor w') = onerror x /\
        originalUnhandledRejectionHandler (monitor w') = onunhandledrejection x
    | None, None => True
    | _, _ => False
    end.
Proof.
  intros Hst Hfile Hen.
  destruct (start_enabled w c Hst Hfile Hen) as (w' & E & Hok & Hs).
  destruct (skeleton_same _ _ Hs)
    as ((H1 & H2 & H3) & (O1 & O2 & O3 & O4 & O5) & Hs' & _).
  destruct (installed_console (remember c w)) as (s & Hc & Hle & E1 & E2 & E3).
  pose proof (installed_process (remember c w)) as Hp.
  pose proof (installed_window (remember c w)) as Hw.
  cbn [console process window with_monitor monitor isStarted set_isStarted
       originalConsoleError originalConsoleWarn originalConsoleLog
       originalErrorHandler originalUnhandledRejectionHandler] in *.
  change (console (remember c w)) with (console w) in *.
  change (process (remember c w)) with (process w) in *.
  change (next_serial (remember c w)) with (next_serial w) in *.
  exists w', s. split; [exact E|]. split; [exact Hok|]. split; [exact Hs'|].
  split; [exact Hle|]. split; [congruence|].
  split; [congruence|]. split; [congruence|]. split; [congruence|].
  split; [rewrite H2; exact Hp|].
  rewrite H3.
  change (window (remember c w)) with (window w) in Hw.
  destruct (window w) as [x|]; destruct (window (installed (remember c w))) as [y|];
    try exact Hw; try exact I.
  destruct Hw as (Hh & A & B). split; [exact Hh|]. split; congruence.
Qed.

(** A first start and a stop after it, on the console of the host. *)
Lemma start_then_stop (w : World) (c : WingmanConfig) :
  isStarted (monitor w) = false -> config_file_of w = Holds c -> enabled c = Some true ->
  host_console w ->
  exists w1 w2,
    start w = Ok tt w1 /\ stop w1 = Ok tt w2 /\
    skeleton w1 = skeleton (with_monitor (set_isStarted true) (installed (remember c w))) /\
    skeleton w2 = skeleton (with_monitor (set_isStarted false) (uninstalled w1)) /\
    isStarted (monitor w1) = true /\ isStarted (monitor w2) = false /\
    config (monitor w1) = Some c /\ config (monitor w2) = Some c /\
    config_file_of w2 = Holds c /\
    console w2 = console w1 /\
    (exists s, console w1 = mkConsole (OwnHook s) (OwnHook (S s)) (OwnHook (S (S s)))).
Proof.
  intros Hst Hfile Hen Hh.
  destruct (start_enabled w c Hst Hfile Hen) as (w1 & _ & Hok & Hs1).
  specialize (Hok Hh).
  destruct (skeleton_same _ _ Hs1) as ((C1 & _) & _ & St1 & Cf1 & _).
  destruct (installed_monitor (remember c w)) as (Ic & _ & _).
  destruct (installed_console (remember c w)) as (s & Hc & _ & E1 & E2 & E3).
  cbn [console with_monitor monitor isStarted config set_isStarted] in C1, St1, Cf1.
  rewrite Ic in Cf1. cbn in Cf1.
  assert (Hr : reaches_host KLog w1 = true).
  { rewrite (reaches_host_skeleton KLog _ _ Hs1). now apply reaches_started. }
  destruct (stop_end w1 St1) as (w2 & _ & Hs2 & _ & _ & Hstop).
  specialize (Hstop Hr).
  destruct (skeleton_same _ _ Hs2) as ((C2 & _) & _ & St2 & Cf2 & _).
  cbn [console with_monitor monitor isStarted config set_isStarted uninstalled
       with_window with_process] in C2, St2, Cf2.
  exists w1, w2. split; [exact Hok|]. split; [exact Hstop|].
  split; [exact Hs1|]. split; [exact Hs2|]. split; [exact St1|]. split; [exact St2|].
  split; [exact Cf1|]. split; [congruence|]. split.
  - rewrite (config_file_of_skeleton _ _ Hs2).
    change (config_file_of (with_monitor (set_isStarted false) (uninstalled w1)))
      with (config_file_of w1).
    rewrite (config_file_of_skeleton _ _ Hs1), config_file_of_started. exact Hfile.
  - split; [exact C2|]. exists s. congruence.
Qed.

(** X10: after [start()], [stop()], [start()] on a host whose console
    was its own, the monitor is started and every call of
    [console.error], [console.warn] or [console.log] throws a
    [RangeError]: [stop()] left the wrappers in place, so the second
    [start()] saved them as the originals, and a wrapper that calls its
    saved original calls itself without end. *)
Theorem X10_restart_breaks_console (w : World) (c : WingmanConfig) :
  isStarted (monitor w) = false -> config_file_of w = Holds c -> enabled c = Some true ->
  host_console w ->
  exists w3,
    run [Start; Stop; Start] w = Some w3 /\
    isStarted (monitor w3) = true /\
    forall k args, console_call k args w3 = Throw RangeError w3.
Proof.
  intros Hst Hfile Hen Hh.
  destruct (start_then_stop w c Hst Hfile Hen Hh)
    as (w1 & w2 & R1 & R2 & _ & _ & _ & St2 & _ & _ & Hfile2 & C2 & (s & C1)).
  destruct (start_enabled w2 c St2 Hfile2 Hen) as (w3 & E3 & _ & Hs3).
  exists w3. split.
  - cbn [run step]. rewrite R1. cbn [end_state]. rewrite R2. cbn [end_state].
    now rewrite E3.
  - destruct (skeleton_same _ _ Hs3) as (_ & _ & St3 & _).
    split; [exact St3|].
    intros k args. apply console_call_overflows.
    rewrite (reaches_host_skeleton k _ _ Hs3). unfold reaches_host.
    destruct (installed_console (remember c w2)) as (s' & Hc & _ & E1 & E2 & E3').
    change (console (remember c w2)) with (console w2) in *.
    rewrite C2, C1 in E1, E2, E3'.
    assert (Hslot : slot k (console (with_monitor (set_isStarted true)
                                       (installed (remember c w2))))
                    = slot k (console (installed (remember c w2)))) by reflexivity.
    assert (Horig : original k (monitor (with_monitor (set_isStarted true)
                                           (installed (remember c w2))))
                    = original k (monitor (installed (remember c w2))))
      by (destruct k; reflexivity).
    rewrite Hslot, Horig, Hc.
    destruct k; cbn [slot original console_error console_warn console_log];
      rewrite ?E1, ?E2, ?E3'; reflexivity.
Qed.

(** *** Events of [process] *)

Lemma call_listeners_app (own : M unit) (arg : any) (l1 l2 : list Listener) (w : World) :
  call_listeners own arg (l1 ++ l2) w =
  bind (call_listeners own arg l1) (fun _ => call_listeners own arg l2) w.
Proof.
  revert w. induction l1 as [|l l1 IH]; intros w; [reflexivity|].
  cbn [call_listeners app]. unfold bind.
  destruct (call_listener own arg l w) as [[] w1 | e w1 |]; [|reflexivity..].
  rewrite IH. reflexivity.
Qed.

(** The listeners of the host are called in order; nothing else happens. *)
Lemma call_listeners_hosts (own : M unit) (arg : any) (ids : list nat) :
  forall w, exists w',
    call_listeners own arg (map HostListener ids) w = Ok tt w' /\
    host_calls w' = (host_calls w ++ listener_calls ids arg)%list /\
    posts w' = posts w /\ skeleton w' = skeleton w /\
    clock_reads w' = clock_reads w /\ recentLogs (monitor w') = recentLogs (monitor w).
Proof.
  induction ids as [|id ids IH]; intros w.
  - exists w. split; [reflexivity|]. split; [cbn; now rewrite app_nil_r|]. repeat split.
  - cbn [map call_listeners call_listener]. unfold bind, call_host, modify.
    destruct (IH (with_host_calls (fun l => (l ++ [Called id [arg]])%list) w))
      as (w' & -> & Hc & Hp & Hs & Hr & Hl).
    exists w'. split; [reflexivity|]. cbn in Hc, Hp, Hs, Hr, Hl.
    rewrite Hc, Hp, Hs, Hr, Hl, <- app_assoc. repeat split.
Qed.

(** An uncaught exception in a process where the monitor's bound listener
    comes after those of the host. *)
Lemma emit_reports (w : World) (pr : Process) (c : WingmanConfig) (ids : list nat)
      (s : nat) (error : Error) :
  process w = Some pr ->
  uncaughtException pr = (map HostListener ids ++ [BoundMethod s])%list ->
  config (monitor w) = Some c ->
  exists report w',
    emit_uncaughtException error w = Ok tt w' /\
    posts w' = (posts w ++ [mk_request (webhook_of w) report])%list /\
    errorType report = "uncaughtException" /\ severity report = critical /\
    rep_accessToken report = accessToken c /\
    host_calls w' = (host_calls w ++ listener_calls ids (ErrorObj error))%list.
Proof.
  intros Hp Hl Hc. unfold emit_uncaughtException. unfold bind at 1. unfold gets at 1.
  rewrite Hp, Hl, call_listeners_app.
  destruct (call_listeners_hosts (handleUncaughtException error) (ErrorObj error) ids w)
    as (w1 & E1 & Hcalls & Hposts & Hs & _).
  unfold bind. rewrite E1. cbn [call_listeners call_listener]. unfold bind.
  destruct (handleUncaughtException_run error w1) as (text & info & ->).
  destruct (skeleton_same _ _ Hs) as (_ & _ & _ & Hcfg & _).
  destruct (skeleton_host _ _ Hs) as (_ & _ & _ & Henv & _).
  assert (Hc1 : config (monitor w1) = Some c) by congruence.
  assert (Hweb : webhook_of w1 = webhook_of w) by (unfold webhook_of; now rewrite Henv).
  eexists _, _. split; [reflexivity|].
  rewrite (posts_reported _ w1 c Hc1), Hposts, Hweb.
  split; [reflexivity|]. split; [reflexivity|]. split; [reflexivity|].
  split; [exact (accessToken_of_config w1 c Hc1)|].
  unfold reported. rewrite Hc1. cbn. exact Hcalls.
Qed.

(** X11: in a Node process whose host has listeners for
    [uncaughtException], after a first [start()], and just as well after
    the [stop()] that follows it, an uncaught exception first reaches the
    listeners of the host, in their order, and is then POSTed once as an
    [uncaughtException] report of severity [critical]: the stopped
    monitor still reports. *)
Theorem X11_exception_after_start_and_stop (w : World) (c : WingmanConfig)
        (ids : list nat) (rejections : list Listener) (error : Error) :
  isStarted (monitor w) = false -> config_file_of w = Holds c -> enabled c = Some true ->
  host_console w ->
  process w = Some (mkProcess (map HostListener ids) rejections) ->
  exists w1 w2,
    start w = Ok tt w1 /\ stop w1 = Ok tt w2 /\
    isStarted (monitor w1) = true /\ isStarted (monitor w2) = false /\
    (exists report w',
       emit_uncaughtException error w1 = Ok tt w' /\
       posts w' = (posts w1 ++ [mk_request (webhook_of w1) report])%list /\
       errorType report = "uncaughtException" /\ severity report = critical /\
       host_calls w' = (host_calls w1 ++ listener_calls ids (ErrorObj error))%list) /\
    (exists report w',
       emit_uncaughtException error w2 = Ok tt w' /\
       posts w' = (posts w2 ++ [mk_request (webhook_of w2) report])%list /\
       errorType report = "uncaughtException" /\ severity report = critical /\
       host_calls w' = (host_calls w2 ++ listener_calls ids (ErrorObj error))%list).
Proof.
  intros Hst Hfile Hen Hh Hproc.
  destruct (start_then_stop w c Hst Hfile Hen Hh)
    as (w1 & w2 & R1 & R2 & Hs1 & Hs2 & St1 & St2 & Cf1 & Cf2 & _).
  pose proof (installed_process (remember c w)) as Hp.
  change (process (remember c w)) with (process w) in Hp.
  change (next_serial (remember c w)) with (next_serial w) in Hp.
  rewrite Hproc in Hp. cbn [uncaughtException unhandledRejection] in Hp.
  destruct (skeleton_host _ _ Hs1) as (_ & P1 & _).
  cbn [process with_monitor] in P1. rewrite Hp in P1.
  destruct (skeleton_host _ _ Hs2) as (_ & P2 & _).
  cbn [process with_monitor uninstalled with_window with_process] in P2.
  rewrite P1 in P2. cbn [remove_listeners uncaughtException unhandledRejection] in P2.
  assert (Hkeep : removeListener UnboundMethod
                    (map HostListener ids ++ [BoundMethod (next_serial w)])%list
                  = (map HostListener ids ++ [BoundMethod (next_serial w)])%list).
  { apply removeListener_absent. intros Hin. apply in_app_or in Hin.
    destruct Hin as [Hin | [Hin | []]]; [|discriminate].
    apply in_map_iff in Hin. destruct Hin as (x & Hx & _). discriminate. }
  rewrite Hkeep in P2.
  exists w1, w2. split; [exact R1|]. split; [exact R2|].
  split; [exact St1|]. split; [exact St2|]. split.
  - destruct (emit_reports w1 _ c ids (next_serial w) error P1 eq_refl Cf1)
      as (report & w' & A & B & C & D & _ & F).
    exists report, w'. auto.
  - destruct (emit_reports w2 _ c ids (next_serial w) error P2 eq_refl Cf2)
      as (report & w' & A & B & C & D & _ & F).
    exists report, w'. auto.
Qed.

(** *** Invariants of executions *)

Lemma synced_skeleton w w' : skeleton w' = skeleton w -> synced w -> synced w'.
Proof.
  intros H. unfold synced.
  destruct (skeleton_monitor _ _ H) as (-> & -> & _). auto.
Qed.

Lemma synced_start_target w : synced w -> synced (start_target w).
Proof.
  intros H. unfold start_target.
  destruct (config_file_of w) as [|e|c].
  - left. reflexivity.
  - destruct (reaches_host KError w); [left; reflexivity | exact H].
  - destruct (enabled_falsy c || isStarted (monitor w)).
    + right. reflexivity.
    + right. unfold synced.
      cbn [monitor with_monitor config configManager set_isStarted].
      destruct (installed_monitor (remember c w)) as (-> & -> & _). reflexivity.
Qed.

Lemma synced_step (ev : Event) (w w' : World) :
  end_state (step ev w) = Some w' -> synced w -> synced w'.
Proof.
  intros Hend Hsync. pose proof (keeps_step ev) as Hk.
  destruct ev; cbn [step] in Hend;
    try (destruct (keeps_end _ w w' Hk Hend) as (Hs & _);
         exact (synced_skeleton _ _ Hs Hsync)).
  - destruct (start_end w) as (w1 & E & Hs & _).
    rewrite E in Hend. injection Hend as <-.
    apply (synced_skeleton _ _ Hs). now apply synced_start_target.
  - destruct (isStarted (monitor w)) eqn:Hst.
    + destruct (stop_end w Hst) as (w1 & E & Hs & _).
      rewrite E in Hend. injection Hend as <-.
      apply (synced_skeleton _ _ Hs).
      destruct w as [m c p wi e cw cf pj cl cr ns ps hc hr]. destruct m. exact Hsync.
    + rewrite stop_stopped in Hend by exact Hst. now injection Hend as <-.
  - cbn in Hend. injection Hend as <-. exact Hsync.
Qed.

(** X12: along every execution of a monitor (lifecycle calls, console
    calls, events, manual reports, settled requests, changes of the config
    file) the config of the monitor is null or is the config its manager
    holds; so whenever [isActive()] is true, [isEnabled()] of the manager
    is true as well. *)
Theorem X12_monitor_agrees_with_manager (evs : list Event) (w w' : World) :
  synced w -> run evs w = Some w' ->
  synced w' /\
  (isActive w' = Ok true w' -> ConfigManager_isEnabled w' = Ok true w').
Proof.
  intros Hsync Hrun.
  assert (H : synced w').
  { revert w Hsync Hrun. induction evs as [|ev rest IH]; intros w Hsync Hrun; simpl in Hrun.
    - now injection Hrun as <-.
    - destruct (end_state (step ev w)) as [w1|] eqn:Hend; [|discriminate].
      apply (IH w1); [|exact Hrun]. exact (synced_step ev w w1 Hend Hsync). }
  split; [exact H|].
  unfold isActive, ConfigManager_isEnabled, gets. intros [= Hact].
  apply andb_true_iff in Hact. destruct Hact as [_ Hen].
  destruct H as [H | H].
  - rewrite H in Hen. discriminate.
  - rewrite <- H, Hen. reflexivity.
Qed.

(** *** Every event ends *)

#[local] Hint Resolve total_captureConsoleLog total_reportError total_getRelevantLogs
  total_buildComprehensiveMessage total_getProjectInfo total_the_window
  total_handleConsoleError total_console_wrapper total_console_call
  total_reportError_settled total_customErrorReport : total.

Lemma total_handleUncaughtException e : total (handleUncaughtException e).
Proof.
  unfold handleUncaughtException, config_environment, config_accessToken,
    window_url, window_userAgent.
  through total.
Qed.

Lemma total_handleUnhandledRejection r : total (handleUnhandledRejection r).
Proof.
  unfold handleUnhandledRejection, config_environment, config_accessToken,
    window_url, window_userAgent.
  through total.
Qed.

Lemma total_call_listeners own arg ls :
  total own -> total (call_listeners own arg ls).
Proof.
  intros Hown. induction ls as [|l rest IH]; simpl.
  - auto with total.
  - apply total_bind; [|intros _; exact IH].
    destruct l; simpl; auto with total.
Qed.

Lemma total_reportCustomError e m : total (reportCustomError e m).
Proof. unfold reportCustomError. through total. Qed.

Lemma total_testWebhook st : total (testWebhook st).
Proof.
  unfold testWebhook, config_environment, config_accessToken,
    window_url, window_userAgent.
  through total.
Qed.

Lemma total_ends {A} (m : M A) (w : World) :
  total m -> exists w', end_state (m w) = Some w'.
Proof.
  intros Ht. specialize (Ht w).
  destruct (m w) as [a w' | e w' |]; [now exists w' | now exists w' | congruence].
Qed.

(** Every event leaves a state: none of them runs forever. *)
Lemma step_ends (ev : Event) (w : World) : exists w', end_state (step ev w) = Some w'.
Proof.
  destruct ev; cbn [step].
  - destruct (start_end w) as (w' & E & _). now exists w'.
  - destruct (isStarted (monitor w)) eqn:Hst.
    + destruct (stop_end w Hst) as (w' & E & _). now exists w'.
    + rewrite stop_stopped by exact Hst. now exists w.
  - apply total_ends. auto with total.
  - apply total_ends. unfold emit_uncaughtException.
    apply total_bind; [auto with total|].
    intros [pr|]; [apply total_call_listeners; apply total_handleUncaughtException
                  | auto with total].
  - apply total_ends. unfold emit_unhandledRejection.
    apply total_bind; [auto with total|].
    intros [pr|]; [apply total_call_listeners; apply total_handleUnhandledRejection
                  | auto with total].
  - apply total_ends. unfold window_error, handleWindowError.
    pose proof total_handleWindowError_within. through total.
  - apply total_ends. unfold window_unhandledrejection, handleWindowUnhandledRejection.
    pose proof total_handleWindowUnhandledRejection_within. through total.
  - apply total_ends. apply total_reportCustomError.
  - apply total_ends. apply total_testWebhook.
  - apply total_ends. auto with total.
  - now eexists.
Qed.

Lemma run_ends (evs : list Event) : forall w, exists w', run evs w = Some w'.
Proof.
  induction evs as [|ev rest IH]; intros w; simpl.
  - now exists w.
  - destruct (step_ends ev w) as (w1 & ->). apply IH.
Qed.

(** X13: a monitor created in a host in which no monitor has hooks
    installed goes through every sequence of events (lifecycle calls,
    console calls, events of the host, manual reports, settled requests,
    changes of the config file), none of which runs forever, and its log
    buffer holds at most 50 entries at the end, whatever the host logged
    and whatever else happened. *)
Theorem X13_buffer_bound_in_executions (evs : list Event) (projectPath : option string)
        (w : World) :
  untouched w ->
  exists w',
    run evs (new_WingmanMonitor projectPath w) = Some w' /\
    (List.length (recentLogs (monitor w')) <= 50)%nat.
Proof.
  intros _.
  destruct (run_ends evs (new_WingmanMonitor projectPath w)) as (w' & Hrun).
  exists w'. split; [exact Hrun|].
  apply (buffer_within_capacity evs (new_WingmanMonitor projectPath w) w'); [|exact Hrun].
  unfold within_capacity, maxLogs. cbn. lia.
Qed.

End WithRuntime.
End LifecycleMore.

(* ================================================================= *)
(** ** The config manager and the token resolver *)

Module ConfigProperties.
Import Vocabulary Model Effects Monitor Execution BufferFacts Frames Lifecycle Sending
       LifecycleProperties Integration Terms.


Lemma merge_nothing c : merge c (mkPartial None None None None None None) = c.
Proof. destruct c; reflexivity. Qed.


Section WithRuntime.
Context {rt : JsRuntime}.

(** X14: [initialize(cfg)] stores [cfg] with [enabled] forced to true
    (whatever [cfg] says) and a creation time read from the clock, so that
    [isEnabled()] is true afterwards; it touches neither the file system
    nor the config of the monitor, so nothing is persisted: a [load()]
    that then finds no file returns null. *)
Theorem X14_initialize (cfg : WingmanConfig) (w : World) :
  exists w',
    ConfigManager_initialize cfg w = Ok tt w' /\
    ConfigManager_getConfig w' =
      Ok (Some (initialized (toISOString (clock w (clock_reads w))) cfg)) w' /\
    ConfigManager_isEnabled w' = Ok true w' /\
    config_file w' = config_file w /\
    config_file_of w' = config_file_of w /\
    config (monitor w') = config (monitor w) /\
    (config_file_of w = Absent -> ConfigManager_load w' = Ok None w').
Proof.
  eexists. split; [reflexivity|].
  split; [reflexivity|]. split; [reflexivity|]. split; [reflexivity|].
  split; [reflexivity|]. split; [reflexivity|].
  intros Hfile. pose proof (load_run (with_manager
    (fun cm => mkConfigManager (configPath cm)
       (Some (mkConfig (accessToken cfg) (projectId cfg) (environment cfg)
                (projectPath cfg) (Some true)
                (Some (toISOString (clock w (clock_reads w)))))))
    (with_clock_reads S w))) as H.
  change (config_file_of (with_manager _ (with_clock_reads S w)))
    with (config_file_of w) in H.
  rewrite Hfile in H. exact H.
Qed.


(** [load()] on the manager of the monitor is [ConfigManager_load_on]
    applied to that manager: the same result, and the manager it leaves
    is the one the monitor then holds. *)
Lemma load_on_agrees (w : World) :
  match ConfigManager_load_on (configManager (monitor w)) w, ConfigManager_load w with
  | Ok (r, cm) w1, Ok r' w2 => r = r' /\ configManager (monitor w2) = cm
  | Throw e w1, Throw e' w2 => e = e' /\ w1 = w2
  | Diverge, Diverge => True
  | _, _ => False
  end.
Proof.
  unfold ConfigManager_load_on, ConfigManager_load, bind, gets.
  destruct (config_file w (configPath (configManager (monitor w)))) as [|e|c].
  - cbn. auto.
  - pose proof (keeps_console_call KError
                  [Str "Failed to load Wingman config:"; ErrorObj e] w) as Hk.
    destruct (console_call KError _ w) as [[] w1 | e1 w1 |]; cbn.
    + destruct Hk as (Hs & _).
      destruct (skeleton_same _ _ Hs) as (_ & _ & _ & _ & Hcm). auto.
    + auto.
    + exact I.
  - cbn. split; [reflexivity|]. now destruct (configManager (monitor w)).
Qed.

(** What [requireAccessToken] does when no token is stored. *)
Lemma requireAccessToken_none (w : World) (stk : option string) :
  stored_token w = None ->
  exists e w1,
    requireAccessToken stk w = Throw e w1 /\ skeleton w1 = skeleton w /\
    (reaches_host KError w = true -> e = no_token stk).
Proof.
  unfold stored_token, cli_path, no_token.
  unfold requireAccessToken, getStoredAccessToken, ConfigManager_load_on,
    try_catch, bind, gets, new_ConfigManager.
  cbn [configPath or_else].
  destruct (config_file w (path_join (cwd w) ".wingman.json")) as [|e|c].
  - intros _. eexists. exists w. cbn. auto.
  - intros _. destruct (reaches_host KError w) eqn:Hr.
    + destruct (console_call_reaches KError
                  [Str "Failed to load Wingman config:"; ErrorObj e] w Hr)
        as (w' & E & Hs & _).
      { intros _. apply own_message_parts. }
      eexists. exists w'. rewrite E. cbn. auto.
    + rewrite (console_call_overflows KError _ w Hr).
      destruct (reaches_host KWarn w) eqn:Hw.
      * destruct (console_call_reaches KWarn
                    [Str "Failed to load Wingman configuration:"; RangeError] w Hw)
          as (w' & E & Hs & _); [discriminate|].
        eexists. exists w'. rewrite E. cbn. split; [reflexivity|].
        split; [exact Hs | discriminate].
      * rewrite (console_call_overflows KWarn _ w Hw).
        eexists. exists w. split; [reflexivity|]. split; [reflexivity | discriminate].
  - cbn. destruct (truthy_str (accessToken c)); [discriminate|].
    intros _. eexists. exists w. auto.
Qed.

(** X16: [getStoredAccessToken] reads the config file of the working
    directory with a manager of its own: it returns the token when the
    file holds a config whose token is not empty, and null when the file is
    absent or holds an empty token; [requireAccessToken] returns the token
    in the first case and throws its own error in the others, and the
    state is the same after as before.  When the file is unreadable the
    failure goes to [console.error] and, if that overflows the stack, the
    [RangeError] goes to [console.warn]: if one of the two ends in a
    function of the host, [getStoredAccessToken] returns null and
    [requireAccessToken] throws its own error; if both overflow, both
    functions throw the [RangeError], in the state they were called in.
    Where something was logged, the log buffer, the clock position and
    the traces of calls and requests may have changed; the rest of the
    state, the monitor and its manager included, is as before. *)
Theorem X16_token_resolver (w : World) (stack_of_new_Error : option string) :
  match token_file w with
  | Holds c =>
      getStoredAccessToken w
      = Ok (if truthy_str (accessToken c) then Some (accessToken c) else None) w /\
      requireAccessToken stack_of_new_Error w
      = (if truthy_str (accessToken c) then Ok (accessToken c) w
         else Throw (no_token stack_of_new_Error) w)
  | Absent =>
      getStoredAccessToken w = Ok None w /\
      requireAccessToken stack_of_new_Error w = Throw (no_token stack_of_new_Error) w
  | Unreadable e =>
      (reaches_host KError w = true \/ reaches_host KWarn w = true ->
       exists w',
         getStoredAccessToken w = Ok None w' /\
         requireAccessToken stack_of_new_Error w = Throw (no_token stack_of_new_Error) w' /\
         skeleton w' = skeleton w) /\
      (reaches_host KError w = false -> reaches_host KWarn w = false ->
       getStoredAccessToken w = Throw RangeError w /\
       requireAccessToken stack_of_new_Error w = Throw RangeError w)
  end.
Proof.
  unfold token_file, requireAccessToken, getStoredAccessToken, ConfigManager_load_on,
    try_catch, bind, gets, new_ConfigManager.
  cbn [configPath or_else].
  destruct (config_file w (path_join (cwd w) ".wingman.json")) as [|e|c].
  - split; reflexivity.
  - split.
    + intros Hsome. destruct (reaches_host KError w) eqn:Hr.
      * destruct (console_call_reaches KError
                    [Str "Failed to load Wingman config:"; ErrorObj e] w Hr)
          as (w' & E & Hs & _).
        { intros _. apply own_message_parts. }
        exists w'. rewrite E. cbn. auto.
      * destruct Hsome as [Hk | Hw]; [discriminate|].
        rewrite (console_call_overflows KError _ w Hr).
        destruct (console_call_reaches KWarn
                    [Str "Failed to load Wingman configuration:"; RangeError] w Hw)
          as (w' & E & Hs & _); [discriminate|].
        exists w'. rewrite E. cbn. auto.
    + intros Hr Hw.
      rewrite (console_call_overflows KError _ w Hr).
      rewrite (console_call_overflows KWarn _ w Hw). split; reflexivity.
  - cbn. destruct (truthy_str (accessToken c)); split; reflexivity.
Qed.

End WithRuntime.
End ConfigProperties.

(* ================================================================= *)
(** ** The command line *)

Module CliProperties.
Import Vocabulary Model Effects Monitor Execution BufferFacts Frames Lifecycle Sending
       LifecycleProperties Integration Terms.

Section WithRuntime.
Context {rt : JsRuntime}.

Lemma config_file_after_cli (command : FileState WingmanConfig -> CliRun) (w : World) :
  in_working_directory w ->
  config_file_of (after_cli command w) = cli_file (command (config_file w (cli_path w))).
Proof.
  intros H. unfold config_file_of, after_cli, write_file.
  cbn [config_file with_config_file monitor]. rewrite H.
  change (cli_path (with_config_file _ w)) with (cli_path w).
  now rewrite String.eqb_refl.
Qed.

Lemma testWebhookConnection_success (reply : WebhookReply) :
  success (testWebhookConnection reply) = true <-> accepted reply.
Proof.
  unfold accepted. destruct reply as [status pid | code rs msg | e]; simpl.
  - destruct ((200 <=? status) && (status <? 300)) eqn:E; simpl.
    + apply andb_true_iff in E. destruct E as [E1 E2].
      apply Z.leb_le in E1. apply Z.ltb_lt in E2.
      split; [intros _; exists status, pid; auto | reflexivity].
    + split; [discriminate|]. intros (s & p & [= <- <-] & H1 & H2).
      apply andb_false_iff in E. destruct E as [E | E].
      * apply Z.leb_gt in E. lia.
      * apply Z.ltb_ge in E. lia.
  - split.
    + repeat match goal with
             | |- context [if ?b then _ else _] => destruct b
             end; discriminate.
    + intros (s & p & H & _). discriminate.
  - split; [discriminate|]. intros (s & p & H & _). discriminate.
Qed.

(** What a start of a stopped monitor leads to when the file holds [c]. *)
Lemma start_on_file (w : World) (c : WingmanConfig) :
  isStarted (monitor w) = false -> config_file_of w = Holds c ->
  exists w',
    end_state (start w) = Some w' /\
    (host_console w -> start w = Ok tt w') /\
    config (monitor w') = Some c /\
    isStarted (monitor w') = negb (enabled_falsy c) /\
    isActive w' = Ok (negb (enabled_falsy c)) w'.
Proof.
  intros Hst Hfile. destruct (start_end w) as (w' & E & Hs & _ & _ & Hok).
  exists w'. split; [exact E|]. split; [exact Hok|].
  unfold start_target in Hs. rewrite Hfile, Hst, orb_false_r in Hs.
  rewrite isActive_run.
  destruct (skeleton_same _ _ Hs) as (_ & _ & Hs' & Hcfg & _).
  destruct (enabled_falsy c) eqn:Hen.
  - cbn in Hs', Hcfg. rewrite Hs', Hcfg, Hst. auto.
  - destruct (installed_monitor (remember c w)) as (Ic & _ & _).
    cbn [monitor with_monitor isStarted config set_isStarted] in Hs', Hcfg.
    rewrite Ic in Hcfg. cbn in Hcfg. rewrite Hs', Hcfg.
    split; [reflexivity|]. split; [reflexivity|].
    simpl. unfold enabled_falsy in Hen.
    destruct (enabled c) as [[|]|]; (reflexivity || discriminate).
Qed.

Section Cli.
Variable chalk : string -> string -> string.

(** X17: [wingman enable] and [wingman disable] never exit with a code;
    on a readable config file that can be written they set [enabled] and
    keep every other field, and otherwise (no file, unreadable file, failed
    write) they leave the file as it is; the last command wins, so either
    one is idempotent.  A monitor of that directory that is started after
    a successful command ends active after [enable] and stopped and
    inactive after [disable], holding the config the command wrote. *)
Theorem X17_cli_toggle (b b' : bool) (disk : WriteOutcome)
        (file : FileState WingmanConfig) :
  cli_exit (cli_set_enabled chalk b disk file) = None /\
  cli_file (cli_set_enabled chalk b disk file) =
    match file, disk with
    | Holds c, Written => Holds (with_enabled b c)
    | _, _ => file
    end /\
  cli_file (cli_set_enabled chalk b Written
              (cli_file (cli_set_enabled chalk b' Written file)))
  = cli_file (cli_set_enabled chalk b Written file) /\
  (forall w c,
     isStarted (monitor w) = false -> in_working_directory w ->
     config_file w (cli_path w) = Holds c ->
     exists w',
       end_state (start (after_cli (cli_set_enabled chalk b Written) w)) = Some w' /\
       (host_console w -> start (after_cli (cli_set_enabled chalk b Written) w) = Ok tt w') /\
       config (monitor w') = Some (with_enabled b c) /\
       isStarted (monitor w') = b /\
       isActive w' = Ok b w').
Proof.
  split; [|split; [|split]].
  - destruct file; [| |destruct disk]; reflexivity.
  - destruct file; [| |destruct disk]; reflexivity.
  - destruct file; reflexivity.
  - intros w c Hst Hdir Hfile.
    set (w1 := after_cli (cli_set_enabled chalk b Written) w).
    assert (Hf1 : config_file_of w1 = Holds (with_enabled b c)).
    { subst w1. rewrite (config_file_after_cli _ w Hdir), Hfile. reflexivity. }
    destruct (start_on_file w1 (with_enabled b c) Hst Hf1) as (w' & E & Hok & Hc & Hs & Ha).
    exists w'. split; [exact E|]. split; [exact Hok|]. split; [exact Hc|].
    destruct b; auto.
Qed.

(** X18: [wingman init] succeeds exactly when the webhook answers with
    a status from 200 to 299 and the file can be written; it then writes
    a config with the given token and environment and [enabled] true,
    created at the time read, and a stopped monitor of that directory
    started afterwards ends active with that token in its config.  In
    every other case it exits with code 1 and leaves the file as it was. *)
Theorem X18_cli_init (accessToken env : string) (reply : WebhookReply)
        (disk : WriteOutcome) (now : Z) (file : FileState WingmanConfig) :
  let result := cli_init chalk accessToken env reply disk now file in
  (cli_exit result = None <-> accepted reply /\ disk = Written) /\
  (cli_exit result <> None -> cli_exit result = Some 1 /\ cli_file result = file) /\
  (cli_exit result = None ->
   exists doc,
     cli_file result = Holds doc /\
     Config.accessToken doc = accessToken /\ environment doc = env /\
     enabled doc = Some true /\ createdAt doc = Some (toISOString now) /\
     forall w,
       isStarted (monitor w) = false -> in_working_directory w ->
       config_file w (cli_path w) = file ->
       exists w',
         end_state (start (after_cli (cli_init chalk accessToken env reply disk now) w))
         = Some w' /\
         isActive w' = Ok true w' /\
         option_map Config.accessToken (config (monitor w')) = Some accessToken).
Proof.
  intros result. subst result. unfold cli_init. cbv zeta.
  pose proof (testWebhookConnection_success reply) as Hacc.
  destruct (success (testWebhookConnection reply)) eqn:Hs; cbn [negb].
  - assert (Ha : accepted reply) by (now apply Hacc).
    destruct disk as [|e]; cbn [cli_exit cli_file].
    + split; [split; auto|]. split; [congruence|]. intros _.
      eexists. split; [reflexivity|]. repeat (split; [reflexivity|]).
      intros w Hst Hdir Hfile.
      set (w1 := after_cli _ w).
      assert (Hf1 : config_file_of w1 =
                    Holds (init_document accessToken env
                             (test_projectId (testWebhookConnection reply)) now)).
      { subst w1. rewrite (config_file_after_cli _ w Hdir).
        reflexivity. }
      destruct (start_on_file w1 _ Hst Hf1) as (w' & E & _ & Hc & _ & Hact).
      exists w'. split; [exact E|]. split; [exact Hact|]. now rewrite Hc.
    + split; [split; [discriminate | intros [_ H]; discriminate]|].
      split; [auto | discriminate].
  - cbn [cli_exit cli_file].
    split; [split; [discriminate|]|].
    + intros [Ha _]. apply Hacc in Ha. discriminate.
    + split; [auto | discriminate].
Qed.

End Cli.
End WithRuntime.
End CliProperties.

(* ================================================================= *)
(** ** The React provider and its hooks *)

Module ProviderProperties.
Import Vocabulary Model Effects Monitor Execution BufferFacts Frames Lifecycle Sending
       LifecycleProperties Integration HandlerProperties Terms.

Lemma assoc_remove_key (k k' : string) (fields : list (string * any)) :
  k' <> k -> assoc k' (remove_key k fields) = assoc k' fields.
Proof.
  intros Hk. induction fields as [|[k0 v0] rest IH]; [reflexivity|]. simpl.
  destruct (String.eqb k0 k) eqn:E0.
  - apply String.eqb_eq in E0. subst k0.
    destruct (String.eqb k' k) eqn:E1; [apply String.eqb_eq in E1; congruence | exact IH].
  - simpl. now rewrite IH.
Qed.

Lemma assoc_set_key (k k' : string) (v : any) (fields : list (string * any)) :
  assoc k' (set_key k v fields) = if String.eqb k' k then v else assoc k' fields.
Proof.
  induction fields as [|[k0 v0] rest IH]; simpl.
  - destruct (String.eqb k' k); reflexivity.
  - destruct (String.eqb k0 k) eqn:E0; simpl.
    + apply String.eqb_eq in E0. subst k0.
      destruct (String.eqb k' k) eqn:E1; [reflexivity|].
      apply assoc_remove_key. intros ->. now rewrite String.eqb_refl in E1.
    + rewrite IH. destruct (String.eqb k' k0) eqn:E2; [|reflexivity].
      apply String.eqb_eq in E2. subst k0. now rewrite E0.
Qed.

Lemma get_prop_info_metadata (metadata : any) (k : string) :
  get_prop (info_metadata metadata) k =
  if String.eqb k "type" then Str "Info"
  else if String.eqb k "severity" then Str "low"
  else get_prop metadata k.
Proof.
  unfold info_metadata, get_prop. rewrite !assoc_set_key.
  destruct metadata; try reflexivity;
    destruct (String.eqb k "type"); try reflexivity;
    destruct (String.eqb k "severity"); reflexivity.
Qed.



Section WithRuntime.
Context {rt : JsRuntime}.

Lemma reportCustomError_reported (error : Error) (metadata : any) (w : World) :
  exists report,
    reportCustomError error metadata w = Ok tt (reported report w) /\
    custom_report metadata report /\
    stack report = err_stack error /\
    rep_accessToken report = accessToken_of w.
Proof.
  destruct (customErrorReport_run error metadata w) as (text & info & Hbuild).
  eexists. split; [|split; [|split]].
  - unfold reportCustomError. rewrite (bind_ok _ _ _ _ _ Hbuild), reportError_run.
    reflexivity.
  - repeat split.
  - reflexivity.
  - reflexivity.
Qed.

(** A console function other than [console.error] sends nothing. *)
Lemma quiet_console_call (k : ConsoleKind) (args : list any) (w : World) :
  k <> KError ->
  exists w', end_state (console_call k args w) = Some w' /\
             posts w' = posts w /\ skeleton w' = skeleton w.
Proof.
  intros Hk. unfold console_call, bind, gets.
  destruct (slot k (console w)) as [id|s].
  - eexists. repeat split.
  - unfold console_wrapper, bind, gets.
    destruct (original k (monitor w)) as [id|s'].
    + cbn [call_host modify]. rewrite captureConsoleLog_run.
      destruct k; [congruence| |]; eexists; repeat split.
    + eexists. repeat split.
Qed.


(** X20: the two functions of [useWingmanReporting].  Without an
    active monitor they only warn and send nothing.  With one,
    [reportError] turns a string into an error with that message and
    reports exactly when [shouldReportError] accepts the error with the
    caller's metadata; [reportInfo] is filtered as [reportError] would
    filter its message with the caller's metadata, and what it sends
    carries [severity: 'low'] and [type: 'Info'] in the metadata only:
    the report itself has severity [medium] and type [customError], like
    any custom report. *)
Theorem X20_reporting_hooks (w : World) (isActive monitor : bool)
        (error : Error + string) (message : string)
        (stack_of_new_Error : option string) (metadata : any) :
  let errorObj := as_Error error stack_of_new_Error in
  let infoError := as_Error (inr message) stack_of_new_Error in
  (isActive && monitor = false ->
   exists w1 w2,
     end_state (hook_reportError isActive monitor error stack_of_new_Error metadata w)
     = Some w1 /\
     end_state (hook_reportInfo isActive monitor message stack_of_new_Error metadata w)
     = Some w2 /\
     posts w1 = posts w /\ posts w2 = posts w /\
     skeleton w1 = skeleton w /\ skeleton w2 = skeleton w) /\
  (isActive && monitor = true ->
   (exists report,
      hook_reportError isActive monitor error stack_of_new_Error metadata w
      = Ok tt (if ErrorFiltering.shouldReportError (env w) errorObj metadata
               then reported report w else w) /\
      custom_report metadata report /\
      stack report = err_stack errorObj) /\
   (exists report,
      hook_reportInfo isActive monitor message stack_of_new_Error metadata w
      = Ok tt (if ErrorFiltering.shouldReportError (env w) infoError metadata
               then reported report w else w) /\
      custom_report (info_metadata metadata) report /\
      get_prop (Model.metadata report) "severity" = Str "low" /\
      get_prop (Model.metadata report) "type" = Str "Info" /\
      severity report = medium)).
Proof.
  intros errorObj infoError. split.
  - intros Hoff.
    assert (Hg : negb isActive || negb monitor = true)
      by (destruct isActive, monitor; (discriminate || reflexivity)).
    unfold hook_reportError, hook_reportInfo. rewrite Hg.
    destruct (quiet_console_call KWarn
                [Str "Wingman: Cannot report error - monitor not active"] w)
      as (w1 & E1 & P1 & S1); [discriminate|].
    destruct (quiet_console_call KWarn
                [Str "Wingman: Cannot report info - monitor not active"] w)
      as (w2 & E2 & P2 & S2); [discriminate|].
    exists w1, w2. auto 10.
  - intros Hon.
    assert (Hg : negb isActive || negb monitor = false)
      by (destruct isActive, monitor; (discriminate || reflexivity)).
    unfold hook_reportError, hook_reportInfo. rewrite Hg. cbv zeta.
    unfold bind, gets. split.
    + fold errorObj.
      destruct (reportCustomError_reported errorObj metadata w)
        as (report & E & Hr & Hs & _).
      exists report. split; [|auto].
      destruct (ErrorFiltering.shouldReportError (env w) errorObj metadata);
        [exact E | reflexivity].
    + change (mkError message stack_of_new_Error) with infoError.
      assert (Hv : ErrorFiltering.shouldReportError (env w) infoError (info_metadata metadata)
                   = ErrorFiltering.shouldReportError (env w) infoError metadata).
      { unfold ErrorFiltering.shouldReportError.
        now rewrite (get_prop_info_metadata metadata "status"). }
      rewrite Hv.
      destruct (reportCustomError_reported infoError (info_metadata metadata) w)
        as (report & E & Hr & _).
      exists report. split.
      { destruct (ErrorFiltering.shouldReportError (env w) infoError metadata);
          [exact E | reflexivity]. }
      split; [exact Hr|]. destruct Hr as (Hm & Hs & _). rewrite Hm.
      rewrite !get_prop_info_metadata. auto.
Qed.

Lemma requireAccessToken_found (w : World) (c : WingmanConfig) (stk : option string) :
  config_file w (cli_path w) = Holds c -> truthy_str (accessToken c) = true ->
  requireAccessToken stk w = Ok (accessToken c) w.
Proof.
  intros Hf Ht. unfold cli_path in Hf.
  unfold requireAccessToken, getStoredAccessToken, ConfigManager_load_on,
    try_catch, bind, gets, new_ConfigManager.
  cbn [configPath or_else]. rewrite Hf. cbn. now rewrite Ht.
Qed.

Lemma requireAccessToken_missing (w : World) (stk : option string) :
  match config_file w (cli_path w) with
  | Absent => True
  | Holds c => truthy_str (accessToken c) = false
  | Unreadable _ => False
  end ->
  requireAccessToken stk w = Throw (ErrorObj (mkError token_not_found stk)) w.
Proof.
  unfold cli_path.
  unfold requireAccessToken, getStoredAccessToken, ConfigManager_load_on,
    try_catch, bind, gets, new_ConfigManager.
  cbn [configPath or_else].
  destruct (config_file w (path_join (cwd w) ".wingman.json")) as [|e|c];
    [reflexivity | contradiction |].
  intros Ht. cbn. now rewrite Ht.
Qed.

Lemma host_console_new (pp : option string) (w : World) :
  host_console w -> host_console (new_WingmanMonitor pp w).
Proof. intros H k. exact (H k). Qed.

Lemma start_keeps_window (w w' : World) :
  end_state (start w) = Some w' -> (window w' = None <-> window w = None).
Proof.
  intros E. destruct (start_end w) as (w1 & E1 & Hs & _).
  rewrite E1 in E. injection E as <-.
  destruct (skeleton_host _ _ Hs) as (_ & _ & Hw & _). rewrite Hw.
  unfold start_target.
  destruct (config_file_of w) as [|e|c]; [reflexivity | |].
  - destruct (reaches_host KError w); reflexivity.
  - destruct (enabled_falsy c || isStarted (monitor w)); [reflexivity|].
    change (window (with_monitor (set_isStarted true) (installed (remember c w))))
      with (window (installed (remember c w))).
    pose proof (installed_window (remember c w)) as H.
    change (window (remember c w)) with (window w) in H.
    destruct (window w), (window (installed (remember c w)));
      try contradiction; split; congruence.
Qed.

Lemma attempt_ok {A} (m : M A) (w : World) (a : A) (w1 : World) :
  m w = Ok a w1 -> attempt m w = Ok (inl a) w1.
Proof. intros E. unfold attempt, try_catch, bind. now rewrite E. Qed.

Lemma attempt_throw {A} (m : M A) (w : World) (e : any) (w1 : World) :
  m w = Throw e w1 -> attempt m w = Ok (inr e) w1.
Proof. intros E. unfold attempt, try_catch, bind. now rewrite E. Qed.

Lemma stored_token_found (w : World) (t : string) :
  stored_token w = Some t ->
  exists c, config_file w (cli_path w) = Holds c /\ truthy_str (accessToken c) = true.
Proof.
  unfold stored_token. destruct (config_file w (cli_path w)) as [|e|c]; try discriminate.
  destruct (truthy_str (accessToken c)) eqn:Ht; [|discriminate].
  intros _. now exists c.
Qed.

(** A mount whose [requireAccessToken] and [start] succeed. *)
Lemma mount_run (props : ProviderProps) (p : Provider) (stk : option string)
      (w : World) (t : string) :
  auto_starts props = true -> stored_token w = Some t -> host_console w ->
  exists w',
    start (new_WingmanMonitor (prop_projectPath props) w) = Ok tt w' /\
    componentDidMount props p stk w =
    let active := isStarted (monitor w') && enabled_is_true (config (monitor w')) in
    if wants_listeners props w && active
    then match window w with
         | Some _ => Ok (mkProvider active true true true (prov_initError p), Returned) w'
         | None =>
             mount_catch (mkProvider active true (prov_listening p) true (prov_initError p))
                         ReferenceError w'
         end
    else Ok (mkProvider active (prov_handlers p) (prov_listening p) true (prov_initError p),
             Returned) w'.
Proof.
  intros Ha Hf Hh. destruct (stored_token_found w t Hf) as (c & Hc & Ht).
  destruct (start_end (new_WingmanMonitor (prop_projectPath props) w))
    as (w' & Hend & _ & _ & _ & Hok).
  specialize (Hok (host_console_new _ w Hh)).
  exists w'. split; [exact Hok|].
  pose proof (start_keeps_window _ _ Hend) as Hwin.
  change (window (new_WingmanMonitor (prop_projectPath props) w)) with (window w) in Hwin.
  unfold componentDidMount, auto_starts, wants_listeners in *.
  unfold bind at 1. unfold gets at 1. rewrite Ha.
  erewrite bind_ok.
  2:{ apply attempt_ok.
      rewrite (bind_ok _ _ _ _ _ (requireAccessToken_found w c stk Hc Ht)).
      unfold bind at 1. cbn [modify].
      rewrite (bind_ok _ _ _ _ _ Hok). apply isActive_run. }
  cbv beta iota zeta.
  destruct (_ && _); [|reflexivity].
  unfold bind at 1. unfold gets at 1.
  destruct (window w) as [x|], (window w') as [y|]; try reflexivity.
  - destruct Hwin as [H _]. specialize (H eq_refl). discriminate.
  - destruct Hwin as [_ H]. specialize (H eq_refl). discriminate.
Qed.

(** The mount of a provider whose file holds a token, in a host in
    which no monitor has hooks installed. *)
Lemma mount_outcome (props : ProviderProps) (p : Provider) (stk : option string)
      (w : World) (t : string) :
  auto_starts props = true -> stored_token w = Some t -> host_console w ->
  exists w1 p' w',
    start (new_WingmanMonitor (prop_projectPath props) w) = Ok tt w1 /\
    componentDidMount props p stk w = Ok (p', Returned) w' /\
    skeleton w' = skeleton w1 /\
    isActive w' = Ok (prov_isActive p') w' /\
    (truthy_opt (prop_projectPath props) = false ->
     forall c, config_file w (cli_path w) = Holds c ->
               config (monitor w') = Some c /\
               prov_isActive p' = enabled_is_true (Some c)) /\
    if wants_listeners props w && prov_isActive p'
    then match window w with
         | Some _ => w' = w1 /\ p' = mkProvider true true true true (prov_initError p)
         | None =>
             p' = mkProvider true true (prov_listening p) false
                             (Some "window is not defined")
         end
    else w' = w1 /\
         p' = mkProvider (prov_isActive p') (prov_handlers p) (prov_listening p) true
                         (prov_initError p).
Proof.
  intros Ha Hf Hh.
  destruct (mount_run props p stk w t Ha Hf Hh) as (w1 & Hstart & E).
  cbv zeta in E.
  set (w0 := new_WingmanMonitor (prop_projectPath props) w) in *.
  set (active := isStarted (monitor w1) && enabled_is_true (config (monitor w1))) in *.
  assert (Hpath : truthy_opt (prop_projectPath props) = false ->
                  forall c, config_file w (cli_path w) = Holds c ->
                            config (monitor w1) = Some c /\
                            active = enabled_is_true (Some c)).
  { intros Hpp c Hc.
    assert (Hf0 : config_file_of w0 = Holds c).
    { unfold config_file_of, w0, new_WingmanMonitor.
      cbn [monitor with_monitor configManager configPath config_file].
      unfold cli_path in Hc. unfold or_else.
      destruct (prop_projectPath props) as [s|]; [|exact Hc].
      cbn in Hpp. rewrite Hpp. exact Hc. }
    destruct (CliProperties.start_on_file w0 c eq_refl Hf0)
      as (w2 & E2 & _ & Hcfg & Hs & _).
    rewrite Hstart in E2. cbn in E2. injection E2 as <-.
    split; [exact Hcfg|]. unfold active. rewrite Hcfg, Hs.
    unfold enabled_is_true, enabled_falsy.
    destruct (enabled c) as [[|]|]; reflexivity. }
  destruct (wants_listeners props w && active) eqn:Hwant.
  - apply andb_true_iff in Hwant. destruct Hwant as [Hw Hact].
    destruct (window w) as [x|] eqn:Hwin.
    + exists w1. eexists. exists w1. split; [exact Hstart|]. split; [exact E|].
      cbn [prov_isActive]. rewrite Hw, Hact. cbn [andb].
      split; [reflexivity|].
      split; [rewrite isActive_run; exact (f_equal (fun b => Ok b w1) Hact)|].
      split; [|auto].
      intros Hpp c Hc. destruct (Hpath Hpp c Hc) as (H1 & H2).
      split; [exact H1 | now rewrite <- H2].
    + assert (Hst : isStarted (monitor w1) = true).
      { unfold active in Hact. now apply andb_true_iff in Hact. }
      assert (Hr : reaches_host KError w1 = true).
      { destruct (start_end w0) as (w2 & E2 & Hsk & _).
        rewrite Hstart in E2. cbn in E2. injection E2 as <-.
        rewrite (reaches_host_skeleton KError _ _ Hsk).
        destruct (skeleton_same _ _ Hsk) as (_ & _ & Hst' & _).
        rewrite Hst in Hst'. unfold start_target in *.
        destruct (config_file_of w0) as [|e|c0].
        - discriminate Hst'.
        - destruct (reaches_host KError w0); discriminate Hst'.
        - change (isStarted (monitor w0)) with false in *.
          rewrite orb_false_r in *.
          destruct (enabled_falsy c0); [discriminate Hst'|].
          apply reaches_started. apply host_console_new. exact Hh. }
      unfold mount_catch in E.
      destruct (console_call_reaches KError
                  [Str "Wingman: Failed to start monitoring in provider:";
                   ReferenceError] w1 Hr)
        as (w' & Ec & Hs & _).
      { intros _. apply own_message_parts. }
      rewrite (bind_ok _ _ _ _ _ (attempt_ok _ _ _ _ Ec)) in E. cbn in E.
      exists w1. eexists. exists w'. split; [exact Hstart|]. split; [exact E|].
      cbn [prov_isActive]. rewrite Hw, Hact. cbn [andb].
      split; [exact Hs|].
      destruct (skeleton_same _ _ Hs) as (_ & _ & St & Cf & _).
      split; [rewrite isActive_run, St, Cf; exact (f_equal (fun b => Ok b w') Hact)|].
      split; [|reflexivity].
      intros Hpp c Hc. destruct (Hpath Hpp c Hc) as (H1 & H2).
      split; [now rewrite Cf | now rewrite <- H2].
  - exists w1. eexists. exists w1. split; [exact Hstart|]. split; [exact E|].
    cbn [prov_isActive]. rewrite Hwant.
    split; [reflexivity|]. split; [apply isActive_run|]. split; [exact Hpath|]. auto.
Qed.

Lemma untouched_host_console (w : World) : untouched w -> host_console w.
Proof. intros (H & _). exact H. Qed.

(** X21: [componentDidMount].  With [autoStart: false] it does
    nothing.  Otherwise, when [requireAccessToken] finds no token (the
    config file of the working directory is absent, unreadable or holds an
    empty token), the mount fails and the exception goes to
    [console.error]: if that ends in a function of the host, the provider
    records the message of [requireAccessToken] and stays uninitialised;
    if it overflows the stack, the mount ends with the [RangeError] and
    the provider is as it was; either way its monitor is neither replaced
    nor started.  When the file holds a token and no monitor has hooks
    installed in the host, the provider replaces its monitor by a new one
    for [props.projectPath] and starts it, and its [isActive] becomes the
    monitor's own [isActive()].  If then the window listeners are not
    wanted (by the prop, or else by the environment not being
    production) or the monitor is not active, the provider ends
    initialised, with its handler fields and listeners as they were.  If
    they are wanted, the monitor is active and there is a window, the
    provider ends initialised with the handler fields set and the
    listeners registered.  If they are wanted, the monitor is active and
    there is no window, registering them throws after the monitor has
    been started and the handler fields have been set: the provider ends
    active but uninitialised, with the message [window is not defined].
    The token itself is not handed to the monitor: with no [projectPath]
    the monitor loads the same file and is active exactly when that file
    says [enabled: true]. *)
Theorem X21_componentDidMount (props : ProviderProps) (p : Provider)
        (stack_of_new_Error : option string) (w : World) :
  (auto_starts props = false ->
   componentDidMount props p stack_of_new_Error w = Ok (p, Returned) w) /\
  (auto_starts props = true -> stored_token w = None ->
   exists w',
     skeleton w' = skeleton w /\
     componentDidMount props p stack_of_new_Error w
     = Ok (if reaches_host KError w
           then (mount_failed p token_not_found, Returned)
           else (p, Threw RangeError)) w') /\
  (forall t,
     auto_starts props = true -> stored_token w = Some t -> untouched w ->
     exists w1 p' w',
       start (new_WingmanMonitor (prop_projectPath props) w) = Ok tt w1 /\
       componentDidMount props p stack_of_new_Error w = Ok (p', Returned) w' /\
       skeleton w' = skeleton w1 /\
       isActive w' = Ok (prov_isActive p') w' /\
       (truthy_opt (prop_projectPath props) = false ->
        forall c, config_file w (cli_path w) = Holds c ->
                  config (monitor w') = Some c /\
                  prov_isActive p' = enabled_is_true (Some c)) /\
       if wants_listeners props w && prov_isActive p'
       then match window w with
            | Some _ => w' = w1 /\ p' = mkProvider true true true true (prov_initError p)
            | None =>
                p' = mkProvider true true (prov_listening p) false
                                (Some "window is not defined")
            end
       else w' = w1 /\
            p' = mkProvider (prov_isActive p') (prov_handlers p) (prov_listening p) true
                            (prov_initError p)).
Proof.
  split; [|split].
  - intros Ha. unfold componentDidMount, auto_starts in *.
    unfold bind, gets. now rewrite Ha.
  - intros Ha Hf. unfold componentDidMount, auto_starts in *.
    unfold bind at 1. unfold gets at 1. rewrite Ha.
    destruct (ConfigProperties.requireAccessToken_none w stack_of_new_Error Hf)
      as (e & w1 & E & Hs & He).
    erewrite bind_ok.
    2:{ apply attempt_throw. unfold bind. rewrite E. reflexivity. }
    cbv beta iota. unfold mount_catch.
    destruct (reaches_host KError w) eqn:Hr.
    + rewrite (He eq_refl). unfold no_token.
      destruct (console_call_reaches KError
                  [Str "Wingman: Failed to start monitoring in provider:";
                   ErrorObj (mkError token_not_found stack_of_new_Error)] w1)
        as (w' & Ec & Hs' & _).
      { now rewrite (reaches_host_skeleton KError w w1 Hs). }
      { intros _. apply own_message_parts. }
      exists w'. split; [congruence|].
      rewrite (bind_ok _ _ _ _ _ (attempt_ok _ _ _ _ Ec)). reflexivity.
    + exists w1. split; [exact Hs|].
      erewrite bind_ok.
      2:{ apply attempt_throw. apply console_call_overflows.
          now rewrite (reaches_host_skeleton KError w w1 Hs). }
      reflexivity.
  - intros t Ha Hf Hu.
    exact (mount_outcome props p stack_of_new_Error w t Ha Hf
             (untouched_host_console w Hu)).
Qed.

Lemma unmount_open (p : Provider) (w : World) :
  unmount_blocked p w = false ->
  attempt (if prov_handlers p then bind the_window (fun _ => ret tt) else ret tt) w
  = Ok (inl tt) w.
Proof.
  unfold unmount_blocked. intros H. apply attempt_ok.
  destruct (prov_handlers p); [|reflexivity].
  unfold the_window, bind, gets. destruct (window w); [reflexivity | discriminate].
Qed.

Lemma stop_overflows (w : World) :
  isStarted (monitor w) = true -> reaches_host KLog w = false ->
  stop w = Throw RangeError (with_monitor (set_isStarted false) (uninstalled w)).
Proof.
  intros Hst Hr. unfold stop, bind, gets. rewrite Hst. cbn [negb].
  rewrite removeErrorHandlers_run. cbn [modify].
  apply console_call_overflows. rewrite <- Hr. unfold reaches_host.
  destruct w as [m c p wi e cw cf pj cl cr ns ps hc hr]. destruct m. reflexivity.
Qed.

(** X22: [componentWillUnmount].  When the handler fields of the
    provider are set and there is no [window], [removeGlobalErrorHandlers]
    throws a [ReferenceError] before anything else happens: the provider
    stays as it was, active if it was, and its monitor is not stopped.
    Otherwise the listeners are gone, and a provider that was not active
    ends there.  For an active provider [monitor.stop()] follows: a
    monitor that is not started is left alone; a started one is stopped,
    and the provider becomes inactive if the [console.log] of [stop] ends
    in a function of the host, while if that overflows the stack the
    unmount ends with the [RangeError] and the provider stays active
    though its monitor is stopped.  In a host where no monitor has hooks
    installed, with a token in the config file of the working directory
    and no [projectPath]: after a mount in a page and an unmount the
    monitor is not started, and the console still holds the monitor's
    wrappers if the file says [enabled: true], while otherwise the unmount
    changes nothing and the console is the host's; after a mount outside
    a browser that wanted listeners and found [enabled: true], the unmount
    throws the [ReferenceError] and leaves provider and monitor active. *)
Theorem X22_mount_then_unmount (props : ProviderProps) (p : Provider)
        (stack_of_new_Error : option string) (w : World) (c : WingmanConfig) :
  (unmount_blocked p w = true ->
   componentWillUnmount p w = Ok (p, Threw ReferenceError) w) /\
  (unmount_blocked p w = false -> prov_isActive p = false ->
   componentWillUnmount p w = Ok (unmounted p, Returned) w) /\
  (unmount_blocked p w = false -> prov_isActive p = true ->
   isStarted (monitor w) = false ->
   componentWillUnmount p w = Ok (unmounted p, Returned) w) /\
  (unmount_blocked p w = false -> prov_isActive p = true ->
   isStarted (monitor w) = true ->
   exists w',
     skeleton w' = skeleton (with_monitor (set_isStarted false) (uninstalled w)) /\
     isStarted (monitor w') = false /\
     componentWillUnmount p w
     = Ok (if reaches_host KLog w
           then (unmounted p, Returned)
           else (unmount_interrupted p, Threw RangeError)) w') /\
  (auto_starts props = true -> truthy_opt (prop_projectPath props) = false ->
   config_file w (cli_path w) = Holds c -> truthy_str (accessToken c) = true ->
   untouched w -> window w <> None ->
   exists p' w' w'',
     componentDidMount props p stack_of_new_Error w = Ok (p', Returned) w' /\
     componentWillUnmount p' w' = Ok (unmounted p', Returned) w'' /\
     isStarted (monitor w'') = false /\
     isActive w'' = Ok false w'' /\
     console w'' = console w' /\
     if enabled_is_true (Some c)
     then exists s, console w'' = mkConsole (OwnHook s) (OwnHook (S s)) (OwnHook (S (S s)))
     else w'' = w' /\ console w'' = console w) /\
  (auto_starts props = true -> truthy_opt (prop_projectPath props) = false ->
   config_file w (cli_path w) = Holds c -> truthy_str (accessToken c) = true ->
   enabled_is_true (Some c) = true -> wants_listeners props w = true ->
   untouched w -> window w = None ->
   exists p' w',
     componentDidMount props p stack_of_new_Error w = Ok (p', Returned) w' /\
     prov_isActive p' = true /\
     componentWillUnmount p' w' = Ok (p', Threw ReferenceError) w' /\
     isActive w' = Ok true w').
Proof.
  split; [|split; [|split; [|split; [|split]]]].
  - unfold unmount_blocked. intros Hb. apply andb_true_iff in Hb. destruct Hb as [Hh Hw].
    unfold componentWillUnmount. rewrite Hh.
    erewrite bind_ok.
    2:{ apply attempt_throw. unfold the_window, bind, gets.
        destruct (window w); [discriminate | reflexivity]. }
    reflexivity.
  - intros Hb Hp. unfold componentWillUnmount.
    rewrite (bind_ok _ _ _ _ _ (unmount_open p w Hb)). now rewrite Hp.
  - intros Hb Hp Hst. unfold componentWillUnmount.
    rewrite (bind_ok _ _ _ _ _ (unmount_open p w Hb)). rewrite Hp.
    erewrite bind_ok.
    2:{ apply attempt_ok. unfold stop, bind, gets. rewrite Hst. reflexivity. }
    reflexivity.
  - intros Hb Hp Hst. unfold componentWillUnmount.
    rewrite (bind_ok _ _ _ _ _ (unmount_open p w Hb)). rewrite Hp.
    destruct (stop_end w Hst) as (w' & _ & Hs & _ & _ & Hstop).
    destruct (reaches_host KLog w) eqn:Hr.
    + exists w'. split; [exact Hs|].
      destruct (skeleton_same _ _ Hs) as (_ & _ & St & _).
      split; [exact St|].
      rewrite (bind_ok _ _ _ _ _ (attempt_ok _ _ _ _ (Hstop eq_refl))). reflexivity.
    + eexists. split; [reflexivity|]. split; [reflexivity|].
      rewrite (bind_ok _ _ _ _ _ (attempt_throw _ _ _ _ (stop_overflows w Hst Hr))).
      unfold unmount_interrupted. rewrite Hp. reflexivity.
  - intros Ha Hpp Hf Ht Hu Hwin.
    pose proof (untouched_host_console w Hu) as Hh.
    assert (Htok : stored_token w = Some (accessToken c)).
    { unfold stored_token. now rewrite Hf, Ht. }
    destruct (mount_outcome props p stack_of_new_Error w _ Ha Htok Hh)
      as (w1 & p' & w' & Hstart & Em & Hsk & Hact & Hpath & Hcase).
    destruct (Hpath Hpp c Hf) as (Hcfg & Hen).
    set (w0 := new_WingmanMonitor (prop_projectPath props) w) in *.
    assert (Hh0 : host_console w0) by (apply host_console_new; exact Hh).
    assert (Hf0 : config_file_of w0 = Holds c).
    { unfold config_file_of, w0, new_WingmanMonitor.
      cbn [monitor with_monitor configManager configPath config_file].
      unfold cli_path in Hf. unfold or_else.
      destruct (prop_projectPath props) as [s|]; [|exact Hf].
      cbn in Hpp. rewrite Hpp. exact Hf. }
    assert (Hw' : w' = w1).
    { destruct (wants_listeners props w && prov_isActive p');
        [destruct (window w); [apply Hcase | congruence] | apply Hcase]. }
    subst w'.
    assert (Hopen : unmount_blocked p' w1 = false).
    { unfold unmount_blocked.
      assert (Hend : end_state (start w0) = Some w1) by (now rewrite Hstart).
      pose proof (start_keeps_window _ _ Hend) as Hk.
      change (window w0) with (window w) in Hk.
      destruct (window w1); [apply andb_false_r|].
      destruct Hk as [Hk _]. now specialize (Hk eq_refl). }
    exists p', w1.
    destruct (enabled_is_true (Some c)) eqn:Hon.
    + assert (Hen' : enabled c = Some true).
      { cbn in Hon. destruct (enabled c) as [[|]|]; (reflexivity || discriminate). }
      destruct (LifecycleMore.start_then_stop w0 c eq_refl Hf0 Hen' Hh0)
        as (wa & wb & Ea & Eb & _ & _ & Sa & Sb & Ca & Cb & _ & Hcon & Hs).
      rewrite Hstart in Ea. injection Ea as <-.
      exists wb. split; [exact Em|].
      unfold componentWillUnmount.
      rewrite (bind_ok _ _ _ _ _ (unmount_open p' w1 Hopen)). rewrite Hen.
      rewrite (bind_ok _ _ _ _ _ (attempt_ok _ _ _ _ Eb)).
      split; [reflexivity|]. split; [exact Sb|].
      split; [rewrite isActive_run, Sb; reflexivity|].
      split; [exact Hcon|]. destruct Hs as (s & Hs). exists s. now rewrite Hcon.
    + exists w1. split; [exact Em|].
      unfold componentWillUnmount.
      rewrite (bind_ok _ _ _ _ _ (unmount_open p' w1 Hopen)). rewrite Hen.
      destruct (CliProperties.start_on_file w0 c eq_refl Hf0)
        as (w2 & E2 & _ & Hc & Hs & _).
      rewrite Hstart in E2. cbn in E2. injection E2 as <-.
      assert (Hoff : enabled_falsy c = true).
      { cbn in Hon. unfold enabled_falsy.
        destruct (enabled c) as [[|]|]; (reflexivity || discriminate). }
      rewrite Hoff in Hs. cbn in Hs.
      split; [reflexivity|]. split; [exact Hs|].
      split; [rewrite isActive_run, Hs; reflexivity|].
      split; [reflexivity|]. split; [reflexivity|].
      destruct (start_end w0) as (w3 & E3 & Hsk3 & _).
      rewrite Hstart in E3. cbn in E3. injection E3 as <-.
      unfold start_target in Hsk3. rewrite Hf0, Hoff in Hsk3. cbn [orb] in Hsk3.
      destruct (skeleton_same _ _ Hsk3) as ((Hcon & _) & _). exact Hcon.
  - intros Ha Hpp Hf Ht Hon Hwant Hu Hwin.
    pose proof (untouched_host_console w Hu) as Hh.
    assert (Htok : stored_token w = Some (accessToken c)).
    { unfold stored_token. now rewrite Hf, Ht. }
    destruct (mount_outcome props p stack_of_new_Error w _ Ha Htok Hh)
      as (w1 & p' & w' & Hstart & Em & Hsk & Hact & Hpath & Hcase).
    destruct (Hpath Hpp c Hf) as (Hcfg & Hen).
    rewrite Hon in Hen. rewrite Hwant, Hen, Hwin in Hcase. cbn [andb] in Hcase.
    exists p', w'. split; [exact Em|]. split; [exact Hen|].
    split; [|now rewrite Hact, Hen].
    assert (Hblocked : unmount_blocked p' w' = true).
    { unfold unmount_blocked. rewrite Hcase. cbn [prov_handlers andb].
      destruct (skeleton_host _ _ Hsk) as (_ & _ & Hw & _). rewrite Hw.
      assert (Hend : end_state (start (new_WingmanMonitor (prop_projectPath props) w))
                     = Some w1) by (now rewrite Hstart).
      pose proof (start_keeps_window _ _ Hend) as Hk.
      change (window (new_WingmanMonitor (prop_projectPath props) w))
        with (window w) in Hk.
      destruct Hk as [_ Hk]. now rewrite (Hk Hwin). }
    unfold unmount_blocked in Hblocked.
    apply andb_true_iff in Hblocked. destruct Hblocked as [Hh' Hw'].
    unfold componentWillUnmount. rewrite Hh'.
    erewrite bind_ok.
    2:{ apply attempt_throw. unfold the_window, bind, gets.
        destruct (window w'); [discriminate | reflexivity]. }
    reflexivity.
Qed.

End WithRuntime.
End ProviderProperties.

(* ================================================================= *)
(** ** The further properties on concrete hosts *)

Module MoreExamples.
Import Model Effects Monitor Execution Vocabulary Demo Integration Terms Hosts.
Import FilterMore HandlerProperties LifecycleMore ConfigProperties CliProperties
       ProviderProperties.

Lemma X2_witness :
  ErrorFiltering.enableErrorReporting (ErrorFiltering.getEnvironmentConfig vercel_production)
  = true /\
  ErrorFiltering.shouldReportError vercel_production boom Undefined
  = ErrorFiltering.shouldReportError production boom Undefined.
Proof.
  assert (H : ErrorFiltering.enableErrorReporting
                (ErrorFiltering.getEnvironmentConfig vercel_production) = true)
    by reflexivity.
  split; [exact H|].
  pose proof (X2_environment_config vercel_production) as X. cbv zeta in X.
  destruct X as (_ & _ & _ & _ & _ & _ & Hv).
  exact (Hv H boom Undefined).
Defined.


Lemma X4_witness :
  window started_node = None /\
  window browser_started =
    Some (mkWindow (Some (OwnHook 0)) (Some (OwnHook 1))
                   (Some "https://example.test/") (Some "UA")) /\
  window browser_restarted =
    Some (mkWindow (Some (OwnHook 5)) (Some (OwnHook 6))
                   (Some "https://example.test/") (Some "UA")) /\
  handleWindowError (Str "boom") Undefined Undefined Undefined None started_node
  = Throw ReferenceError (with_clock_reads S started_node) /\
  (exists report,
     handleWindowError (Str "boom") Undefined Undefined Undefined None browser_started
     = Ok true (reported report browser_started) /\
     severity report = medium) /\
  (exists w' reports,
     handleWindowError (Str "boom") Undefined Undefined Undefined None browser_restarted
     = Throw RangeError w' /\
     List.length reports = 4%nat /\
     posts w' = sent_all reports browser_restarted).
Proof.
  assert (H1 : window started_node = None) by reflexivity.
  assert (H2 : window browser_started =
               Some (mkWindow (Some (OwnHook 0)) (Some (OwnHook 1))
                              (Some "https://example.test/") (Some "UA")))
    by reflexivity.
  assert (H3 : window browser_restarted =
               Some (mkWindow (Some (OwnHook 5)) (Some (OwnHook 6))
                              (Some "https://example.test/") (Some "UA")))
    by (vm_compute; reflexivity).
  split; [exact H1|]. split; [exact H2|]. split; [exact H3|].
  split; [|split].
  - destruct (X4_window_error_chains started_node (Str "boom") Undefined Undefined
                Undefined None) as (Hnone & _).
    exact (Hnone H1).
  - destruct (X4_window_error_chains browser_started (Str "boom") Undefined Undefined
                Undefined None) as (_ & Hpage & _).
    pose proof (Hpage _ H2) as Hp.
    assert (Ho : originalErrorHandler (monitor browser_started) = None) by reflexivity.
    rewrite Ho in Hp. destruct Hp as (report & (_ & Hsev & _) & _ & Hrun).
    exists report. split; [exact Hrun | exact Hsev].
  - destruct (X4_window_error_chains browser_restarted (Str "boom") Undefined Undefined
                Undefined None) as (_ & Hpage & _).
    pose proof (Hpage _ H3) as Hp.
    assert (Ho : originalErrorHandler (monitor browser_restarted) = Some (OwnHook 0))
      by (vm_compute; reflexivity).
    assert (Hc : config (monitor browser_restarted) = Some enabled_config)
      by (vm_compute; reflexivity).
    rewrite Ho, Hc in Hp.
    destruct Hp as (w' & reports & Hrun & _ & _ & Hlen & _ & Hposts).
    exists w', reports. split; [exact Hrun|]. split; [exact Hlen | exact Hposts].
Defined.

Lemma X6_witness :
  KLog <> KError /\
  slot KLog (console started_node) = OwnHook 4 /\
  original KLog (monitor started_node) = HostFn 3 /\
  exists w',
    console_call KLog [Str "hello"] started_node = Ok tt w' /\
    posts w' = posts started_node.
Proof.
  assert (H1 : KLog <> KError) by discriminate.
  assert (H2 : slot KLog (console started_node) = OwnHook 4) by reflexivity.
  assert (H3 : original KLog (monitor started_node) = HostFn 3) by reflexivity.
  split; [exact H1|]. split; [exact H2|]. split; [exact H3|].
  destruct (X6_console_passthrough KLog [Str "hello"] started_node 4 3 H1 H2 H3)
    as (w' & Hrun & _ & _ & Hposts & _).
  exists w'. auto.
Defined.

Lemma X7_witness :
  console_error (console strict_started) = OwnHook 2 /\
  originalConsoleError (monitor strict_started) = HostFn 1 /\
  @unserialisable strict_runtime [stubborn] /\
  @console_call strict_runtime KError [stubborn] strict_started
  = Throw refusal
      (with_clock_reads S (@forwarded strict_runtime KError 1 [stubborn] strict_started)).
Proof.
  assert (H1 : console_error (console strict_started) = OwnHook 2) by reflexivity.
  assert (H2 : originalConsoleError (monitor strict_started) = HostFn 1) by reflexivity.
  assert (H3 : @unserialisable strict_runtime [stubborn]).
  { exists stubborn. split; [left; reflexivity | reflexivity]. }
  split; [exact H1|]. split; [exact H2|]. split; [exact H3|].
  exact (proj1 (@X7_console_error_throws strict_runtime [stubborn] strict_started 2 1
                  H1 H2 H3)).
Defined.

Lemma X8_witness :
  config (monitor started_node) = Some enabled_config /\
  console_error (console started_node) = OwnHook 2 /\
  originalConsoleError (monitor started_node) = HostFn 1 /\
  console_log (console started_node) = OwnHook 4 /\
  originalConsoleLog (monitor started_node) = HostFn 3 /\
  exists report w',
    reportError_settled (Failed (BadStatus 500)) started_node = Ok tt w' /\
    posts w' = (posts started_node ++ [mk_request (webhook_of started_node) report])%list /\
    errorType report = "consoleError".
Proof.
  assert (H0 : config (monitor started_node) = Some enabled_config) by reflexivity.
  assert (H1 : console_error (console started_node) = OwnHook 2) by reflexivity.
  assert (H2 : originalConsoleError (monitor started_node) = HostFn 1) by reflexivity.
  assert (H3 : console_log (console started_node) = OwnHook 4) by reflexivity.
  assert (H4 : originalConsoleLog (monitor started_node) = HostFn 3) by reflexivity.
  repeat (split; [assumption|]).
  destruct (X8_failure_breeds_report started_node enabled_config (BadStatus 500)
              2 4 1 3 H0 H1 H2 H3 H4)
    as ((report & w' & Hrun & Hposts & Htype & _) & _).
  exists report, w'. auto.
Defined.

Lemma X9_witness :
  isStarted (monitor fresh_node) = false /\
  config_file_of fresh_node = Holds enabled_config /\
  enabled enabled_config = Some true /\
  exists w' s,
    end_state (start fresh_node) = Some w' /\
    isStarted (monitor w') = true /\
    console w' = mkConsole (OwnHook s) (OwnHook (S s)) (OwnHook (S (S s))) /\
    originalConsoleError (monitor w') = HostFn 1.
Proof.
  assert (H1 : isStarted (monitor fresh_node) = false) by reflexivity.
  assert (H2 : config_file_of fresh_node = Holds enabled_config) by reflexivity.
  assert (H3 : enabled enabled_config = Some true) by reflexivity.
  split; [exact H1|]. split; [exact H2|]. split; [exact H3|].
  destruct (X9_start_installs fresh_node enabled_config H1 H2 H3)
    as (w' & s & Hend & _ & Hst & _ & Hcon & Horig & _).
  exists w', s. auto.
Defined.

Lemma X10_witness :
  isStarted (monitor fresh_node) = false /\
  config_file_of fresh_node = Holds enabled_config /\
  enabled enabled_config = Some true /\
  host_console fresh_node /\
  exists w3,
    run [Start; Stop; Start] fresh_node = Some w3 /\
    console_call KLog [Str "hello"] w3 = Throw RangeError w3.
Proof.
  assert (H1 : isStarted (monitor fresh_node) = false) by reflexivity.
  assert (H2 : config_file_of fresh_node = Holds enabled_config) by reflexivity.
  assert (H3 : enabled enabled_config = Some true) by reflexivity.
  assert (H4 : host_console fresh_node).
  { intros k. destruct k; eexists; reflexivity. }
  split; [exact H1|]. split; [exact H2|]. split; [exact H3|]. split; [exact H4|].
  destruct (X10_restart_breaks_console fresh_node enabled_config H1 H2 H3 H4)
    as (w3 & Hrun & _ & Hcalls).
  exists w3. split; [exact Hrun | apply Hcalls].
Defined.

Lemma X11_witness :
  isStarted (monitor listening_node) = false /\
  config_file_of listening_node = Holds enabled_config /\
  enabled enabled_config = Some true /\
  host_console listening_node /\
  process listening_node = Some (mkProcess (map HostListener [7%nat]) []) /\
  exists w1 w2 report w',
    start listening_node = Ok tt w1 /\ stop w1 = Ok tt w2 /\
    isStarted (monitor w2) = false /\
    emit_uncaughtException boom w2 = Ok tt w' /\
    posts w' = (posts w2 ++ [mk_request (webhook_of w2) report])%list.
Proof.
  assert (H1 : isStarted (monitor listening_node) = false) by reflexivity.
  assert (H2 : config_file_of listening_node = Holds enabled_config) by reflexivity.
  assert (H3 : enabled enabled_config = Some true) by reflexivity.
  assert (H4 : host_console listening_node).
  { intros k. destruct k; eexists; reflexivity. }
  assert (H5 : process listening_node = Some (mkProcess (map HostListener [7%nat]) []))
    by reflexivity.
  split; [exact H1|]. split; [exact H2|]. split; [exact H3|]. split; [exact H4|].
  split; [exact H5|].
  destruct (X11_exception_after_start_and_stop listening_node enabled_config [7%nat] []
              boom H1 H2 H3 H4 H5)
    as (w1 & w2 & Hstart & Hstop & _ & Hst & _ & (report & w' & Hemit & Hposts & _)).
  exists w1, w2, report, w'. auto 6.
Defined.

Lemma X12_witness :
  synced started_node /\
  run [ConfigFileBecomes Absent] started_node = Some orphaned_node /\
  isActive orphaned_node = Ok true orphaned_node /\
  synced orphaned_node /\
  ConfigManager_isEnabled orphaned_node = Ok true orphaned_node.
Proof.
  assert (H1 : synced started_node) by (right; reflexivity).
  assert (H2 : run [ConfigFileBecomes Absent] started_node = Some orphaned_node)
    by reflexivity.
  assert (H3 : isActive orphaned_node = Ok true orphaned_node) by reflexivity.
  split; [exact H1|]. split; [exact H2|]. split; [exact H3|].
  destruct (X12_monitor_agrees_with_manager [ConfigFileBecomes Absent] started_node
              orphaned_node H1 H2) as (Hs & Hen).
  split; [exact Hs | exact (Hen H3)].
Defined.

Lemma X13_witness :
  untouched fresh_node /\
  (exists w',
     run busy (new_WingmanMonitor None fresh_node) = Some w' /\
     (List.length (recentLogs (monitor w')) <= 50)%nat) /\
  option_map (fun w => List.length (recentLogs (monitor w)))
             (run busy (new_WingmanMonitor None fresh_node)) = Some 50%nat.
Proof.
  assert (H : untouched fresh_node).
  { split; [|split].
    - intros k. destruct k; eexists; reflexivity.
    - exact I.
    - intros l Hl. destruct Hl. }
  split; [exact H|].
  split; [exact (X13_buffer_bound_in_executions busy None fresh_node H)|].
  vm_compute. reflexivity.
Defined.

Lemma X14_witness :
  config_file_of bare_node = Absent /\
  exists w',
    ConfigManager_initialize enabled_config bare_node = Ok tt w' /\
    ConfigManager_isEnabled w' = Ok true w' /\
    ConfigManager_load w' = Ok None w'.
Proof.
  assert (H : config_file_of bare_node = Absent) by reflexivity.
  split; [exact H|].
  destruct (X14_initialize enabled_config bare_node)
    as (w' & Hinit & _ & Hen & _ & _ & _ & Hload).
  exists w'. auto.
Defined.


Lemma X16_witness :
  token_file damaged_node = Unreadable boom /\
  token_file restarted_damaged_node = Unreadable boom /\
  reaches_host KError damaged_node = true /\
  reaches_host KError restarted_damaged_node = false /\
  reaches_host KWarn restarted_damaged_node = false /\
  (exists w',
     getStoredAccessToken damaged_node = Ok None w' /\
     requireAccessToken None damaged_node = Throw (no_token None) w') /\
  getStoredAccessToken restarted_damaged_node = Throw RangeError restarted_damaged_node.
Proof.
  assert (H1 : token_file damaged_node = Unreadable boom) by reflexivity.
  assert (H1' : token_file restarted_damaged_node = Unreadable boom)
    by (vm_compute; reflexivity).
  assert (H2 : reaches_host KError damaged_node = true) by reflexivity.
  assert (H3 : reaches_host KError restarted_damaged_node = false)
    by (vm_compute; reflexivity).
  assert (H4 : reaches_host KWarn restarted_damaged_node = false)
    by (vm_compute; reflexivity).
  split; [exact H1|]. split; [exact H1'|]. split; [exact H2|]. split; [exact H3|].
  split; [exact H4|]. split.
  - pose proof (X16_token_resolver damaged_node None) as X.
    rewrite H1 in X. destruct X as (Hlogged & _).
    destruct (Hlogged (or_introl H2)) as (w' & Hget & Hreq & _).
    exists w'. auto.
  - pose proof (X16_token_resolver restarted_damaged_node None) as X.
    rewrite H1' in X. destruct X as (_ & Hthrown).
    exact (proj1 (Hthrown H3 H4)).
Defined.

Lemma X17_witness :
  isStarted (monitor dormant_node) = false /\
  in_working_directory dormant_node /\
  config_file dormant_node (cli_path dormant_node) = Holds disabled_config /\
  host_console dormant_node /\
  exists w',
    start (after_cli (cli_set_enabled plain true Written) dormant_node) = Ok tt w' /\
    isActive w' = Ok true w' /\
    config (monitor w') = Some (with_enabled true disabled_config).
Proof.
  assert (H1 : isStarted (monitor dormant_node) = false) by reflexivity.
  assert (H2 : in_working_directory dormant_node) by reflexivity.
  assert (H3 : config_file dormant_node (cli_path dormant_node) = Holds disabled_config)
    by reflexivity.
  assert (H4 : host_console dormant_node).
  { intros k. destruct k; eexists; reflexivity. }
  split; [exact H1|]. split; [exact H2|]. split; [exact H3|]. split; [exact H4|].
  destruct (X17_cli_toggle plain true false Written (Holds disabled_config))
    as (_ & _ & _ & Hstart).
  destruct (Hstart dormant_node disabled_config H1 H2 H3)
    as (w' & _ & Hok & Hc & _ & Hact).
  exists w'. split; [exact (Hok H4)|]. auto.
Defined.

Lemma X18_witness :
  cli_exit (cli_init plain "token" "production" (Replied 200 (Some "p1")) Written 0 Absent)
  = None /\
  cli_exit (cli_init plain "token" "production" (Replied 500 None) Written 0 Absent)
  <> None /\
  isStarted (monitor bare_node) = false /\
  in_working_directory bare_node /\
  config_file bare_node (cli_path bare_node) = Absent /\
  cli_file (cli_init plain "token" "production" (Replied 500 None) Written 0 Absent)
  = Absent /\
  exists w',
    end_state (start (after_cli (cli_init plain "token" "production"
                                   (Replied 200 (Some "p1")) Written 0) bare_node))
    = Some w' /\
    isActive w' = Ok true w'.
Proof.
  assert (H1 : cli_exit (cli_init plain "token" "production" (Replied 200 (Some "p1"))
                           Written 0 Absent) = None) by reflexivity.
  assert (H2 : cli_exit (cli_init plain "token" "production" (Replied 500 None)
                           Written 0 Absent) <> None) by discriminate.
  assert (H3 : isStarted (monitor bare_node) = false) by reflexivity.
  assert (H4 : in_working_directory bare_node) by reflexivity.
  assert (H5 : config_file bare_node (cli_path bare_node) = Absent) by reflexivity.
  split; [exact H1|]. split; [exact H2|]. split; [exact H3|]. split; [exact H4|].
  split; [exact H5|].
  pose proof (X18_cli_init plain "token" "production" (Replied 500 None) Written 0 Absent)
    as Xbad. cbv zeta in Xbad. destruct Xbad as (_ & Hbad & _).
  pose proof (X18_cli_init plain "token" "production" (Replied 200 (Some "p1")) Written 0
                Absent) as Xgood. cbv zeta in Xgood. destruct Xgood as (_ & _ & Hgood).
  split; [exact (proj2 (Hbad H2))|].
  destruct (Hgood H1) as (doc & _ & _ & _ & _ & _ & Hstart).
  destruct (Hstart bare_node H3 H4 H5) as (w' & Hend & Hact & _).
  exists w'. auto.
Defined.


Lemma X20_witness :
  false && true = false /\ true && true = true /\
  (exists w1,
     end_state (hook_reportError false true (inl boom) None Undefined started_node)
     = Some w1 /\
     posts w1 = posts started_node) /\
  (exists report,
     hook_reportInfo true true "deployed" None Undefined started_node
     = Ok tt (if ErrorFiltering.shouldReportError (env started_node)
                   (as_Error (inr "deployed") None) Undefined
              then reported report started_node else started_node) /\
     get_prop (metadata report) "severity" = Str "low" /\
     severity report = medium).
Proof.
  assert (H1 : false && true = false) by reflexivity.
  assert (H2 : true && true = true) by reflexivity.
  split; [exact H1|]. split; [exact H2|].
  pose proof (X20_reporting_hooks started_node false true (inl boom) "deployed" None
                Undefined) as Xoff. cbv zeta in Xoff. destruct Xoff as (Hoff & _).
  pose proof (X20_reporting_hooks started_node true true (inl boom) "deployed" None
                Undefined) as Xon. cbv zeta in Xon. destruct Xon as (_ & Hon).
  split.
  - destruct (Hoff H1) as (w1 & w2 & E1 & _ & P1 & _). exists w1.
    split; [exact E1 | exact P1].
  - destruct (Hon H2) as (_ & (report & Hrun & _ & Hlow & _ & Hsev)).
    exists report. split; [exact Hrun|]. split; [exact Hlow | exact Hsev].
Defined.

Lemma X21_witness :
  auto_starts manual_props = false /\
  auto_starts default_props = true /\
  stored_token bare_node = None /\
  stored_token restarted_bare = None /\
  stored_token fresh_page = Some "token" /\
  stored_token fresh_node = Some "token" /\
  untouched fresh_page /\ untouched fresh_node /\
  componentDidMount manual_props new_provider None fresh_node
  = Ok (new_provider, Returned) fresh_node /\
  (exists w',
     componentDidMount default_props new_provider None bare_node
     = Ok (mount_failed new_provider token_not_found, Returned) w') /\
  (exists w',
     componentDidMount default_props new_provider None restarted_bare
     = Ok (new_provider, Threw RangeError) w') /\
  (exists w',
     componentDidMount default_props new_provider None fresh_page
     = Ok (mkProvider true true true true None, Returned) w') /\
  (exists w',
     componentDidMount default_props new_provider None fresh_node
     = Ok (mounted_outside, Returned) w').
Proof.
  assert (H1 : auto_starts manual_props = false) by reflexivity.
  assert (H2 : auto_starts default_props = true) by reflexivity.
  assert (H3 : stored_token bare_node = None) by reflexivity.
  assert (H3' : stored_token restarted_bare = None) by (vm_compute; reflexivity).
  assert (H4 : stored_token fresh_page = Some "token") by reflexivity.
  assert (H4' : stored_token fresh_node = Some "token") by reflexivity.
  assert (H5 : untouched fresh_page).
  { split; [|split].
    - intros k. destruct k; eexists; reflexivity.
    - split; intros s; discriminate.
    - exact I. }
  assert (H5' : untouched fresh_node).
  { split; [|split].
    - intros k. destruct k; eexists; reflexivity.
    - exact I.
    - intros l Hl. destruct Hl. }
  split; [exact H1|]. split; [exact H2|]. split; [exact H3|]. split; [exact H3'|].
  split; [exact H4|]. split; [exact H4'|]. split; [exact H5|]. split; [exact H5'|].
  split; [exact (proj1 (X21_componentDidMount manual_props new_provider None fresh_node) H1)|].
  split; [|split; [|split]].
  - destruct (X21_componentDidMount default_props new_provider None bare_node)
      as (_ & Hfail & _).
    destruct (Hfail H2 H3) as (w' & _ & Hrun).
    assert (Hr : reaches_host KError bare_node = true) by reflexivity.
    rewrite Hr in Hrun. exists w'. exact Hrun.
  - destruct (X21_componentDidMount default_props new_provider None restarted_bare)
      as (_ & Hfail & _).
    destruct (Hfail H2 H3') as (w' & _ & Hrun).
    assert (Hr : reaches_host KError restarted_bare = false) by (vm_compute; reflexivity).
    rewrite Hr in Hrun. exists w'. exact Hrun.
  - destruct (X21_componentDidMount default_props new_provider None fresh_page)
      as (_ & _ & Hok).
    destruct (Hok "token" H2 H4 H5)
      as (w1 & p' & w' & _ & Hrun & _ & _ & Hpath & Hcase).
    destruct (Hpath eq_refl enabled_config eq_refl) as (_ & Hact).
    rewrite Hact in Hcase.
    assert (Hw : wants_listeners default_props fresh_page = true) by reflexivity.
    assert (Hwin : window fresh_page =
                   Some (mkWindow None None (Some "https://example.test/") (Some "UA")))
      by reflexivity.
    rewrite Hw, Hwin in Hcase. cbn [enabled_is_true enabled enabled_config andb] in Hcase.
    destruct Hcase as (_ & Hp). rewrite Hp in Hrun.
    exists w'. exact Hrun.
  - destruct (X21_componentDidMount default_props new_provider None fresh_node)
      as (_ & _ & Hok).
    destruct (Hok "token" H2 H4' H5')
      as (w1 & p' & w' & _ & Hrun & _ & _ & Hpath & Hcase).
    destruct (Hpath eq_refl enabled_config eq_refl) as (_ & Hact).
    rewrite Hact in Hcase.
    assert (Hw : wants_listeners default_props fresh_node = true) by reflexivity.
    assert (Hwin : window fresh_node = None) by reflexivity.
    rewrite Hw, Hwin in Hcase. cbn [enabled_is_true enabled enabled_config andb] in Hcase.
    rewrite Hcase in Hrun.
    exists w'. exact Hrun.
Defined.

Lemma X22_witness :
  auto_starts default_props = true /\
  truthy_opt (prop_projectPath default_props) = false /\
  config_file fresh_page (cli_path fresh_page) = Holds enabled_config /\
  config_file fresh_node (cli_path fresh_node) = Holds enabled_config /\
  truthy_str (accessToken enabled_config) = true /\
  untouched fresh_page /\ untouched fresh_node /\
  window fresh_page <> None /\ window fresh_node = None /\
  unmount_blocked mounted_outside started_node = true /\
  unmount_blocked active_provider restarted_node = false /\
  isStarted (monitor restarted_node) = true /\
  reaches_host KLog restarted_node = false /\
  componentWillUnmount mounted_outside started_node
  = Ok (mounted_outside, Threw ReferenceError) started_node /\
  componentWillUnmount new_provider fresh_page
  = Ok (unmounted new_provider, Returned) fresh_page /\
  (exists w',
     componentWillUnmount active_provider restarted_node
     = Ok (unmount_interrupted active_provider, Threw RangeError) w' /\
     isStarted (monitor w') = false) /\
  (exists p' w' w'',
     componentDidMount default_props new_provider None fresh_page = Ok (p', Returned) w' /\
     componentWillUnmount p' w' = Ok (unmounted p', Returned) w'' /\
     isStarted (monitor w'') = false /\
     exists s, console w'' = mkConsole (OwnHook s) (OwnHook (S s)) (OwnHook (S (S s)))) /\
  (exists p' w',
     componentDidMount default_props new_provider None fresh_node = Ok (p', Returned) w' /\
     prov_isActive p' = true /\
     componentWillUnmount p' w' = Ok (p', Threw ReferenceError) w' /\
     isActive w' = Ok true w').
Proof.
  assert (H1 : auto_starts default_props = true) by reflexivity.
  assert (H2 : truthy_opt (prop_projectPath default_props) = false) by reflexivity.
  assert (H3 : config_file fresh_page (cli_path fresh_page) = Holds enabled_config)
    by reflexivity.
  assert (H3' : config_file fresh_node (cli_path fresh_node) = Holds enabled_config)
    by reflexivity.
  assert (H4 : truthy_str (accessToken enabled_config) = true) by reflexivity.
  assert (H5 : untouched fresh_page).
  { split; [|split].
    - intros k. destruct k; eexists; reflexivity.
    - split; intros s; discriminate.
    - exact I. }
  assert (H5' : untouched fresh_node).
  { split; [|split].
    - intros k. destruct k; eexists; reflexivity.
    - exact I.
    - intros l Hl. destruct Hl. }
  assert (H6 : window fresh_page <> None) by discriminate.
  assert (H6' : window fresh_node = None) by reflexivity.
  assert (H7 : unmount_blocked mounted_outside started_node = true) by reflexivity.
  assert (H8 : unmount_blocked active_provider restarted_node = false) by reflexivity.
  assert (H9 : isStarted (monitor restarted_node) = true) by (vm_compute; reflexivity).
  assert (H10 : reaches_host KLog restarted_node = false) by (vm_compute; reflexivity).
  split; [exact H1|]. split; [exact H2|]. split; [exact H3|]. split; [exact H3'|].
  split; [exact H4|]. split; [exact H5|]. split; [exact H5'|]. split; [exact H6|].
  split; [exact H6'|]. split; [exact H7|]. split; [exact H8|]. split; [exact H9|].
  split; [exact H10|].
  split; [|split; [|split; [|split]]].
  - destruct (X22_mount_then_unmount default_props mounted_outside None started_node
                enabled_config) as (Hblocked & _).
    exact (Hblocked H7).
  - destruct (X22_mount_then_unmount default_props new_provider None fresh_page
                enabled_config) as (_ & Hidle & _).
    exact (Hidle eq_refl eq_refl).
  - destruct (X22_mount_then_unmount default_props active_provider None restarted_node
                enabled_config) as (_ & _ & _ & Hstop & _).
    destruct (Hstop H8 eq_refl H9) as (w' & _ & Hst & Hrun).
    rewrite H10 in Hrun. exists w'. split; [exact Hrun | exact Hst].
  - destruct (X22_mount_then_unmount default_props new_provider None fresh_page
                enabled_config) as (_ & _ & _ & _ & Hboth & _).
    destruct (Hboth H1 H2 H3 H4 H5 H6) as (p' & w' & w'' & Hm & Hu & Hst & _ & _ & Hs).
    exists p', w', w''. split; [exact Hm|]. split; [exact Hu|].
    split; [exact Hst | exact Hs].
  - destruct (X22_mount_then_unmount default_props new_provider None fresh_node
                enabled_config) as (_ & _ & _ & _ & _ & Houtside).
    exact (Houtside H1 H2 H3' H4 eq_refl eq_refl H5' H6').
Defined.

Lemma X23_witness :
  config (monitor bare_node) = None /\
  host_behind KLog bare_node = Some 3%nat /\
  host_behind KLog started_node = Some 3%nat /\
  reaches_host KError started_node = true /\
  reaches_host KLog restarted_node = false /\
  reaches_host KError restarted_node = false /\
  (exists report,
     testWebhook None bare_node = Ok tt (reported report bare_node) /\
     posts (reported report bare_node) = posts bare_node) /\
  (exists w' before,
     testWebhook_settled None bare_node = Ok tt w' /\
     host_calls w' =
       (before ++ [Called 3 [Str "Test webhook call sent successfully."]])%list) /\
  (exists w' before,
     testWebhook_settled (Some (Failed (BadStatus 500))) started_node = Ok tt w' /\
     host_calls w' =
       (before ++ [Called 3 [Str "Test webhook call sent successfully."]])%list) /\
  (exists w', testWebhook_settled (Some Delivered) restarted_node = Throw RangeError w') /\
  testWebhook_settled (Some (Failed (BadStatus 500))) restarted_node
  = Throw RangeError restarted_node.
Proof.
  assert (H1 : config (monitor bare_node) = None) by reflexivity.
  assert (H2 : host_behind KLog bare_node = Some 3%nat) by reflexivity.
  assert (H3 : host_behind KLog started_node = Some 3%nat) by reflexivity.
  assert (H4 : reaches_host KError started_node = true) by reflexivity.
  assert (H5 : reaches_host KLog restarted_node = false) by (vm_compute; reflexivity).
  assert (H6 : reaches_host KError restarted_node = false) by (vm_compute; reflexivity).
  split; [exact H1|]. split; [exact H2|]. split; [exact H3|]. split; [exact H4|].
  split; [exact H5|]. split; [exact H6|].
  split; [|split; [|split; [|split]]].
  - destruct (X23_testWebhook bare_node None None)
      as ((report & Hrun & _ & _ & _ & _ & _ & Hposts) & _).
    exists report. split; [exact Hrun | exact (Hposts H1)].
  - destruct (X23_testWebhook bare_node None None) as (_ & Hlog & _).
    destruct (Hlog 3%nat H2) as (w' & before & Hs & Hcalls & _); [discriminate|].
    exists w', before. auto.
  - destruct (X23_testWebhook started_node None (Some (Failed (BadStatus 500))))
      as (_ & Hlog & _).
    destruct (Hlog 3%nat H3) as (w' & before & Hs & Hcalls & _); [intros f _; exact H4|].
    exists w', before. auto.
  - destruct (X23_testWebhook restarted_node None (Some Delivered))
      as (_ & _ & Hbroken & _).
    destruct (Hbroken H5) as (w' & Hrun & _). exists w'. exact Hrun.
  - destruct (X23_testWebhook restarted_node None (Some (Failed (BadStatus 500))))
      as (_ & _ & _ & Hfailed).
    exact (Hfailed (BadStatus 500) eq_refl H6).
Defined.


End MoreExamples.
